(** * ARQV30 Enhanced v3.0: the deep sanitizer, the super orchestrator and
      the report generator, embedded and verified.

    The development follows two source files,
    [services/comprehensive_report_generator.py] and
    [services/super_orchestrator.py].

    Conventions of the embedding.
    - A Python value is a [value]: a tree of scalars, mappings and sequences,
      plus [VOther] for an object of any other type (a tuple, a set, an
      exception, an instance of a class of the caller), of which the truth
      value [bool(obj)] and the outcome of [str(obj)] are kept; such an
      object has none of the methods the code calls on its data ([get],
      [lower]).  Mapping keys are strings (the data is JSON-like); a mapping
      is an association list in insertion order, and [dict_set] is Python's
      [d[k] = v].
    - A string is a [string]; one [ascii] stands for one character of a
      Python [str], so [String.length] is [len].  The literal texts of the
      source are kept byte for byte.
    - A float only travels through the code; it is carried as an integer
      payload and its rounding is not modelled.
    - An exception is an [exn] with the text [str(e)] gives.  Every handler
      of the two files is [except Exception] (or a bare [except]); only
      exceptions of that class are modelled.
    - Code that may raise returns a [result]; code that also reads or
      writes the session table or calls the two sinks runs in the monad [M]. *)

From Stdlib Require Import String Ascii List ZArith Lia Bool DecimalString.
Import ListNotations.

Local Open Scope string_scope.
Local Open Scope list_scope.

Set Warnings "-register-all".

(* ================================================================== *)
(** * Part I: definitions *)
(* ================================================================== *)

(** ** Python data *)

Inductive exn : Type :=
| Exception (kind : string) (msg : string).

Definition str_exn (e : exn) : string :=
  match e with Exception _ msg => msg end.

Inductive result (A : Type) : Type :=
| Ok (a : A)
| Raise (e : exn).

Arguments Ok {A} a.
Arguments Raise {A} e.

Definition rbind {A B : Type} (r : result A) (k : A -> result B) : result B :=
  match r with
  | Ok a => k a
  | Raise e => Raise e
  end.

Inductive value : Type :=
| VNone
| VBool (b : bool)
| VInt (n : Z)
| VFloat (f : Z)
| VStr (s : string)
| VDict (items : list (string * value))
| VList (items : list value)
| VOther (truth : bool) (repr : result string).

(** One level of an object, with the children left as references of type
    [O].  With [O := value] this is a tree; with [O] a type of addresses
    and a store it is an object graph, where aliasing and cycles exist. *)
Inductive node (O : Type) : Type :=
| NNone
| NBool (b : bool)
| NInt (n : Z)
| NFloat (f : Z)
| NStr (s : string)
| NDict (items : list (string * O))
| NList (items : list O)
| NOther (repr : result string).

Arguments NNone {O}.
Arguments NBool {O} b.
Arguments NInt {O} n.
Arguments NFloat {O} f.
Arguments NStr {O} s.
Arguments NDict {O} items.
Arguments NList {O} items.
Arguments NOther {O} repr.

Definition view_value (v : value) : node value :=
  match v with
  | VNone => NNone
  | VBool b => NBool b
  | VInt n => NInt n
  | VFloat f => NFloat f
  | VStr s => NStr s
  | VDict items => NDict items
  | VList items => NList items
  | VOther _ r => NOther r
  end.

(** An object graph: a store from addresses to nodes.  An address may occur
    under itself (a back-reference such as a [parent] field). *)
Definition store : Type := nat -> node nat.

Definition view_store (h : store) (a : nat) : node nat := h a.

(** ** Strings, lists and mappings as Python uses them *)

(** [s[:n]] for [0 <= n]. *)
Fixpoint str_take (n : nat) (s : string) : string :=
  match n, s with
  | S n', String c s' => String c (str_take n' s')
  | _, _ => EmptyString
  end.


(** [len(s)], as a Python int. *)
Definition len (s : string) : Z := Z.of_nat (String.length s).

(** [str(i)] for an index [i] of [enumerate]. *)
Definition str_of_nat (i : nat) : string :=
  NilEmpty.string_of_uint (Nat.to_uint i).

(** [enumerate(l)]. *)
Definition enumerate {A : Type} (l : list A) : list (nat * A) :=
  combine (seq 0 (List.length l)) l.

(** [k in l] for a list of strings. *)
Definition in_strs (k : string) (l : list string) : bool :=
  existsb (String.eqb k) l.

(** [d[k] = v]: the binding of an existing key is replaced in place, a new
    key goes last. *)
Fixpoint dict_set {A : Type} (k : string) (v : A) (d : list (string * A))
  : list (string * A) :=
  match d with
  | [] => [(k, v)]
  | (k', v') :: d' =>
      if String.eqb k k' then (k, v) :: d' else (k', v') :: dict_set k v d'
  end.

(** [d.get(k)], [None] standing for a missing key. *)
Fixpoint dict_find {A : Type} (k : string) (d : list (string * A)) : option A :=
  match d with
  | [] => None
  | (k', v') :: d' => if String.eqb k k' then Some v' else dict_find k d'
  end.

(** ** comprehensive_report_generator.py: [_deep_clean_data] *)

Definition deny_list : list string :=
  ["circular_ref"; "parent"; "root"; "_internal"].

Definition max_depth_marker : value :=
  VDict [("error", VStr "Max depth reached")].

Definition truncated (s : string) : value :=
  VStr (str_take (Z.to_nat 10000) s ++ "... [truncated]").

Section DeepClean.

Context {Obj : Type}.
Variable view : Obj -> node Obj.

(** [isinstance(value, str) and len(value) > 10000]. *)
Definition long_str (o : Obj) : option string :=
  match view o with
  | NStr s => if (10000 <? len s)%Z then Some s else None
  | _ => None
  end.

(** One turn of the loop over [obj.items()], handler included. *)
Definition clean_entry (rec : Obj -> result value)
    (cleaned : list (string * value)) (key : string) (val : Obj)
  : list (string * value) :=
  let body :=
    if in_strs key deny_list then Ok cleaned
    else
      match long_str val with
      | Some s => Ok (dict_set key (truncated s) cleaned)
      | None => rbind (rec val) (fun v => Ok (dict_set key v cleaned))
      end in
  match body with
  | Ok cleaned' => cleaned'
  | Raise e =>
      dict_set key
        (VStr ("[Error processing: " ++ str_take 100 (str_exn e) ++ "]"))
        cleaned
  end.

(** One turn of the loop over [enumerate(obj[:50])], handler included. *)
Definition clean_elem (rec : Obj -> result value)
    (cleaned : list value) (i : nat) (item : Obj) : list value :=
  match rec item with
  | Ok v => cleaned ++ [v]
  | Raise e =>
      cleaned ++
      [VStr ("[Error in item " ++ str_of_nat i ++ ": "
             ++ str_take 100 (str_exn e) ++ "]")]
  end.

(** The body of [_deep_clean_data], by recursion on the number [gap] of
    levels that [current_depth] may still grow before it exceeds
    [max_depth]: [gap = 0] is the test [current_depth > max_depth]. *)
Fixpoint clean_at (gap : nat) (obj : Obj) : result value :=
  match gap with
  | O => Ok max_depth_marker
  | S gap' =>
      match view obj with
      | NNone => Ok VNone
      | NBool b => Ok (VBool b)
      | NInt n => Ok (VInt n)
      | NFloat f => Ok (VFloat f)
      | NStr s => Ok (VStr s)
      | NDict items =>
          Ok (VDict
                (fold_left
                   (fun cleaned kv =>
                      clean_entry (clean_at gap') cleaned (fst kv) (snd kv))
                   items []))
      | NList items =>
          Ok (VList
                (fold_left
                   (fun cleaned ix =>
                      clean_elem (clean_at gap') cleaned (fst ix) (snd ix))
                   (enumerate (firstn 50 items)) []))
      | NOther repr =>
          match repr with
          | Ok s => Ok (VStr (str_take 1000 s))
          | Raise _ => Ok (VStr "[Unserializable object]")
          end
      end
  end.

Definition depth_gap (max_depth current_depth : Z) : nat :=
  Z.to_nat (max_depth - current_depth + 1).

Definition _deep_clean_data (obj : Obj) (max_depth current_depth : Z)
  : result value :=
  clean_at (depth_gap max_depth current_depth) obj.

(** The same walk with the handlers left out: what [clean_at] returns
    (lemma [clean_at_ok]). *)
Definition entry_value (rec : Obj -> value) (o : Obj) : value :=
  match long_str o with
  | Some s => truncated s
  | None => rec o
  end.

Definition keep_entry (h : Obj -> value)
    (cleaned : list (string * value)) (kv : string * Obj)
  : list (string * value) :=
  if in_strs (fst kv) deny_list then cleaned
  else dict_set (fst kv) (h (snd kv)) cleaned.

Fixpoint cleaned_value (gap : nat) (obj : Obj) : value :=
  match gap with
  | O => max_depth_marker
  | S gap' =>
      match view obj with
      | NNone => VNone
      | NBool b => VBool b
      | NInt n => VInt n
      | NFloat f => VFloat f
      | NStr s => VStr s
      | NDict items =>
          VDict
            (fold_left (keep_entry (entry_value (cleaned_value gap')))
               items [])
      | NList items => VList (map (cleaned_value gap') (firstn 50 items))
      | NOther repr =>
          match repr with
          | Ok s => VStr (str_take 1000 s)
          | Raise _ => VStr "[Unserializable object]"
          end
      end
  end.

End DeepClean.

(** ** Measures and predicates on values *)

(** Nesting depth: a scalar has depth 0, a mapping or a sequence one more
    than its deepest member. *)
Fixpoint depth (v : value) : nat :=
  match v with
  | VDict items => S (list_max (map (fun kv => depth (snd kv)) items))
  | VList items => S (list_max (map depth items))
  | _ => 0
  end.

(** Only scalars, mappings and sequences: no object of another type. *)
Fixpoint plain (v : value) : bool :=
  match v with
  | VDict items => forallb (fun kv => plain (snd kv)) items
  | VList items => forallb plain items
  | VOther _ _ => false
  | _ => true
  end.

(** The key [k] is bound in some mapping of [v], at any depth. *)
Fixpoint key_occurs (k : string) (v : value) : bool :=
  match v with
  | VDict items =>
      existsb (fun kv => String.eqb k (fst kv) || key_occurs k (snd kv)) items
  | VList items => existsb (key_occurs k) items
  | _ => false
  end.

(** Every sequence of [v] has at most [n] elements. *)
Fixpoint lists_within (n : nat) (v : value) : bool :=
  match v with
  | VDict items => forallb (fun kv => lists_within n (snd kv)) items
  | VList items =>
      (List.length items <=? n)%nat && forallb (lists_within n) items
  | _ => true
  end.

(** ** More of Python: truth, types, lookups *)

(** [bool(v)], the test of [if v]: [None], zero and what is empty are
    false; an object of a foreign type says for itself ([__bool__],
    [__len__]: an empty tuple is false). *)
Definition truthy (v : value) : bool :=
  match v with
  | VNone => false
  | VBool b => b
  | VInt n => negb (n =? 0)%Z
  | VFloat f => negb (f =? 0)%Z
  | VStr s => negb (String.eqb s EmptyString)
  | VDict items => match items with [] => false | _ => true end
  | VList items => match items with [] => false | _ => true end
  | VOther truth _ => truth
  end.

(** [isinstance(v, dict)]. *)
Definition is_dict (v : value) : bool :=
  match v with VDict _ => true | _ => false end.

(** [type(v).__name__]; the class of a [VOther] object is not kept. *)
Definition type_name (v : value) : string :=
  match v with
  | VNone => "NoneType"
  | VBool _ => "bool"
  | VInt _ => "int"
  | VFloat _ => "float"
  | VStr _ => "str"
  | VDict _ => "dict"
  | VList _ => "list"
  | VOther _ _ => "object"
  end.

Definition AttributeError (v : value) (attr : string) : exn :=
  Exception "AttributeError"
    ("'" ++ type_name v ++ "' object has no attribute '" ++ attr ++ "'").

Definition TypeError (msg : string) : exn := Exception "TypeError" msg.

Definition KeyError (k : string) : exn := Exception "KeyError" ("'" ++ k ++ "'").

(** [d.get(k, default)] on a mapping. *)
Definition dict_get (d : list (string * value)) (k : string) (default : value)
  : value :=
  match dict_find k d with
  | Some v => v
  | None => default
  end.

(** [v.get(k, default)] on any value: only a mapping has [get]. *)
Definition py_get (v : value) (k : string) (default : value) : result value :=
  match v with
  | VDict d => Ok (dict_get d k default)
  | _ => Raise (AttributeError v "get")
  end.

(** [k in d] for a mapping. *)
Definition dict_has (d : list (string * value)) (k : string) : bool :=
  match dict_find k d with Some _ => true | None => false end.

Definition lower_ascii (c : ascii) : ascii :=
  let n := nat_of_ascii c in
  if ((65 <=? n) && (n <=? 90))%nat then ascii_of_nat (n + 32) else c.

(** [s.lower()] for a text of ASCII characters. *)
Fixpoint ascii_lower (s : string) : string :=
  match s with
  | EmptyString => EmptyString
  | String c s' => String (lower_ascii c) (ascii_lower s')
  end.

(** [v.lower()]: only a [str] has [lower]; [lower] is the case mapping
    Python applies to a [str]. *)
Definition py_lower (lower : string -> string) (v : value) : result string :=
  match v with
  | VStr s => Ok (lower s)
  | _ => Raise (AttributeError v "lower")
  end.

Definition nl : string := String (ascii_of_nat 10) EmptyString.

(** The lines of a text, each closed by a newline. *)
Fixpoint unlines (ls : list string) : string :=
  match ls with
  | [] => EmptyString
  | l :: ls' => l ++ nl ++ unlines ls'
  end.

(** ** The state of a run: a small state-and-exception monad *)

Definition M (S A : Type) : Type := S -> result A * S.

Definition ret {S A : Type} (a : A) : M S A := fun s => (Ok a, s).

Definition raise {S A : Type} (e : exn) : M S A := fun s => (Raise e, s).

Definition bind {S A B : Type} (m : M S A) (k : A -> M S B) : M S B :=
  fun s =>
    match m s with
    | (Ok a, s') => k a s'
    | (Raise e, s') => (Raise e, s')
    end.

(** [try: body  except Exception as e: handler]. *)
Definition try_except {S A : Type} (body : M S A) (handler : exn -> M S A)
  : M S A :=
  fun s =>
    match body s with
    | (Ok a, s') => (Ok a, s')
    | (Raise e, s') => handler e s'
    end.

(** The outcome of a [try] body, handed to what follows it. *)
Definition attempt {S A : Type} (body : M S A) : M S (result A) :=
  fun s => let (r, s') := body s in (Ok r, s').

Definition lift {S A : Type} (r : result A) : M S A := fun s => (r, s).

Definition get_state {S : Type} : M S S := fun s => (Ok s, s).

Definition put_state {S : Type} (s : S) : M S unit := fun _ => (Ok tt, s).

Declare Scope monad_scope.
Delimit Scope monad_scope with monad.

Notation "x <- m ;; k" := (bind m (fun x => k))
  (at level 61, m at next level, right associativity) : monad_scope.
Notation "m ;;; k" := (bind m (fun _ => k))
  (at level 61, right associativity) : monad_scope.

(** ** The collaborators of the orchestrator *)

(** A progress callback, called with a step number and a message. *)
Definition callback : Type := Z -> string -> result unit.

(** What the run asks of the outside.  [services.auto_save_manager],
    [services.ultra_detailed_analysis_engine] and
    [services.enhanced_analysis_orchestrator] are imported by the source and
    are no part of it; the funnel analyzer and the insights generator are
    content providers, taken here by their interface as well.  Clock
    readings, the text Python gives for a value inside an f-string and the
    lower case of a text come from outside too. *)
Record collaborators : Type := {
  generate_gigantic_analysis :
    list (string * value) -> string -> option callback -> result value;
  execute_ultra_enhanced_analysis :
    list (string * value) -> string -> option callback -> result value;
  analyze_conversion_funnel :
    list (string * value) -> value -> result value;
  generate_strategic_insights :
    list (string * value) -> result value;
  salvar_etapa : string -> value -> string -> result unit;
  salvar_erro : string -> exn -> value -> result unit;
  (** [time.time()]: the reading at the start and at the end of a run. *)
  time_start : Z;
  time_end : Z;
  (** [datetime.now().isoformat()], by the function that asks. *)
  now_isoformat : string -> string;
  (** [datetime.now().strftime('%d/%m/%Y %H:%M:%S')]. *)
  now_strftime : string;
  (** [str(v)] of a value that is not a [str]. *)
  py_repr : value -> string;
  (** [s.lower()]: the case mapping of Unicode is Python's own. *)
  str_lower : string -> string
}.

(** [f"{v}"]. *)
Definition format_value (env : collaborators) (v : value) : string :=
  match v with
  | VStr s => s
  | _ => py_repr env v
  end.

Definition raises {A : Type} (r : result A) : Prop := exists e, r = Raise e.

Definition base_provider_raises (env : collaborators) : Prop :=
  forall data session_id cb,
    raises (generate_gigantic_analysis env data session_id cb).

Definition enhanced_provider_raises (env : collaborators) : Prop :=
  forall data session_id cb,
    raises (execute_ultra_enhanced_analysis env data session_id cb).

Definition funnel_provider_raises (env : collaborators) : Prop :=
  forall data segment, raises (analyze_conversion_funnel env data segment).

Definition insights_provider_raises (env : collaborators) : Prop :=
  forall data, raises (generate_strategic_insights env data).

Definition all_providers_raise (env : collaborators) : Prop :=
  base_provider_raises env /\ enhanced_provider_raises env /\
  funnel_provider_raises env /\ insights_provider_raises env.

(** The error sink takes every record; the persistence sink takes every
    step. *)
Definition error_sink_accepts (env : collaborators) : Prop :=
  forall nome e contexto, salvar_erro env nome e contexto = Ok tt.

Definition step_sink_accepts (env : collaborators) : Prop :=
  forall nome payload categoria,
    salvar_etapa env nome payload categoria = Ok tt.

(** The callback returns at every call. *)
Definition callback_returns (cb : option callback) : Prop :=
  forall f, cb = Some f -> forall step message, f step message = Ok tt.

(** The providers do not look at the callback they are handed. *)
Definition providers_ignore_callback (env : collaborators) : Prop :=
  (forall data session_id cb,
     generate_gigantic_analysis env data session_id cb
     = generate_gigantic_analysis env data session_id None) /\
  (forall data session_id cb,
     execute_ultra_enhanced_analysis env data session_id cb
     = execute_ultra_enhanced_analysis env data session_id None).

(** A call made to a collaborator, as the run leaves it behind. *)
Inductive event : Type :=
| EProvider (stage : string) (outcome : result value)
| ESalvarEtapa (nome : string) (payload : value) (categoria : string)
| ESalvarErro (nome : string) (e : exn) (contexto : value).

(** [self.execution_state] and the calls made so far, oldest first. *)
Record world : Type := {
  execution_state : list (string * value);
  trace : list event
}.

Definition log (ev : event) : M world unit :=
  fun w =>
    (Ok tt, {| execution_state := execution_state w;
               trace := trace w ++ [ev] |}).

(** A loop whose body may raise: the first exception ends it. *)
Fixpoint result_fold {A B : Type} (f : A -> B -> result A) (l : list B) (a : A)
  : result A :=
  match l with
  | [] => Ok a
  | x :: l' => rbind (f a x) (result_fold f l')
  end.

(** ** super_orchestrator.py: the helpers of [SuperOrchestrator] *)

(** [_create_simple_copy], by recursion on the levels left as in
    [clean_at].  The comprehensions have no handler: an exception of
    [str(obj)] leaves the function. *)
Fixpoint simple_copy_at (gap : nat) (obj : value) : result value :=
  match gap with
  | O => Ok (VStr "[Max depth reached]")
  | S gap' =>
      match obj with
      | VDict items =>
          rbind
            (result_fold
               (fun copied kv =>
                  rbind (simple_copy_at gap' (snd kv))
                    (fun v => Ok (dict_set (fst kv) v copied)))
               (firstn 20 items) [])
            (fun copied => Ok (VDict copied))
      | VList items =>
          rbind
            (result_fold
               (fun copied item =>
                  rbind (simple_copy_at gap' item)
                    (fun v => Ok (copied ++ [v])))
               (firstn 10 items) [])
            (fun copied => Ok (VList copied))
      | VOther _ repr => rbind repr (fun s => Ok (VStr (str_take 500 s)))
      | _ => Ok obj
      end
  end.

Definition _create_simple_copy (obj : value) (max_depth current_depth : Z)
  : result value :=
  simple_copy_at (depth_gap max_depth current_depth) obj.

Definition safe_fields : list string :=
  ["pesquisa_web_massiva"; "avatar_ultra_detalhado"; "metadata_gigante"].

Definition _safe_combine_data (original_data : list (string * value))
    (base_analysis : value) : list (string * value) :=
  let body : result (list (string * value)) :=
    let combined := original_data in
    match base_analysis with
    | VDict base =>
        if truthy base_analysis then
          Ok (fold_left
                (fun combined field =>
                   match dict_find field base with
                   | Some field_value =>
                       match _create_simple_copy field_value 3 0 with
                       | Ok field_data => dict_set field field_data combined
                       | Raise _ => combined
                       end
                   | None => combined
                   end)
                safe_fields combined)
        else Ok combined
    | _ => Ok combined
    end in
  match body with
  | Ok combined => combined
  | Raise _ => original_data
  end.

Definition _combine_all_analyses (base_analysis enhanced_analysis
    funnel_analysis : value) (original_data : list (string * value))
  : list (string * value) :=
  let body : result (list (string * value)) :=
    rbind
      (if truthy base_analysis then
         rbind (py_get base_analysis "pesquisa_web_massiva" (VDict []))
           (fun mercado =>
         rbind (py_get base_analysis "avatar_ultra_detalhado" (VDict []))
           (fun avatar =>
         Ok (dict_set "avatar" avatar
               (dict_set "mercado" mercado original_data))))
       else Ok original_data)
      (fun combined =>
    rbind
      (if truthy enhanced_analysis then
         rbind (py_get enhanced_analysis "consolidated_analysis" (VDict []))
           (fun psicologia => Ok (dict_set "psicologia" psicologia combined))
       else Ok combined)
      (fun combined =>
    if truthy funnel_analysis then
      rbind (py_get funnel_analysis "funil_conversao" (VDict []))
        (fun funil => Ok (dict_set "funil" funil combined))
    else Ok combined)) in
  match body with
  | Ok combined => combined
  | Raise _ => original_data
  end.

Definition next_steps_lines : list string :=
  ["### 🎯 PRÓXIMOS PASSOS RECOMENDADOS";
   "1. Revisar avatar e ajustar estratégia de comunicação";
   "2. Implementar abordagens baseadas nos insights descobertos";
   "3. Monitorar métricas de performance";
   "4. Otimizar estratégia baseado em resultados"].

Section SuperOrchestrator.

Variable env : collaborators.

Definition _create_fallback_analysis (data : list (string * value))
  : result value :=
  let segmento := dict_get data "segmento" (VStr "Empreendedores") in
  let produto := dict_get data "produto" (VStr "Programa MASI") in
  rbind (py_lower (str_lower env) segmento) (fun segmento_lower =>
  Ok (VDict
    [("tipo_analise", VStr "FALLBACK_ROBUSTO");
     ("projeto_dados", VDict data);
     ("analise_mercado", VDict
        [("segmento", segmento);
         ("produto", produto);
         ("status", VStr "Análise básica robusta");
         ("tendencias", VList
            [VStr ("Crescimento do mercado de " ++ segmento_lower
                   ++ " no Brasil");
             VStr "Digitalização acelerada pós-pandemia";
             VStr "Demanda por soluções personalizadas";
             VStr "Foco em resultados mensuráveis"]);
         ("oportunidades", VList
            [VStr "Nichos específicos com menor concorrência";
             VStr "Soluções híbridas online/offline";
             VStr "Parcerias estratégicas";
             VStr "Expansão geográfica gradual"])]);
     ("avatar_basico", VDict
        [("perfil", VStr ("Profissional de " ++ format_value env segmento));
         ("dores_principais", VList
            [VStr "Falta de direcionamento estratégico";
             VStr "Dificuldade de escalar negócio";
             VStr "Sobrecarga operacional"]);
         ("desejos_centrais", VList
            [VStr "Crescimento sustentável";
             VStr "Mais liberdade operacional";
             VStr "Reconhecimento no mercado"])]);
     ("metadata_fallback", VDict
        [("engine", VStr "FALLBACK ROBUSTO v1.0");
         ("generated_at",
          VStr (now_isoformat env "_create_fallback_analysis"));
         ("quality_level", VStr "BÁSICO_FUNCIONAL")])])).

Definition _generate_executive_summary (base_analysis enhanced_analysis
    funnel_analysis strategic_insights : value)
    (original_data : list (string * value)) : string :=
  let segmento := dict_get original_data "segmento" (VStr "Empreendedores") in
  let produto := dict_get original_data "produto" (VStr "Programa MASI") in
  let quality_level :=
    if truthy enhanced_analysis then "PREMIUM"
    else if truthy base_analysis then "HIGH" else "BASIC" in
  unlines
    ([EmptyString;
      "# SUMÁRIO EXECUTIVO - ANÁLISE ULTRA ROBUSTA";
      ("## Segmento: " ++ format_value env segmento)%string;
      ("## Produto/Serviço: " ++ format_value env produto)%string;
      ("## Data: " ++ now_strftime env)%string;
      ("## Nível de Qualidade: " ++ quality_level)%string;
      EmptyString;
      "### ✅ COMPONENTES ANALISADOS";
      ("- Análise de Mercado: "
        ++ (if truthy base_analysis then "✅ Completa" else "⚠️ Básica"))%string;
      ("- Avatar Detalhado: "
        ++ (if truthy base_analysis then "✅ Completo" else "⚠️ Básico"))%string;
      ("- Análise Psicológica: "
        ++ (if truthy enhanced_analysis then "✅ Completa"
            else "⚠️ Não disponível"))%string;
      ("- Funil de Vendas: "
        ++ (if truthy funnel_analysis then "✅ Completo"
            else "⚠️ Não disponível"))%string;
      ("- Insights Estratégicos: "
        ++ (if truthy strategic_insights then "✅ Completos"
            else "⚠️ Não disponível"))%string;
      "- Estratégia de Implementação: ✅ Incluída";
      "- Plano de Ação: ✅ Pronto para uso";
      EmptyString]
     ++ next_steps_lines
     ++ [EmptyString;
         "### 💪 GARANTIAS DE QUALIDADE";
         "- Sistema ultra robusto que nunca falha completamente";
         "- Sempre entrega análise funcional e aplicável";
         "- Dados salvos automaticamente para recuperação";
         "- Processo completamente auditável"])%list.

(** One optional section of the consolidated report:
    [if analysis and isinstance(analysis, dict): consolidated[key] = copy]. *)
Definition add_section (key : string) (analysis : value)
    (consolidated : list (string * value))
  : result (list (string * value)) :=
  if truthy analysis && is_dict analysis then
    rbind (_create_simple_copy analysis 3 0)
      (fun copied => Ok (dict_set key copied consolidated))
  else Ok consolidated.

Definition _consolidate_results_robustly (base_analysis enhanced_analysis
    funnel_analysis strategic_insights : value)
    (original_data : list (string * value)) (session_id : string)
  : result value :=
  let consolidated :=
    [("session_id", VStr session_id);
     ("generated_at",
      VStr (now_isoformat env "_consolidate_results_robustly"));
     ("engine_version", VStr "ARQV30 Enhanced v3.0 - ULTRA ROBUST");
     ("consolidation_status", VStr "SUCCESS")] in
  rbind (add_section "analise_base" base_analysis consolidated)
    (fun consolidated =>
  rbind (add_section "analise_aprimorada" enhanced_analysis consolidated)
    (fun consolidated =>
  rbind (add_section "analise_funil" funnel_analysis consolidated)
    (fun consolidated =>
  rbind (add_section "insights_estrategicos" strategic_insights consolidated)
    (fun consolidated =>
  rbind (_create_simple_copy (VDict original_data) 3 0)
    (fun dados_originais =>
  let consolidated :=
    dict_set "dados_originais" dados_originais consolidated in
  let consolidated :=
    dict_set "sumario_executivo"
      (VStr (_generate_executive_summary base_analysis enhanced_analysis
               funnel_analysis strategic_insights original_data))
      consolidated in
  Ok (VDict consolidated)))))).

Definition _generate_minimal_success_report (data : list (string * value))
    (session_id : string) (error : string) : value :=
  VDict
    [("success", VBool true);
     ("session_id", VStr session_id);
     ("execution_mode", VStr "EMERGENCY_SUCCESS");
     ("report", VDict
        [("segmento", dict_get data "segmento" (VStr "Não especificado"));
         ("produto", dict_get data "produto" (VStr "Não especificado"));
         ("status", VStr "Análise de emergência concluída com sucesso");
         ("recomendacao_principal",
          VStr "Execute nova análise com configurações verificadas");
         ("proximos_passos", VList
            [VStr "Verificar configuração de APIs";
             VStr "Testar conectividade de internet";
             VStr "Executar análise simples primeiro";
             VStr "Contatar suporte se problemas persistirem"]);
         ("dados_salvos", VBool true)]);
     ("error_handled", VStr error);
     ("generated_at",
      VStr (now_isoformat env "_generate_minimal_success_report"));
     ("guarantee",
      VStr "Sistema sempre funciona - análise mínima sempre entregue")].

End SuperOrchestrator.

(** ** super_orchestrator.py: [execute_synchronized_analysis] *)

Section Run.

Variable env : collaborators.

Local Open Scope monad_scope.

Definition call_salvar_etapa (nome : string) (payload : value)
    (categoria : string) : M world unit :=
  log (ESalvarEtapa nome payload categoria) ;;;
  lift (salvar_etapa env nome payload categoria).

Definition call_salvar_erro (nome : string) (e : exn) (contexto : value)
  : M world unit :=
  log (ESalvarErro nome e contexto) ;;;
  lift (salvar_erro env nome e contexto).

Definition call_provider (stage : string) (outcome : result value)
  : M world value :=
  log (EProvider stage outcome) ;;; lift outcome.

(** [if progress_callback: progress_callback(step, message)]. *)
Definition call_progress (progress_callback : option callback)
    (step : Z) (message : string) : M world unit :=
  match progress_callback with
  | Some f => lift (f step message)
  | None => ret tt
  end.

(** [self.execution_state[session_id] = {...}]. *)
Definition register_session (session_id : string) (start_time : Z)
  : M world unit :=
  fun w =>
    (Ok tt,
     {| execution_state :=
          dict_set session_id
            (VDict [("status", VStr "running");
                    ("start_time", VFloat start_time);
                    ("errors", VList [])])
            (execution_state w);
        trace := trace w |}).

(** [self.execution_state[session_id][key] = v]. *)
Definition set_session_field (session_id key : string) (v : value)
  : M world unit :=
  fun w =>
    match dict_find session_id (execution_state w) with
    | Some (VDict entry) =>
        (Ok tt,
         {| execution_state :=
              dict_set session_id (VDict (dict_set key v entry))
                (execution_state w);
            trace := trace w |})
    | Some other =>
        (Raise (TypeError ("'" ++ type_name other
                           ++ "' object does not support item assignment")),
         w)
    | None => (Raise (KeyError session_id), w)
    end.

Definition session_context (session_id : string) : value :=
  VDict [("session_id", VStr session_id)].

(** FASE 1: the handler puts the fallback analysis in [base_analysis]. *)
Definition run_base (data : list (string * value)) (session_id : string)
    (progress_callback : option callback) : M world value :=
  try_except
    (call_progress progress_callback 2 "🌐 Executando análise base..." ;;;
     base_analysis <-
       call_provider "generate_gigantic_analysis"
         (generate_gigantic_analysis env data session_id progress_callback) ;;
     call_salvar_etapa "analise_base_robusta" base_analysis
       "analise_completa" ;;;
     ret base_analysis)
    (fun e =>
       base_analysis <- lift (_create_fallback_analysis env data) ;;
       call_salvar_erro "analise_base_falhou" e
         (session_context session_id) ;;;
       ret base_analysis).

(** FASE 2: the handler puts [None] back in [enhanced_analysis]. *)
Definition run_enhanced (data : list (string * value)) (session_id : string)
    (progress_callback : option callback) (base_analysis : value)
  : M world value :=
  try_except
    (call_progress progress_callback 8
       "🧠 Executando análise psicológica..." ;;;
     let combined_data := _safe_combine_data data base_analysis in
     enhanced_analysis <-
       call_provider "execute_ultra_enhanced_analysis"
         (execute_ultra_enhanced_analysis env combined_data session_id
            progress_callback) ;;
     call_salvar_etapa "analise_psicologica_robusta" enhanced_analysis
       "analise_completa" ;;;
     ret enhanced_analysis)
    (fun e =>
       call_salvar_erro "analise_psicologica_falhou" e
         (session_context session_id) ;;;
       ret VNone).

(** FASE 3 and FASE 4: the handler leaves the variable as the body left
    it, [None] before the provider has returned and its result after. *)
Definition run_guarded (progress : M world unit) (stage : string)
    (outcome : result value) (etapa erro : string) (session_id : string)
  : M world value :=
  r <- attempt (progress ;;; call_provider stage outcome) ;;
  match r with
  | Raise e =>
      call_salvar_erro erro e (session_context session_id) ;;; ret VNone
  | Ok analysis =>
      s <- attempt (call_salvar_etapa etapa analysis "analise_completa") ;;
      match s with
      | Raise e =>
          call_salvar_erro erro e (session_context session_id) ;;;
          ret analysis
      | Ok _ => ret analysis
      end
  end.

Definition run_funnel (data : list (string * value)) (session_id : string)
    (progress_callback : option callback) (base_analysis : value)
  : M world value :=
  run_guarded
    (call_progress progress_callback 10 "🔄 Analisando funil de vendas...")
    "analyze_conversion_funnel"
    (analyze_conversion_funnel env (_safe_combine_data data base_analysis)
       (dict_get data "segmento" VNone))
    "analise_funil_vendas" "analise_funil_falhou" session_id.

Definition run_insights (data : list (string * value)) (session_id : string)
    (progress_callback : option callback)
    (base_analysis enhanced_analysis funnel_analysis : value)
  : M world value :=
  run_guarded
    (call_progress progress_callback 11
       "💡 Gerando insights estratégicos...")
    "generate_strategic_insights"
    (generate_strategic_insights env
       (_combine_all_analyses base_analysis enhanced_analysis
          funnel_analysis data))
    "insights_estrategicos" "insights_estrategicos_falhou" session_id.

(** The four stages, in their fixed order. *)
Definition run_stages (data : list (string * value)) (session_id : string)
    (progress_callback : option callback)
  : M world (value * value * value * value) :=
  base_analysis <- run_base data session_id progress_callback ;;
  enhanced_analysis <-
    run_enhanced data session_id progress_callback base_analysis ;;
  funnel_analysis <-
    run_funnel data session_id progress_callback base_analysis ;;
  strategic_insights <-
    run_insights data session_id progress_callback base_analysis
      enhanced_analysis funnel_analysis ;;
  ret (base_analysis, enhanced_analysis, funnel_analysis,
       strategic_insights).

Definition essential_categories : list string :=
  ["completas"; "reports"; "analise_completa"].

Fixpoint save_in (categories : list string) (results : value)
  : M world unit :=
  match categories with
  | [] => ret tt
  | category :: rest =>
      attempt (call_salvar_etapa ("resultado_final_" ++ category) results
                 category) ;;;
      save_in rest results
  end.

Definition _safe_save_all_data (results : value) (session_id : string)
  : M world unit :=
  save_in essential_categories results.

(** FASE 5, FASE 6 and the normal return. *)
Definition finish (data : list (string * value)) (session_id : string)
    (progress_callback : option callback) (start_time : Z)
    (stages : value * value * value * value) : M world value :=
  let '(base_analysis, enhanced_analysis, funnel_analysis,
        strategic_insights) := stages in
  call_progress progress_callback 12
    "📊 Consolidando resultados finais..." ;;;
  final_results <-
    lift (_consolidate_results_robustly env base_analysis enhanced_analysis
            funnel_analysis strategic_insights data session_id) ;;
  call_progress progress_callback 15 "💾 Salvando resultados..." ;;;
  _safe_save_all_data final_results session_id ;;;
  let execution_time := (time_end env - start_time)%Z in
  set_session_field session_id "status" (VStr "completed") ;;;
  set_session_field session_id "execution_time" (VFloat execution_time) ;;;
  ret (VDict
         [("success", VBool true);
          ("session_id", VStr session_id);
          ("execution_time", VFloat execution_time);
          ("report", final_results);
          ("sync_status", VStr "ULTRA_ROBUST_SUCCESS");
          ("quality_level",
           VStr (if truthy enhanced_analysis then "PREMIUM" else "HIGH"))]).

(** The outermost handler. *)
Definition emergency (data : list (string * value)) (session_id : string)
    (e : exn) : M world value :=
  set_session_field session_id "status" (VStr "completed_with_errors") ;;;
  set_session_field session_id "error" (VStr (str_exn e)) ;;;
  call_salvar_erro "super_orchestrator_critico" e
    (session_context session_id) ;;;
  ret (_generate_minimal_success_report env data session_id (str_exn e)).

(** [continue_from_saved] is read nowhere in the body and is left out. *)
Definition execute_synchronized_analysis (data : list (string * value))
    (session_id : string) (progress_callback : option callback)
  : M world value :=
  try_except
    (let start_time := time_start env in
     register_session session_id start_time ;;;
     call_progress progress_callback 1
       "🔧 Iniciando análise ultra robusta..." ;;;
     stages <- run_stages data session_id progress_callback ;;
     finish data session_id progress_callback start_time stages)
    (emergency data session_id).

End Run.

(** ** More of Python: membership, subscripts, comparison *)

(** [k in v] for a string [k]. *)
Definition py_contains (k : string) (v : value) : result bool :=
  match v with
  | VDict d => Ok (dict_has d k)
  | VStr s => Ok (match index 0 k s with Some _ => true | None => false end)
  | VList l =>
      Ok (existsb
            (fun x => match x with VStr s => String.eqb s k | _ => false end)
            l)
  | _ =>
      Raise (TypeError ("argument of type '" ++ type_name v
                        ++ "' is not iterable"))
  end.

(** [v[k]] for a string [k]. *)
Definition py_subscript (v : value) (k : string) : result value :=
  match v with
  | VDict d =>
      match dict_find k d with
      | Some x => Ok x
      | None => Raise (KeyError k)
      end
  | VStr _ => Raise (TypeError "string indices must be integers")
  | VList _ =>
      Raise (TypeError "list indices must be integers or slices, not str")
  | _ =>
      Raise (TypeError ("'" ++ type_name v ++ "' object is not subscriptable"))
  end.

(** [v > 0]. *)
Definition py_gt0 (v : value) : result bool :=
  match v with
  | VBool b => Ok b
  | VInt n => Ok (0 <? n)%Z
  | VFloat f => Ok (0 <? f)%Z
  | _ =>
      Raise (TypeError ("'>' not supported between instances of '"
                        ++ type_name v ++ "' and 'int'"))
  end.

(** ** comprehensive_report_generator.py: the report *)

Definition set_key (k : string) (v : value) : M (list (string * value)) unit :=
  fun d => (Ok tt, dict_set k v d).

(** [d[k]] on the mapping held as state. *)
Definition read_key (k : string) : M (list (string * value)) value :=
  fun d =>
    match dict_find k d with
    | Some v => (Ok v, d)
    | None => (Raise (KeyError k), d)
    end.

Section ExtractSafeData.

Local Open Scope monad_scope.

Variable data : value.

(** [if key in data: safe_data[flag] = True]. *)
Definition flag_if_present (key flag : string)
  : M (list (string * value)) unit :=
  present <- lift (py_contains key data) ;;
  if present then set_key flag (VBool true) else ret tt.

(** The body of the [try] of [_extract_safe_data], statement by statement;
    the state is [safe_data], which keeps what was written before an
    exception. *)
Definition extract_projeto : M (list (string * value)) unit :=
  present <- lift (py_contains "projeto_dados" data) ;;
  if present then
    projeto <- lift (py_subscript data "projeto_dados") ;;
    current <- read_key "segmento" ;;
    segmento <- lift (py_get projeto "segmento" current) ;;
    set_key "segmento" segmento ;;;
    current <- read_key "produto" ;;
    produto <- lift (py_get projeto "produto" current) ;;
    set_key "produto" produto
  else ret tt.

Definition extract_pesquisa : M (list (string * value)) unit :=
  present <- lift (py_contains "pesquisa_web_massiva" data) ;;
  if present then
    pesquisa <- lift (py_subscript data "pesquisa_web_massiva") ;;
    if is_dict pesquisa then
      total <- lift (py_get pesquisa "total_resultados" (VInt 0)) ;;
      positive <- lift (py_gt0 total) ;;
      if positive then
        set_key "has_research" (VBool true) ;;;
        sources <- lift (py_get pesquisa "total_resultados" (VInt 0)) ;;
        set_key "research_sources" sources
      else ret tt
    else ret tt
  else ret tt.

Definition extract_metadata : M (list (string * value)) unit :=
  present <- lift (py_contains "metadata_gigante" data) ;;
  if present then
    metadata <- lift (py_subscript data "metadata_gigante") ;;
    formatted <-
      lift (py_get metadata "processing_time_formatted" (VStr "N/A")) ;;
    set_key "processing_time" formatted
  else ret tt.

Definition extract_flags : M (list (string * value)) unit :=
  flag_if_present "agentes_psicologicos_detalhados"
    "has_psychological_analysis" ;;;
  flag_if_present "analise_funil" "has_funnel_analysis" ;;;
  flag_if_present "insights_estrategicos" "has_strategic_insights".

Definition extract_body : M (list (string * value)) unit :=
  extract_projeto ;;; extract_pesquisa ;;; extract_metadata ;;;
  extract_flags.

(** The handler only logs: [safe_data] is returned as the body left it. *)
Definition _extract_safe_data : list (string * value) :=
  snd (extract_body
         [("segmento", VStr "Empreendedores");
          ("produto", VStr "Programa MASI");
          ("has_research", VBool false);
          ("processing_time", VStr "N/A")]).

End ExtractSafeData.

Section ReportGenerator.

Variable env : collaborators.

Local Open Scope monad_scope.

Definition _create_detailed_avatar (data : list (string * value))
  : value :=
  VDict
    [("identificacao", VDict
       [("perfil", VStr "Empreendedor Ambicioso");
        ("faixa_etaria", VStr "30-45 anos");
        ("nivel_experiencia", VStr "Intermediário a Avançado");
        ("contexto",
         VStr ("Profissional do segmento de "
               ++ format_value env
                    (dict_get data "segmento"
                       (VStr "empreendedorismo"))))]);
     ("dores_principais", VList
       [VStr "Falta de direcionamento estratégico claro";
        VStr "Dificuldade em escalar o negócio de forma sustentável";
        VStr "Sobrecarga operacional e falta de tempo";
        VStr "Insegurança na tomada de decisões importantes";
        VStr "Dificuldade em encontrar e reter talentos"]);
     ("desejos_profundos", VList
       [VStr "Construir um negócio verdadeiramente escalável";
        VStr "Ter mais tempo para focar na estratégia";
        VStr "Alcançar liberdade financeira e geográfica";
        VStr "Ser reconhecido como líder em seu segmento";
        VStr "Criar um legado duradouro"]);
     ("comportamentos", VDict
       [("online", VList
          [VStr "Busca conteúdo sobre gestão e liderança";
           VStr "Participa de grupos de empreendedores";
           VStr "Consome podcasts e cursos online";
           VStr "Usa LinkedIn profissionalmente"]);
        ("decisao", VList
          [VStr "Analisa ROI antes de investir";
           VStr "Busca referências e casos de sucesso";
           VStr "Prefere soluções comprovadas";
           VStr "Valoriza acompanhamento personalizado"])]);
     ("canais_preferidos", VList
       [VStr "LinkedIn (networking profissional)";
        VStr "WhatsApp Business (comunicação direta)";
        VStr "E-mail (informações detalhadas)";
        VStr "Eventos presenciais (networking)"])].

Definition _create_psychological_arsenal (data : list (string * value))
  : value :=
  VDict
    [("drivers_mentais_principais", VList
       [VDict
          [("nome", VStr "Driver da Escassez Temporal");
           ("gatilho", VStr "Medo de perder oportunidades únicas");
           ("aplicacao", VStr "Enfatizar limitação de vagas ou período");
           ("intensidade", VInt 9)];
        VDict
          [("nome", VStr "Driver da Prova Social Elite");
           ("gatilho", VStr "Desejo de estar entre os melhores");
           ("aplicacao", VStr "Mostrar outros líderes que já aderiram");
           ("intensidade", VInt 8)];
        VDict
          [("nome", VStr "Driver do Crescimento Exponencial");
           ("gatilho", VStr "Ambição de crescer rapidamente");
           ("aplicacao", VStr "Demonstrar potencial de crescimento acelerado");
           ("intensidade", VInt 9)];
        VDict
          [("nome", VStr "Driver da Autoridade Reconhecida");
           ("gatilho", VStr "Necessidade de validação profissional");
           ("aplicacao", VStr "Posicionar como diferencial competitivo");
           ("intensidade", VInt 7)];
        VDict
          [("nome", VStr "Driver da Transformação Pessoal");
           ("gatilho", VStr "Desejo de evolução contínua");
           ("aplicacao", VStr "Focar na jornada de desenvolvimento");
           ("intensidade", VInt 8)]]);
     ("sistema_anti_objecoes", VDict
       [("objecoes_universais", VList
          [VDict
             [("objecao", VStr "Não tenho tempo agora");
              ("resposta", VStr "Justamente por isso você precisa - vamos otimizar seu tempo");
              ("tecnica", VStr "Inversão da objeção")];
           VDict
             [("objecao", VStr "Preciso pensar melhor");
              ("resposta", VStr "O que especificamente você gostaria de esclarecer?");
              ("tecnica", VStr "Especificação")];
           VDict
             [("objecao", VStr "Está muito caro");
              ("resposta", VStr "Comparado ao custo de não tomar ação?");
              ("tecnica", VStr "Custo de oportunidade")]])]);
     ("sequencia_pre_pitch", VList
       [VStr "1. Reconhecimento da situação atual";
        VStr "2. Identificação do gap de performance";
        VStr "3. Visualização do cenário ideal";
        VStr "4. Urgência da tomada de decisão";
        VStr "5. Apresentação da solução única";
        VStr "6. Call to action irresistível"])].

(** The mapping [analysis] of [_create_market_analysis] before the
    research data are added. *)
Definition market_analysis_base (data : list (string * value))
  : list (string * value) :=
  [("panorama_geral", VDict
     [("segmento", dict_get data "segmento" (VStr "Empreendedorismo"));
      ("tamanho_mercado", VStr "R$ 50+ bilhões (empreendedorismo no Brasil)");
      ("crescimento_anual", VStr "15-20% (acelerado pós-pandemia)");
      ("nivel_competitividade", VStr "Alto com nichos específicos")]);
   ("tendencias_identificadas", VList
     [VStr "Digitalização acelerada de negócios tradicionais";
      VStr "Crescimento do empreendedorismo por necessidade";
      VStr "Demanda por mentoria e consultoria especializada";
      VStr "Foco em sustentabilidade e propósito";
      VStr "Integração de tecnologia e inteligência artificial"]);
   ("oportunidades_mercado", VList
     [VStr "Nichos específicos com pouca concorrência";
      VStr "Serviços de alto valor agregado";
      VStr "Soluções híbridas (online + offline)";
      VStr "Parcerias estratégicas com grandes empresas";
      VStr "Expansão para mercados internacionais"])].

Definition dados_pesquisa (data : list (string * value))
  : value :=
  VDict
    [("fontes_analisadas", dict_get data "research_sources" (VInt 0));
     ("base_dados", VStr "Pesquisa web massiva + análise de conteúdo");
     ("periodo_analise", VStr "Últimos 12 meses");
     ("confiabilidade", VStr "Alta (dados primários)")].

Definition _create_market_analysis (data : list (string * value))
  : value :=
  let analysis := market_analysis_base data in
  VDict
    (if truthy (dict_get data "has_research" VNone) then
       dict_set "dados_pesquisa" (dados_pesquisa data) analysis
     else analysis).

Definition _create_implementation_strategy (data : list (string * value))
  : value :=
  VDict
    [("fase_1_preparacao", VDict
       [("prazo", VStr "Primeiros 7 dias");
        ("acoes", VList
          [VStr "Revisar e ajustar avatar do cliente ideal";
           VStr "Preparar scripts baseados nos drivers mentais";
           VStr "Configurar sistema de acompanhamento de métricas";
           VStr "Treinar equipe nos novos processos"])]);
     ("fase_2_implementacao", VDict
       [("prazo", VStr "Dias 8-30");
        ("acoes", VList
          [VStr "Implementar sequência de pré-pitch";
           VStr "Ativar sistema anti-objeção";
           VStr "Monitorar e ajustar abordagens";
           VStr "Coletar feedback e otimizar"])]);
     ("fase_3_otimizacao", VDict
       [("prazo", VStr "Dias 31-60");
        ("acoes", VList
          [VStr "Analisar resultados e ROI";
           VStr "Escalar estratégias bem-sucedidas";
           VStr "Implementar melhorias baseadas em dados";
           VStr "Preparar próxima fase de crescimento"])]);
     ("metricas_acompanhamento", VList
       [VStr "Taxa de conversão por etapa";
        VStr "Tempo médio de ciclo de vendas";
        VStr "Valor médio de transação";
        VStr "Taxa de retenção de clientes";
        VStr "ROI da estratégia implementada"])].

Definition quality_metrics_of (quality_score : Z)
    (data : list (string * value)) : value :=
  VDict
    [("score_qualidade_geral", VInt (Z.min quality_score 100));
     ("componentes_analisados", VDict
       [("pesquisa_mercado", (if truthy (dict_get data "has_research" VNone)
         then VStr "✅ Completa"
         else VStr "⚠️ Básica"));
        ("avatar_detalhado", VStr "✅ Completo");
        ("drivers_psicologicos", VStr "✅ Completo");
        ("sistema_anti_objecao", VStr "✅ Completo");
        ("funil_vendas", (if truthy (dict_get data "has_funnel_analysis" VNone)
         then VStr "✅ Completo"
         else VStr "⚠️ Básico"));
        ("insights_estrategicos", (if truthy (dict_get data "has_strategic_insights" VNone)
         then VStr "✅ Completos"
         else VStr "⚠️ Básicos"));
        ("estrategia_implementacao", VStr "✅ Completa")]);
     ("confiabilidade_dados", (if truthy (dict_get data "has_research" VNone)
      then VStr "Alta"
      else VStr "Média"));
     ("aplicabilidade_pratica", VStr "Muito Alta");
     ("potencial_roi", VStr "Alto (3-5x investimento inicial)")].

Definition _create_quality_metrics (data : list (string * value))
  : value :=
  let quality_score := 85%Z in
  let quality_score :=
    if truthy (dict_get data "has_research" VNone)
    then (quality_score + 10)%Z else quality_score in
  let quality_score :=
    if truthy (dict_get data "has_psychological_analysis" VNone)
    then (quality_score + 5)%Z else quality_score in
  quality_metrics_of quality_score data.

Definition _create_action_plan (data : list (string * value))
  : value :=
  VDict
    [("proximas_24_horas", VList
       [VStr "Revisar todo o relatório em detalhes";
        VStr "Identificar os 3 drivers mentais mais relevantes";
        VStr "Preparar primeiro script de abordagem";
        VStr "Definir métricas de acompanhamento"]);
     ("proxima_semana", VList
       [VStr "Implementar sequência de pré-pitch";
        VStr "Treinar equipe nos novos processos";
        VStr "Configurar sistema de métricas";
        VStr "Executar primeiros testes controlados"]);
     ("proximo_mes", VList
       [VStr "Analisar resultados iniciais";
        VStr "Otimizar abordagens baseado em dados";
        VStr "Escalar estratégias bem-sucedidas";
        VStr "Preparar próxima fase de crescimento"])].

Definition _create_funnel_analysis (data : list (string * value))
  : value :=
  VDict
    [("resumo_executivo", VDict
       [("taxa_conversao_geral", VStr "0.8%");
        ("custo_por_cliente", VStr "R$ 750");
        ("roi_funil", VStr "450%");
        ("ciclo_vendas_medio", VStr "45 dias")]);
     ("estagios_funil", VDict
       [("consciencia", VDict
          [("taxa_conversao", VStr "15%");
           ("custo_por_lead", VStr "R$ 15");
           ("principais_canais", VList
             [VStr "SEO";
              VStr "Redes Sociais";
              VStr "Referências"])]);
        ("interesse", VDict
          [("taxa_conversao", VStr "8%");
           ("custo_por_lead", VStr "R$ 45");
           ("principais_acoes", VList
             [VStr "Download";
              VStr "Webinars";
              VStr "Consultas"])]);
        ("decisao", VDict
          [("taxa_conversao", VStr "0.8%");
           ("custo_por_cliente", VStr "R$ 750");
           ("principais_acoes", VList
             [VStr "Demo";
              VStr "Proposta";
              VStr "Negociação"])])]);
     ("oportunidades_otimizacao", VList
       [VDict
          [("area", VStr "Automação de vendas");
           ("impacto_estimado", VStr "+30% conversão");
           ("investimento", VStr "R$ 3.000/mês");
           ("roi_esperado", VStr "400%")];
        VDict
          [("area", VStr "Lead scoring");
           ("impacto_estimado", VStr "+40% qualificação");
           ("investimento", VStr "R$ 8.000/mês");
           ("roi_esperado", VStr "350%")]]);
     ("recomendacoes_priorizadas", VList
       [VStr "1. Implementar CRM e automação";
        VStr "2. Otimizar conteúdo para SEO";
        VStr "3. Criar sistema de lead scoring"])].

Definition _create_strategic_insights (data : list (string * value))
  : value :=
  VDict
    [("analise_swot", VDict
       [("forcas", VList
          [VStr "Expertise comprovada no segmento";
           VStr "Metodologia estruturada";
           VStr "Resultados mensuráveis";
           VStr "Relacionamento próximo com clientes"]);
        ("fraquezas", VList
          [VStr "Dependência de poucos clientes grandes";
           VStr "Limitação geográfica";
           VStr "Processo manual intensivo"]);
        ("oportunidades", VList
          [VStr "Expansão digital acelerada";
           VStr "Demanda crescente por consultoria";
           VStr "Gaps no mercado de médias empresas";
           VStr "Integração com tecnologias emergentes"]);
        ("ameacas", VList
          [VStr "Commoditização dos serviços";
           VStr "Entrada de players globais";
           VStr "Pressão sobre margens";
           VStr "Mudanças regulatórias"])]);
     ("estrategias_crescimento", VList
       [VDict
          [("estrategia", VStr "Expansão para empresas médias");
           ("potencial_receita", VStr "R$ 2M/ano");
           ("investimento", VStr "R$ 300K");
           ("prazo", VStr "12 meses");
           ("risco", VStr "Médio")];
        VDict
          [("estrategia", VStr "Desenvolvimento de IP em IA");
           ("potencial_receita", VStr "R$ 1.5M/ano");
           ("investimento", VStr "R$ 500K");
           ("prazo", VStr "18 meses");
           ("risco", VStr "Alto")]]);
     ("matriz_priorizacao", VDict
       [("alto_impacto_baixo_esforco", VList
          [VStr "Automação de processos internos";
           VStr "Parcerias estratégicas"]);
        ("alto_impacto_alto_esforco", VList
          [VStr "Expansão geográfica";
           VStr "Desenvolvimento de produtos digitais"])]);
     ("recomendacoes_estrategicas", VList
       [VDict
          [("prioridade", VInt 1);
           ("acao", VStr "Implementar modelo híbrido (digital + presencial)");
           ("justificativa", VStr "Tendência irreversível e redução de custos");
           ("impacto", VStr "Alto");
           ("prazo", VStr "6 meses")];
        VDict
          [("prioridade", VInt 2);
           ("acao", VStr "Desenvolver expertise em IA aplicada");
           ("justificativa", VStr "Diferenciação competitiva sustentável");
           ("impacto", VStr "Muito Alto");
           ("prazo", VStr "12 meses")]])].

Definition _safe_save_report (report : value) (session_id : value)
  : M world unit :=
  try_except
    (call_salvar_etapa env "relatorio_ultra_robusto" report "completas")
    (fun _ => ret tt).

Definition _create_emergency_report (session_id : value) (error : string)
  : value :=
  VDict
    [("session_id", session_id);
     ("timestamp", VStr (now_isoformat env "_create_emergency_report"));
     ("status", VStr "RELATÓRIO DE EMERGÊNCIA");
     ("error", VStr error);
     ("relatorio_basico", VDict
        [("segmento", VStr "Empreendedores");
         ("recomendacao",
          VStr "Execute nova análise após verificar configurações");
         ("proximos_passos", VList
            [VStr "Verificar APIs configuradas";
             VStr "Testar conectividade";
             VStr "Executar análise simples primeiro"])])].

Definition relatorio_executivo (report_data : list (string * value))
  : value :=
  VDict
    [("segmento_analisado",
      dict_get report_data "segmento" (VStr "Empreendedores"));
     ("produto_servico",
      dict_get report_data "produto" (VStr "Programa MASI"));
     ("data_analise", VStr (now_strftime env));
     ("tempo_processamento",
      dict_get report_data "processing_time" (VStr "N/A"));
     ("qualidade_analise",
      if truthy (dict_get report_data "has_research" VNone)
      then VStr "PREMIUM" else VStr "BÁSICA")].

(** [session_id] is a [str] or [None]. *)
Definition generate_clean_report (analysis_data : value)
    (session_id : value) : M world value :=
  try_except
    (clean_analysis_data <-
       lift (_deep_clean_data view_value analysis_data 10 0) ;;
     let report_data := _extract_safe_data clean_analysis_data in
     let clean_report :=
       VDict
         [("session_id", session_id);
          ("timestamp", VStr (now_isoformat env "generate_clean_report"));
          ("engine_version", VStr "ARQV30 Enhanced v3.0 - ULTRA ROBUSTO");
          ("relatorio_executivo", relatorio_executivo report_data);
          ("avatar_cliente_ideal", _create_detailed_avatar report_data);
          ("arsenal_psicologico",
           _create_psychological_arsenal report_data);
          ("analise_mercado_real", _create_market_analysis report_data);
          ("estrategia_implementacao",
           _create_implementation_strategy report_data);
          ("metricas_qualidade", _create_quality_metrics report_data);
          ("analise_funil_vendas", _create_funnel_analysis report_data);
          ("insights_estrategicos_completos",
           _create_strategic_insights report_data);
          ("plano_acao_imediato", _create_action_plan report_data)] in
     _safe_save_report clean_report session_id ;;;
     ret clean_report)
    (fun e => ret (_create_emergency_report session_id (str_exn e))).

End ReportGenerator.

(** ** The pipeline of the specification *)

Section Pipeline.

Variable env : collaborators.

Local Open Scope monad_scope.

(** Modelled from the spec: the caller that hands the orchestrator's result
    to the report assembler is not among the sources.  Section 2 of the
    specification gives the data flow: the assembler takes the
    orchestrator's consolidated data, the [report] of the result, and maps
    it onto the fixed sections. *)
Definition run_analysis_and_assemble (data : list (string * value))
    (session_id : string) (progress_callback : option callback)
  : M world value :=
  result <- execute_synchronized_analysis env data session_id
              progress_callback ;;
  match result with
  | VDict fields =>
      generate_clean_report env (dict_get fields "report" VNone)
        (VStr session_id)
  | _ => generate_clean_report env result (VStr session_id)
  end.

End Pipeline.

(** ** Inputs and collaborators of the examples *)

Definition request_varejo : list (string * value) :=
  [("segmento", VStr "Varejo"); ("produto", VStr "Curso X")].

Definition empty_world : world := {| execution_state := []; trace := [] |}.

(** Collaborators whose providers answer as given, whatever they are
    asked, and whose sinks accept everything. *)
Definition env_of (base enhanced funnel insights : result value)
  : collaborators :=
  {| generate_gigantic_analysis := fun _ _ _ => base;
     execute_ultra_enhanced_analysis := fun _ _ _ => enhanced;
     analyze_conversion_funnel := fun _ _ => funnel;
     generate_strategic_insights := fun _ => insights;
     salvar_etapa := fun _ _ _ => Ok tt;
     salvar_erro := fun _ _ _ => Ok tt;
     time_start := 1000;
     time_end := 1042;
     now_isoformat := fun _ => "2025-01-01T12:00:00";
     now_strftime := "01/01/2025 12:00:00";
     py_repr := fun v => ("<" ++ type_name v ++ ">")%string;
     str_lower := ascii_lower |}.

Definition timeout_error : exn := Exception "TimeoutError" "timed out".

Definition base_ok : value :=
  VDict
    [("projeto_dados", VDict request_varejo);
     ("pesquisa_web_massiva", VDict [("total_resultados", VInt 12)]);
     ("avatar_ultra_detalhado", VDict [("perfil", VStr "Lojista")]);
     ("metadata_gigante", VDict [("processing_time_formatted", VStr "2m")])].

(** A base analysis whose web research found nothing. *)
Definition base_no_results : value :=
  VDict
    [("projeto_dados", VDict request_varejo);
     ("pesquisa_web_massiva", VDict [("total_resultados", VInt 0)])].

Definition enhanced_ok : value :=
  VDict [("consolidated_analysis", VDict [("drivers", VInt 19)])].

Definition funnel_ok : value :=
  VDict [("funil_conversao", VDict [("estagios", VInt 3)])].

Definition insights_ok : value :=
  VDict [("insights_estrategicos", VDict [("swot", VInt 4)])].

Definition env_all_succeed : collaborators :=
  env_of (Ok base_ok) (Ok enhanced_ok) (Ok funnel_ok) (Ok insights_ok).

Definition env_all_fail : collaborators :=
  env_of (Raise timeout_error) (Raise timeout_error) (Raise timeout_error)
    (Raise timeout_error).

Definition env_enhanced_fails : collaborators :=
  env_of (Ok base_ok) (Raise timeout_error) (Ok funnel_ok) (Ok insights_ok).

(** A callback that raises at every call, and one that never does. *)
Definition raising_callback : callback :=
  fun _ _ => Raise (Exception "RuntimeError" "progress sink closed").

Definition quiet_callback : callback := fun _ _ => Ok tt.

(** [n] sequences inside one another around [v]. *)
Fixpoint nested_lists (n : nat) (v : value) : value :=
  match n with
  | O => v
  | S n' => VList [nested_lists n' v]
  end.


(** An object graph with a cycle: object 0 is a mapping whose [self] and
    whose [children] lead back to it. *)
Definition cyclic_store : store :=
  fun a =>
    match a with
    | 0 => NDict [("name", 1); ("self", 0); ("children", 2)]
    | 1 => NStr "node"
    | 2 => NList [0; 1]
    | _ => NNone
    end.

(** The part of a result read by the statements below. *)
Definition field (k : string) (v : value) : option value :=
  match v with
  | VDict d => dict_find k d
  | _ => None
  end.

Definition count_provider_failures (t : list event) : nat :=
  List.length
    (filter (fun ev => match ev with EProvider _ (Raise _) => true | _ => false end)
       t).

Definition count_salvar_erro (t : list event) : nat :=
  List.length
    (filter (fun ev => match ev with ESalvarErro _ _ _ => true | _ => false end)
       t).

(** ** Invariants of a computation *)

(** [m] keeps [I]: whatever it returns or raises, a state in [I] is left in
    [I]. *)
Definition preserves {S A : Type} (I : S -> Prop) (m : M S A) : Prop :=
  forall s r s', I s -> m s = (r, s') -> I s'.

(** A property of the world that reads the session table only. *)
Definition trace_blind (I : world -> Prop) : Prop :=
  forall w t,
    I w -> I {| execution_state := execution_state w; trace := t |}.

Definition session_registered (session_id : string) (w : world) : Prop :=
  exists entry,
    dict_find session_id (execution_state w) = Some (VDict entry).

(** The accumulated error list of the session is empty. *)
Definition errors_empty (session_id : string) (w : world) : Prop :=
  exists entry,
    dict_find session_id (execution_state w) = Some (VDict entry)
    /\ dict_find "errors" entry = Some (VList []).

Definition session_status (session_id : string) (w : world) : option value :=
  match dict_find session_id (execution_state w) with
  | Some entry => field "status" entry
  | None => None
  end.

(** As many records in the error sink as providers that raised, counted
    from [w] to [w']. *)
Definition sink_matches_failures (w w' : world) : Prop :=
  count_salvar_erro (trace w') + count_provider_failures (trace w)
  = count_provider_failures (trace w') + count_salvar_erro (trace w).

(** The section [key] of a consolidated report [d], for the value a stage
    left: the bounded copy of a non-empty mapping, and no key at all for
    anything else. *)
Definition section_holds (d : list (string * value)) (key : string)
    (analysis : value) : Prop :=
  if truthy analysis && is_dict analysis then
    exists copied,
      _create_simple_copy analysis 3 0 = Ok copied
      /\ dict_find key d = Some copied
  else dict_find key d = None.

(** The text [t] holds the numbered next steps. *)
Definition lists_next_steps (t : string) : Prop :=
  exists before after : string,
    t = (before ++ unlines next_steps_lines ++ after)%string.

(** The keys of the report [generate_clean_report] assembles. *)
Definition report_sections : list string :=
  ["session_id"; "timestamp"; "engine_version"; "relatorio_executivo";
   "avatar_cliente_ideal"; "arsenal_psicologico"; "analise_mercado_real";
   "estrategia_implementacao"; "metricas_qualidade"; "analise_funil_vendas";
   "insights_estrategicos_completos"; "plano_acao_imediato"].

(** The report of the outermost handler: the segment and the product of
    the request and a list of next steps, at top level. *)
Definition emergency_report_shape (data report : list (string * value))
  : Prop :=
  dict_find "segmento" report
  = Some (dict_get data "segmento" (VStr "Não especificado"))
  /\ dict_find "produto" report
     = Some (dict_get data "produto" (VStr "Não especificado"))
  /\ exists steps,
       dict_find "proximos_passos" report = Some (VList steps)
       /\ steps <> [].

(** The consolidated report when the base stage fell back: the segment and
    the bounded copy of the product of the request under [analise_base],
    [analise_mercado]; the bounded copy of the request itself under
    [dados_originais]; the next steps as the numbered lines of the summary
    text. *)
Definition consolidated_report_shape (data report : list (string * value))
  : Prop :=
  exists ab am produto dados summary,
    dict_find "analise_base" report = Some (VDict ab)
    /\ dict_find "analise_mercado" ab = Some (VDict am)
    /\ dict_find "segmento" am
       = Some (dict_get data "segmento" (VStr "Empreendedores"))
    /\ _create_simple_copy (dict_get data "produto" (VStr "Programa MASI"))
         3 2 = Ok produto
    /\ dict_find "produto" am = Some produto
    /\ _create_simple_copy (VDict data) 3 0 = Ok dados
    /\ dict_find "dados_originais" report = Some dados
    /\ dict_find "sumario_executivo" report = Some (VStr summary)
    /\ lists_next_steps summary.

(** The stages left in their variables what their providers returned.
    The handlers of the base and of the enhanced stage replace the result
    when the step sink refuses it, so these two keep it when the sink took
    it; the two last stages keep it either way. *)
Definition stages_keep (env : collaborators) (data : list (string * value))
    (session_id : string) (progress_callback : option callback)
    (b e f i : value) : Prop :=
  (forall a,
     generate_gigantic_analysis env data session_id progress_callback = Ok a ->
     salvar_etapa env "analise_base_robusta" a "analise_completa" = Ok tt ->
     b = a)
  /\ (forall a,
        execute_ultra_enhanced_analysis env (_safe_combine_data data b)
          session_id progress_callback = Ok a ->
        salvar_etapa env "analise_psicologica_robusta" a "analise_completa"
        = Ok tt ->
        e = a)
  /\ (forall a,
        analyze_conversion_funnel env (_safe_combine_data data b)
          (dict_get data "segmento" VNone) = Ok a ->
        f = a)
  /\ (forall a,
        generate_strategic_insights env (_combine_all_analyses b e f data)
        = Ok a ->
        i = a).


(** The value a computation returned, [None] if it raised. *)
Definition value_of (r : result value) : value :=
  match r with
  | Ok v => v
  | Raise _ => VNone
  end.

(** The entries of the sanitized copy of a mapping of values, the levels
    below being sanitized with [gap] levels left. *)
Definition cleaned_entries (gap : nat) (items : list (string * value))
  : list (string * value) :=
  fold_left
    (keep_entry (entry_value view_value (cleaned_value view_value gap)))
    items [].

(** ** More measures on values *)

(** Every mapping of [v] has at most [n] entries. *)
Fixpoint dicts_within (n : nat) (v : value) : bool :=
  match v with
  | VDict items =>
      (List.length items <=? n)%nat
      && forallb (fun kv => dicts_within n (snd kv)) items
  | VList items => forallb (dicts_within n) items
  | _ => true
  end.

(** No string occurs twice in [l]. *)
Fixpoint no_repeat (l : list string) : bool :=
  match l with
  | [] => true
  | k :: l' => negb (in_strs k l') && no_repeat l'
  end.

(** No mapping of [v] binds a key twice, as in every Python [dict]. *)
Fixpoint keys_unique (v : value) : bool :=
  match v with
  | VDict items =>
      no_repeat (map fst items)
      && forallb (fun kv => keys_unique (snd kv)) items
  | VList items => forallb keys_unique items
  | _ => true
  end.

(** [not (isinstance(v, str) and len(v) > 10000)]. *)
Definition short_str (v : value) : bool :=
  match v with
  | VStr s => (len s <=? 10000)%Z
  | _ => true
  end.

(** No key of the deny-list is bound, and no string of more than 10,000
    characters is the value of a key, in any mapping of [v]. *)
Fixpoint clean_entries (v : value) : bool :=
  match v with
  | VDict items =>
      forallb
        (fun kv =>
           negb (in_strs (fst kv) deny_list)
           && short_str (snd kv) && clean_entries (snd kv))
        items
  | VList items => forallb clean_entries items
  | _ => true
  end.

(** The make of a bounded copy with [gap] levels: scalars, mappings of at
    most 20 entries and sequences of at most 10 elements, nested at most
    [gap] deep. *)
Definition copy_shaped (gap : nat) (v : value) : Prop :=
  plain v = true
  /\ (depth v <= gap)%nat
  /\ dicts_within 20 v = true
  /\ lists_within 10 v = true
  /\ keys_unique v = true.

(** [isinstance(v, str)]. *)
Definition is_str (v : value) : bool :=
  match v with VStr _ => true | _ => false end.

(** The keys [_combine_all_analyses] writes. *)
Definition combined_fields : list string :=
  ["mercado"; "avatar"; "psicologia"; "funil"].

(** A request of four flat fields, and data nested six mappings deep. *)
Definition request_curso : value :=
  VDict
    [("segmento", VStr "Varejo"); ("produto", VStr "Curso X");
     ("preco", VInt 997); ("canais", VList [VStr "loja"; VStr "site"])].

Fixpoint nested_dicts (n : nat) (v : value) : value :=
  match n with
  | O => v
  | S n' => VDict [("nivel", nested_dicts n' v)]
  end.

(** A request whose segment is a number, and collaborators whose base
    provider raises. *)
Definition request_untyped : list (string * value) :=
  [("segmento", VInt 7); ("produto", VStr "Curso X")].

Definition env_base_fails : collaborators :=
  env_of (Raise timeout_error) (Ok enhanced_ok) (Ok funnel_ok)
    (Ok insights_ok).

(** What [_extract_safe_data] starts from. *)
Definition safe_data_defaults : list (string * value) :=
  [("segmento", VStr "Empreendedores");
   ("produto", VStr "Programa MASI");
   ("has_research", VBool false);
   ("processing_time", VStr "N/A")].

(** The sections of the assembled report that are written without reading
    the data. *)
Definition fixed_sections : list string :=
  ["arsenal_psicologico"; "estrategia_implementacao";
   "analise_funil_vendas"; "insights_estrategicos_completos";
   "plano_acao_imediato"].

(** Data whose project entry is a text, beside research that found 12
    results. *)
Definition data_project_as_text : list (string * value) :=
  [("projeto_dados", VStr "Varejo / Curso X");
   ("pesquisa_web_massiva", VDict [("total_resultados", VInt 12)]);
   ("analise_funil", VDict [("estagios", VInt 3)])].

(** ** The calls a run makes to the providers *)

(** The stages whose provider was called, oldest first. *)
Definition provider_calls (t : list event) : list string :=
  flat_map
    (fun ev => match ev with EProvider stage _ => [stage] | _ => [] end) t.

(** The four providers, in the order of the stages. *)
Definition stage_order : list string :=
  ["generate_gigantic_analysis"; "execute_ultra_enhanced_analysis";
   "analyze_conversion_funnel"; "generate_strategic_insights"].

(** What the providers return holds no object of a foreign type. *)
Definition providers_return_plain (env : collaborators) : Prop :=
  (forall data session_id cb v,
     generate_gigantic_analysis env data session_id cb = Ok v ->
     plain v = true)
  /\ (forall data session_id cb v,
        execute_ultra_enhanced_analysis env data session_id cb = Ok v ->
        plain v = true)
  /\ (forall data segment v,
        analyze_conversion_funnel env data segment = Ok v -> plain v = true)
  /\ (forall data v,
        generate_strategic_insights env data = Ok v -> plain v = true).

(** The request binds [segmento] to a string, or does not bind it. *)
Definition segment_is_text (data : list (string * value)) : Prop :=
  forall v, dict_find "segmento" data = Some v -> is_str v = true.

(** ** super_orchestrator.py: the two readers of the session table *)

(** [v == s] for a string [s]. *)
Definition py_eq_str (v : value) (s : string) : bool :=
  match v with
  | VStr t => String.eqb t s
  | _ => false
  end.

Definition status_not_found : value :=
  VDict [("status", VStr "not_found");
         ("message", VStr "Análise não encontrada")].

(** [get_analysis_status]; [session_id] is a [str] or [None], the
    default. *)
Definition get_analysis_status (session_id : option string) (w : world)
  : value :=
  let body : result value :=
    match session_id with
    | Some sid =>
        if negb (String.eqb sid EmptyString)
           && dict_has (execution_state w) sid then
          rbind (py_subscript (VDict (execution_state w)) sid)
            (fun analysis =>
          rbind (py_get analysis "status" (VStr "unknown")) (fun status =>
          rbind (py_get analysis "start_time" VNone) (fun started_at =>
          rbind (py_get analysis "error" VNone) (fun error =>
          Ok (VDict [("session_id", VStr sid);
                     ("status", status);
                     ("started_at", started_at);
                     ("error", error)])))))
        else Ok status_not_found
    | None => Ok status_not_found
    end in
  match body with
  | Ok v => v
  | Raise e => VDict [("status", VStr "error"); ("error", VStr (str_exn e))]
  end.

Definition progress_running : value :=
  VDict [("completed", VBool false);
         ("percentage", VInt 50);
         ("current_step", VStr "Em andamento...");
         ("total_steps", VInt 15);
         ("estimated_time", VStr "5-10 min")].

Definition progress_completed : value :=
  VDict [("completed", VBool true);
         ("percentage", VInt 100);
         ("current_step", VStr "Concluído");
         ("total_steps", VInt 15);
         ("estimated_time", VStr "0m")].

(** [get_session_progress]: a mapping, or [None]. *)
Definition get_session_progress (session_id : string) (w : world) : value :=
  let body : result value :=
    if dict_has (execution_state w) session_id then
      rbind (py_subscript (VDict (execution_state w)) session_id)
        (fun analysis =>
      rbind (py_get analysis "status" (VStr "unknown")) (fun status =>
      if py_eq_str status "running" then Ok progress_running
      else if py_eq_str status "completed"
              || py_eq_str status "completed_with_errors"
      then Ok progress_completed
      else Ok VNone))
    else Ok VNone in
  match body with
  | Ok v => v
  | Raise _ => VNone
  end.

(** The entry of a session when its run has returned normally, and when it
    has ended in the outermost handler. *)
Definition session_completed (start_time execution_time : Z) : value :=
  VDict [("status", VStr "completed");
         ("start_time", VFloat start_time);
         ("errors", VList []);
         ("execution_time", VFloat execution_time)].

Definition session_failed (start_time : Z) (error : string) : value :=
  VDict [("status", VStr "completed_with_errors");
         ("start_time", VFloat start_time);
         ("errors", VList []);
         ("error", VStr error)].

(** ** strategic_insights_generator.py *)

Module StrategicInsightsGenerator.

Section Generator.

(** [datetime.now().isoformat()], by the function that asks. *)
Variable now : string -> string.

(** [segment] is read and not used. *)
Definition _analyze_market_trends (data : value) : result value :=
  rbind (py_get data "segmento" (VStr "Consultoria")) (fun segment =>
  Ok (VDict
        [("tendencias_emergentes", VList
           [VDict
              [("tendencia", VStr "Digitalização acelerada");
               ("impacto", VStr "Alto");
               ("probabilidade", VStr "95%");
               ("horizonte", VStr "6-12 meses");
               ("oportunidade", VStr "Desenvolver soluções digitais híbridas")];
            VDict
              [("tendencia", VStr "Foco em sustentabilidade");
               ("impacto", VStr "Médio");
               ("probabilidade", VStr "80%");
               ("horizonte", VStr "12-18 meses");
               ("oportunidade", VStr "Integrar práticas ESG na proposta")];
            VDict
              [("tendencia", VStr "Personalização em massa");
               ("impacto", VStr "Alto");
               ("probabilidade", VStr "90%");
               ("horizonte", VStr "3-6 meses");
               ("oportunidade", VStr "Criar jornadas personalizadas")]]);
         ("crescimento_mercado", VDict
           [("taxa_anual", VStr "15-20%");
            ("drivers_principais", VList
              [VStr "Necessidade de transformação digital";
               VStr "Pressão por resultados mensuráveis";
               VStr "Escassez de talentos especializados"]);
            ("segmentos_hot", VList
              [VStr "Automação de processos";
               VStr "Experiência do cliente";
               VStr "Analytics e BI"])]);
         ("mudancas_comportamentais", VDict
           [("decisores", VStr "Mais analíticos e baseados em dados");
            ("processo_compra", VStr "Mais longo e criterioso");
            ("expectativas", VStr "ROI claro e mensurável");
            ("canais_preferidos", VList
              [VStr "Digital";
               VStr "Híbrido";
               VStr "Self-service"])])])).

Definition _analyze_competitive_landscape (data : value) : value :=
  VDict
    [("posicionamento_competitivo", VDict
       [("lider_mercado", VDict
          [("caracteristicas", VList
             [VStr "Grande escala";
              VStr "Marca consolidada";
              VStr "Recursos abundantes"]);
           ("vulnerabilidades", VList
             [VStr "Inflexibilidade";
              VStr "Alto custo";
              VStr "Padronização excessiva"]);
           ("estrategia_contra", VStr "Agilidade e personalização")]);
        ("desafiadores", VDict
          [("caracteristicas", VList
             [VStr "Inovação";
              VStr "Nicho específico";
              VStr "Preço competitivo"]);
           ("vulnerabilidades", VList
             [VStr "Recursos limitados";
              VStr "Alcance restrito"]);
           ("estrategia_contra", VStr "Diferenciação e qualidade superior")])]);
     ("gaps_mercado", VList
       [VDict
          [("gap", VStr "Soluções para empresas médias");
           ("tamanho_oportunidade", VStr "R$ 500M");
           ("dificuldade_entrada", VStr "Média");
           ("tempo_para_capture", VStr "12-18 meses")];
        VDict
          [("gap", VStr "Consultoria especializada em IA");
           ("tamanho_oportunidade", VStr "R$ 200M");
           ("dificuldade_entrada", VStr "Alta");
           ("tempo_para_capture", VStr "18-24 meses")]]);
     ("fatores_sucesso_criticos", VList
       [VStr "Expertise comprovada";
        VStr "Cases de sucesso documentados";
        VStr "Network de parceiros";
        VStr "Capacidade de escala";
        VStr "Inovação contínua"])].

Definition _identify_growth_opportunities (data : value) : value :=
  VDict
    [("expansao_horizontal", VDict
       [("novos_segmentos", VList
          [VDict
             [("segmento", VStr "Startups em Series A/B");
              ("potencial_receita", VStr "R$ 2M/ano");
              ("investimento_necessario", VStr "R$ 300K");
              ("roi_esperado", VStr "560%");
              ("prazo_retorno", VStr "8 meses")];
           VDict
             [("segmento", VStr "Empresas familiares em transição");
              ("potencial_receita", VStr "R$ 1.5M/ano");
              ("investimento_necessario", VStr "R$ 200K");
              ("roi_esperado", VStr "650%");
              ("prazo_retorno", VStr "6 meses")]])]);
     ("expansao_vertical", VDict
       [("novos_servicos", VList
          [VDict
             [("servico", VStr "Implementação de IA/ML");
              ("margem_estimada", VStr "45%");
              ("demanda_mercado", VStr "Alta");
              ("complexidade", VStr "Alta");
              ("diferencial_competitivo", VStr "Muito Alto")];
           VDict
             [("servico", VStr "Consultoria em sustentabilidade");
              ("margem_estimada", VStr "35%");
              ("demanda_mercado", VStr "Crescente");
              ("complexidade", VStr "Média");
              ("diferencial_competitivo", VStr "Alto")]])]);
     ("parcerias_estrategicas", VList
       [VDict
          [("tipo", VStr "Tecnologia");
           ("beneficio", VStr "Acesso a soluções avançadas");
           ("investimento", VStr "Baixo");
           ("impacto", VStr "Alto")];
        VDict
          [("tipo", VStr "Distribuição");
           ("beneficio", VStr "Alcance geográfico");
           ("investimento", VStr "Médio");
           ("impacto", VStr "Médio")]])].

Definition _analyze_risks_and_threats (data : value) : value :=
  VDict
    [("riscos_mercado", VList
       [VDict
          [("risco", VStr "Commoditização dos serviços");
           ("probabilidade", VStr "60%");
           ("impacto", VStr "Alto");
           ("mitigacao", VStr "Foco em especialização e inovação");
           ("prazo", VStr "12-18 meses")];
        VDict
          [("risco", VStr "Entrada de players globais");
           ("probabilidade", VStr "40%");
           ("impacto", VStr "Médio");
           ("mitigacao", VStr "Fortalecer relacionamentos locais");
           ("prazo", VStr "18-24 meses")]]);
     ("riscos_operacionais", VList
       [VDict
          [("risco", VStr "Dependência de poucos clientes");
           ("probabilidade", VStr "70%");
           ("impacto", VStr "Alto");
           ("mitigacao", VStr "Diversificar base de clientes");
           ("acao_imediata", VBool true)];
        VDict
          [("risco", VStr "Rotatividade de talentos");
           ("probabilidade", VStr "50%");
           ("impacto", VStr "Médio");
           ("mitigacao", VStr "Programa de retenção");
           ("acao_imediata", VBool false)]]);
     ("riscos_financeiros", VList
       [VDict
          [("risco", VStr "Pressão sobre margens");
           ("probabilidade", VStr "65%");
           ("impacto", VStr "Médio");
           ("mitigacao", VStr "Otimizar operações e aumentar valor");
           ("prazo", VStr "6-12 meses")]])].

Definition _generate_strategic_recommendations (market competitive growth risks : value) : value :=
  VList
    [VDict
       [("recomendacao", VStr "Desenvolver expertise em IA aplicada aos negócios");
        ("justificativa", VStr "Alto potencial de diferenciação e margens superiores");
        ("impacto_esperado", VStr "Aumento de 40% na margem média");
        ("investimento_necessario", VStr "R$ 500K");
        ("prazo_implementacao", VStr "12 meses");
        ("risco_execucao", VStr "Médio");
        ("prioridade", VInt 1)];
     VDict
       [("recomendacao", VStr "Expandir para segment de empresas médias");
        ("justificativa", VStr "Gap identificado no mercado com baixa concorrência");
        ("impacto_esperado", VStr "Crescimento de 60% na receita");
        ("investimento_necessario", VStr "R$ 300K");
        ("prazo_implementacao", VStr "8 meses");
        ("risco_execucao", VStr "Baixo");
        ("prioridade", VInt 2)];
     VDict
       [("recomendacao", VStr "Implementar modelo híbrido (presencial + digital)");
        ("justificativa", VStr "Tendência irreversível pós-pandemia");
        ("impacto_esperado", VStr "Redução de 25% nos custos operacionais");
        ("investimento_necessario", VStr "R$ 200K");
        ("prazo_implementacao", VStr "6 meses");
        ("risco_execucao", VStr "Baixo");
        ("prioridade", VInt 3)];
     VDict
       [("recomendacao", VStr "Criar programa de parcerias estratégicas");
        ("justificativa", VStr "Acelerar entrada em novos mercados");
        ("impacto_esperado", VStr "Acesso a 30% mais prospects");
        ("investimento_necessario", VStr "R$ 150K");
        ("prazo_implementacao", VStr "4 meses");
        ("risco_execucao", VStr "Médio");
        ("prioridade", VInt 4)]].

Definition _create_priority_matrix (recommendations : value) : value :=
  VDict
    [("alto_impacto_baixo_esforco", VList
       [VStr "Implementar modelo híbrido";
        VStr "Criar programa de parcerias"]);
     ("alto_impacto_alto_esforco", VList
       [VStr "Desenvolver expertise em IA";
        VStr "Expandir para empresas médias"]);
     ("baixo_impacto_baixo_esforco", VList
       [VStr "Otimizar processos internos";
        VStr "Melhorar comunicação digital"]);
     ("baixo_impacto_alto_esforco", VList
       [VStr "Entrada em mercados internacionais";
        VStr "Desenvolvimento de IP próprio"]);
     ("recomendacao_sequenciamento", VList
       [VStr "1. Implementar modelo híbrido (Quick wins)";
        VStr "2. Expandir para empresas médias (Crescimento)";
        VStr "3. Desenvolver expertise em IA (Diferenciação)";
        VStr "4. Criar parcerias estratégicas (Escala)"])].

Definition _create_fallback_insights : value :=
  VDict
    [("insights_estrategicos", VDict
       [("status", VStr "Análise básica - dados limitados");
        ("recomendacao_principal", VStr "Colete mais dados de mercado para análise aprofundada");
        ("proximos_passos", VList
          [VStr "Realizar pesquisa de mercado formal";
           VStr "Analisar concorrência detalhadamente";
           VStr "Definir KPIs estratégicos";
           VStr "Implementar tracking de mercado"])]);
     ("metadata", VDict
       [("generated_at", VStr (now "_create_fallback_insights"));
        ("status", VStr "fallback")])].

Definition generate_strategic_insights (analysis_data : value) : value :=
  let body : result value :=
    rbind (_analyze_market_trends analysis_data) (fun market_insights =>
    let competitive_insights :=
      _analyze_competitive_landscape analysis_data in
    let growth_opportunities :=
      _identify_growth_opportunities analysis_data in
    let risk_analysis := _analyze_risks_and_threats analysis_data in
    let strategic_recommendations :=
      _generate_strategic_recommendations market_insights
        competitive_insights growth_opportunities risk_analysis in
    Ok (VDict
          [("insights_estrategicos", VDict
              [("analise_mercado", market_insights);
               ("paisagem_competitiva", competitive_insights);
               ("oportunidades_crescimento", growth_opportunities);
               ("analise_riscos", risk_analysis);
               ("recomendacoes_estrategicas", strategic_recommendations);
               ("matriz_priorizacao",
                _create_priority_matrix strategic_recommendations)]);
           ("metadata", VDict
              [("generated_at", VStr (now "generate_strategic_insights"));
               ("metodologia", VStr "Análise SWOT + BCG + Porter");
               ("horizonte_temporal", VStr "12-24 meses")])])) in
  match body with
  | Ok insights => insights
  | Raise _ => _create_fallback_insights
  end.

End Generator.

End StrategicInsightsGenerator.

(** ** The repository's own providers in a run *)

(** [v[k1][k2]...]: the value reached through the keys [ks]. *)
Fixpoint lookup_path (ks : list string) (v : value) : option value :=
  match ks with
  | [] => Some v
  | k :: ks' =>
      match field k v with
      | Some x => lookup_path ks' x
      | None => None
      end
  end.

(** [v] is a mapping whose values are all the marker of the bounded copy:
    the keys are there, what they held is not. *)
Definition all_marked (v : value) : bool :=
  match v with
  | VDict items =>
      forallb (fun kv => py_eq_str (snd kv) "[Max depth reached]") items
  | _ => false
  end.

(** The insights provider of the run is [generate_strategic_insights] of
    [strategic_insights_generator.py], on the clock of the run. *)
Definition insights_from_repository (env : collaborators) : Prop :=
  forall analysis_data,
    generate_strategic_insights env analysis_data
    = Ok (StrategicInsightsGenerator.generate_strategic_insights
            (now_isoformat env) (VDict analysis_data)).

(** Collaborators as [env_all_succeed], with the repository's insights
    generator in the place of the fourth provider. *)
Definition env_repository_insights : collaborators :=
  {| generate_gigantic_analysis := fun _ _ _ => Ok base_ok;
     execute_ultra_enhanced_analysis := fun _ _ _ => Ok enhanced_ok;
     analyze_conversion_funnel := fun _ _ => Ok funnel_ok;
     generate_strategic_insights :=
       fun analysis_data =>
         Ok (StrategicInsightsGenerator.generate_strategic_insights
               (fun _ => "2025-01-01T12:00:00") (VDict analysis_data));
     salvar_etapa := fun _ _ _ => Ok tt;
     salvar_erro := fun _ _ _ => Ok tt;
     time_start := 1000;
     time_end := 1042;
     now_isoformat := fun _ => "2025-01-01T12:00:00";
     now_strftime := "01/01/2025 12:00:00";
     py_repr := fun v => ("<" ++ type_name v ++ ">")%string;
     str_lower := ascii_lower |}.

(* ================================================================== *)
(** * Part II: lemmas and theorems *)
(* ================================================================== *)

(** ** Folds *)

Lemma fold_left_ext_in {A B : Type} (f g : A -> B -> A) (l : list B) (a : A) :
  (forall acc x, In x l -> f acc x = g acc x) ->
  fold_left f l a = fold_left g l a.
Proof.
  revert a; induction l as [|x l IH]; intros a Hfg; simpl.
  - reflexivity.
  - rewrite (Hfg a x (or_introl eq_refl)).
    apply IH; intros acc y Hy; apply Hfg; right; exact Hy.
Qed.

Lemma fold_left_snoc_map {A B C : Type} (h : B -> C) (p : A -> B)
    (l : list A) (acc : list C) :
  fold_left (fun cleaned x => cleaned ++ [h (p x)]) l acc
  = acc ++ map h (map p l).
Proof.
  revert acc; induction l as [|x l IH]; intros acc; simpl.
  - now rewrite app_nil_r.
  - rewrite IH, <- app_assoc; reflexivity.
Qed.

Lemma map_snd_combine_seq {A : Type} (l : list A) (start : nat) :
  map snd (combine (seq start (List.length l)) l) = l.
Proof.
  revert start; induction l as [|x l IH]; intros start; simpl.
  - reflexivity.
  - now rewrite IH.
Qed.

Lemma map_snd_enumerate {A : Type} (l : list A) : map snd (enumerate l) = l.
Proof. apply map_snd_combine_seq. Qed.

(** ** The sanitizer returns, and what it returns *)

Section DeepCleanFacts.

Context {Obj : Type}.
Variable view : Obj -> node Obj.

(** The handlers of the two loops are never entered: the walk returns
    the value [cleaned_value] computes. *)
Lemma clean_at_ok (gap : nat) (obj : Obj) :
  clean_at view gap obj = Ok (cleaned_value view gap obj).
Proof.
  revert obj; induction gap as [|gap IH]; intros obj;
    cbn [clean_at cleaned_value].
  - reflexivity.
  - destruct (view obj) as [| | | | |items|items|[s|e]]; try reflexivity.
    + do 2 f_equal.
      apply fold_left_ext_in; intros acc [k o] _; cbn [fst snd].
      unfold clean_entry, keep_entry, entry_value; cbn [fst snd].
      destruct (in_strs k deny_list); [reflexivity|].
      destruct (long_str view o); [reflexivity|].
      now rewrite IH.
    + do 2 f_equal.
      rewrite (fold_left_ext_in _
                 (fun cleaned ix =>
                    cleaned ++ [cleaned_value view gap (snd ix)])).
      * rewrite (fold_left_snoc_map (cleaned_value view gap) snd).
        now rewrite map_snd_enumerate.
      * intros acc [i o] _; unfold clean_elem; cbn [fst snd]; now rewrite IH.
Qed.

Lemma depth_gap_over (max_depth current_depth : Z) :
  (max_depth < current_depth)%Z -> depth_gap max_depth current_depth = 0.
Proof. unfold depth_gap; lia. Qed.

Lemma depth_gap_step (max_depth current_depth : Z) :
  (current_depth <= max_depth)%Z ->
  depth_gap max_depth current_depth
  = S (depth_gap max_depth (current_depth + 1)).
Proof. unfold depth_gap; lia. Qed.

(** The recursion equation of the source: the depth test first, then the
    case on the type of [obj], the recursive calls at
    [current_depth + 1]. *)
Lemma _deep_clean_data_unfold (obj : Obj) (max_depth current_depth : Z) :
  _deep_clean_data view obj max_depth current_depth =
  if (max_depth <? current_depth)%Z then Ok max_depth_marker
  else
    let rec o := _deep_clean_data view o max_depth (current_depth + 1) in
    match view obj with
    | NNone => Ok VNone
    | NBool b => Ok (VBool b)
    | NInt n => Ok (VInt n)
    | NFloat f => Ok (VFloat f)
    | NStr s => Ok (VStr s)
    | NDict items =>
        Ok (VDict
              (fold_left
                 (fun cleaned kv =>
                    clean_entry view rec cleaned (fst kv) (snd kv))
                 items []))
    | NList items =>
        Ok (VList
              (fold_left
                 (fun cleaned ix => clean_elem rec cleaned (fst ix) (snd ix))
                 (enumerate (firstn 50 items)) []))
    | NOther repr =>
        match repr with
        | Ok s => Ok (VStr (str_take 1000 s))
        | Raise _ => Ok (VStr "[Unserializable object]")
        end
    end.
Proof.
  unfold _deep_clean_data.
  destruct (Z.ltb_spec max_depth current_depth) as [Hlt|Hle].
  - now rewrite depth_gap_over.
  - rewrite (depth_gap_step _ _ Hle); reflexivity.
Qed.

End DeepCleanFacts.

(** ** Strings *)

Lemma length_str_take (n : nat) (s : string) :
  String.length (str_take n s) = Nat.min n (String.length s).
Proof.
  revert s; induction n as [|n IH]; intros [|c s]; simpl; auto.
Qed.

Lemma length_append (s t : string) :
  String.length (s ++ t) = String.length s + String.length t.
Proof. induction s as [|c s IH]; simpl; auto. Qed.

Lemma str_take_append_take (n : nat) (s t : string) :
  n <= String.length s -> str_take n (str_take n s ++ t) = str_take n s.
Proof.
  revert s; induction n as [|n IH]; intros [|c s] Hn; simpl in *;
    try reflexivity; try lia.
  f_equal; apply IH; lia.
Qed.

Lemma len_truncated_text (s : string) :
  (10000 < len s)%Z ->
  len (str_take (Z.to_nat 10000) s ++ "... [truncated]")
  = (10000 + len "... [truncated]")%Z.
Proof.
  unfold len; intros Hs.
  rewrite length_append, length_str_take; lia.
Qed.


(** ** Mappings *)

Lemma Forall_dict_set {A : Type} (Q : string * A -> Prop)
    (k : string) (v : A) (d : list (string * A)) :
  Q (k, v) -> Forall Q d -> Forall Q (dict_set k v d).
Proof.
  intros Hq; induction d as [|[k' v'] d IH]; simpl; intros Hd.
  - constructor; auto.
  - inversion Hd; subst.
    destruct (String.eqb k k'); constructor; auto.
Qed.

Lemma dict_set_fresh {A : Type} (k : string) (v : A) (d : list (string * A)) :
  ~ In k (map fst d) -> dict_set k v d = d ++ [(k, v)].
Proof.
  induction d as [|[k' v'] d IH]; simpl; intros Hk.
  - reflexivity.
  - destruct (String.eqb_spec k k') as [->|Hne].
    + exfalso; apply Hk; now left.
    + f_equal; apply IH; intros Hin; apply Hk; now right.
Qed.

Lemma keys_dict_set {A : Type} (k : string) (v : A) (d : list (string * A)) :
  map fst (dict_set k v d)
  = if in_strs k (map fst d) then map fst d else map fst d ++ [k].
Proof.
  unfold in_strs.
  induction d as [|[k' v'] d IH]; simpl.
  - reflexivity.
  - destruct (String.eqb_spec k k') as [->|Hne]; simpl.
    + reflexivity.
    + rewrite IH; destruct (existsb (String.eqb k) (map fst d)); reflexivity.
Qed.

Lemma in_strs_In (k : string) (l : list string) :
  in_strs k l = true <-> In k l.
Proof.
  unfold in_strs; rewrite existsb_exists; split.
  - intros [x [Hx Hk]]; apply String.eqb_eq in Hk; now subst.
  - intros Hk; exists k; split; [exact Hk | apply String.eqb_refl].
Qed.

Lemma NoDup_keys_dict_set {A : Type} (k : string) (v : A)
    (d : list (string * A)) :
  NoDup (map fst d) -> NoDup (map fst (dict_set k v d)).
Proof.
  intros Hd; rewrite keys_dict_set.
  destruct (in_strs k (map fst d)) eqn:Hk; [exact Hd|].
  apply NoDup_app; [exact Hd | constructor; [intros [] | constructor] |].
  intros x Hx [<-|[]].
  apply in_strs_In in Hx; congruence.
Qed.

(** ** What the sanitized value is made of *)

Section CleanedValueFacts.

Context {Obj : Type}.
Variable view : Obj -> node Obj.

Lemma Forall_keep_entries (Q : string * value -> Prop) (h : Obj -> value)
    (items : list (string * Obj)) (acc : list (string * value)) :
  Forall Q acc ->
  (forall kv, In kv items -> in_strs (fst kv) deny_list = false ->
              Q (fst kv, h (snd kv))) ->
  Forall Q (fold_left (keep_entry h) items acc).
Proof.
  revert acc; induction items as [|kv items IH]; intros acc Hacc Hq; simpl.
  - exact Hacc.
  - apply IH.
    + unfold keep_entry.
      destruct (in_strs (fst kv) deny_list) eqn:Hdeny; [exact Hacc|].
      apply Forall_dict_set; [|exact Hacc].
      apply Hq; [now left | exact Hdeny].
    + intros kv' Hin; apply Hq; now right.
Qed.

Lemma NoDup_keep_entries (h : Obj -> value)
    (items : list (string * Obj)) (acc : list (string * value)) :
  NoDup (map fst acc) ->
  NoDup (map fst (fold_left (keep_entry h) items acc)).
Proof.
  revert acc; induction items as [|kv items IH]; intros acc Hacc; simpl.
  - exact Hacc.
  - apply IH; unfold keep_entry.
    destruct (in_strs (fst kv) deny_list); [exact Hacc|].
    now apply NoDup_keys_dict_set.
Qed.

Lemma entry_value_ind (P : value -> Prop) (h : Obj -> value) (o : Obj) :
  (forall s, long_str view o = Some s -> P (truncated s)) ->
  (long_str view o = None -> P (h o)) ->
  P (entry_value view h o).
Proof.
  unfold entry_value; destruct (long_str view o); auto.
Qed.

Lemma cleaned_plain (gap : nat) (obj : Obj) :
  plain (cleaned_value view gap obj) = true.
Proof.
  revert obj; induction gap as [|gap IH]; intros obj; cbn [cleaned_value].
  - reflexivity.
  - destruct (view obj) as [| | | | |items|items|[s|e]]; try reflexivity.
    + cbn [plain]; apply forallb_forall, Forall_forall.
      apply Forall_keep_entries; [constructor|].
      intros kv _ _; cbn [snd].
      apply entry_value_ind; [reflexivity | intros _; apply IH].
    + cbn [plain]; apply forallb_forall; intros v Hv.
      apply in_map_iff in Hv; destruct Hv as [o [<- _]]; apply IH.
Qed.

Lemma depth_dict_le (n : nat) (d : list (string * value)) :
  Forall (fun kv => depth (snd kv) <= n) d -> depth (VDict d) <= S n.
Proof.
  intros Hd; cbn [depth]; apply le_n_S, list_max_le, Forall_map; exact Hd.
Qed.

Lemma depth_list_le (n : nat) (l : list value) :
  Forall (fun v => depth v <= n) l -> depth (VList l) <= S n.
Proof.
  intros Hl; cbn [depth]; apply le_n_S, list_max_le, Forall_map; exact Hl.
Qed.

(** Levels [0 .. gap - 1] are copied, the marker adds one more. *)
Lemma cleaned_depth (gap : nat) (obj : Obj) :
  depth (cleaned_value view gap obj) <= S gap.
Proof.
  revert obj; induction gap as [|gap IH]; intros obj; cbn [cleaned_value].
  - cbn; lia.
  - destruct (view obj) as [| | | | |items|items|[s|e]];
      try (cbn [depth]; lia).
    + apply depth_dict_le, Forall_keep_entries; [constructor|].
      intros kv _ _; cbn [snd].
      apply entry_value_ind; [intros; cbn; lia | intros _; apply IH].
    + apply depth_list_le, Forall_forall; intros v Hv.
      apply in_map_iff in Hv; destruct Hv as [o [<- _]]; apply IH.
Qed.

Lemma key_occurs_dict_false (k : string) (d : list (string * value)) :
  Forall (fun kv => String.eqb k (fst kv) = false
                    /\ key_occurs k (snd kv) = false) d ->
  key_occurs k (VDict d) = false.
Proof.
  intros Hd; cbn [key_occurs].
  induction Hd as [|kv d [Hk Hv] _ IH]; simpl; [reflexivity|].
  now rewrite Hk, Hv, IH.
Qed.

Lemma denied_key_absent (k : string) (gap : nat) (obj : Obj) :
  In k deny_list -> key_occurs k (cleaned_value view gap obj) = false.
Proof.
  intros Hk; revert obj; induction gap as [|gap IH]; intros obj;
    cbn [cleaned_value].
  - cbn [max_depth_marker key_occurs existsb fst snd].
    destruct (String.eqb_spec k "error") as [->|_]; [|reflexivity].
    exfalso; revert Hk; unfold deny_list; simpl.
    intuition discriminate.
  - destruct (view obj) as [| | | | |items|items|[s|e]]; try reflexivity.
    + apply key_occurs_dict_false, Forall_keep_entries; [constructor|].
      intros [k' o] _ Hdeny; cbn [fst snd] in *; split.
      * destruct (String.eqb_spec k k') as [<-|_]; [|reflexivity].
        apply in_strs_In in Hk; congruence.
      * apply entry_value_ind; [reflexivity | intros _; apply IH].
    + cbn [key_occurs].
      induction (firstn 50 items) as [|o l IHl]; simpl; [reflexivity|].
      now rewrite IH, IHl.
Qed.

Lemma cleaned_lists_within (gap : nat) (obj : Obj) :
  lists_within 50 (cleaned_value view gap obj) = true.
Proof.
  revert obj; induction gap as [|gap IH]; intros obj; cbn [cleaned_value].
  - reflexivity.
  - destruct (view obj) as [| | | | |items|items|[s|e]]; try reflexivity.
    + cbn [lists_within]; apply forallb_forall, Forall_forall.
      apply Forall_keep_entries; [constructor|].
      intros kv _ _; cbn [snd].
      apply entry_value_ind; [reflexivity | intros _; apply IH].
    + cbn [lists_within]; apply andb_true_intro; split.
      * apply Nat.leb_le; rewrite length_map; apply firstn_le_length.
      * apply forallb_forall; intros v Hv.
        apply in_map_iff in Hv; destruct Hv as [o [<- _]]; apply IH.
Qed.

End CleanedValueFacts.

(** ** Sanitizing a sanitized value *)

Lemma keep_entries_fixed (h : value -> value)
    (d acc : list (string * value)) :
  NoDup (map fst acc ++ map fst d) ->
  Forall (fun kv => in_strs (fst kv) deny_list = false /\ h (snd kv) = snd kv)
         d ->
  fold_left (keep_entry h) d acc = acc ++ d.
Proof.
  revert acc; induction d as [|[k v] d IH]; intros acc Hnd Hd; simpl.
  - now rewrite app_nil_r.
  - inversion Hd as [|? ? [Hdeny Hfix] Hd']; subst; cbn [fst snd] in *.
    unfold keep_entry at 2; cbn [fst snd].
    rewrite Hdeny, Hfix, dict_set_fresh.
    + rewrite IH; [now rewrite <- app_assoc | | exact Hd'].
      rewrite map_app, <- app_assoc; exact Hnd.
    + apply NoDup_remove_2 in Hnd.
      intros Hin; apply Hnd, in_or_app; now left.
Qed.

Lemma long_str_spec {Obj : Type} (view : Obj -> node Obj) (o : Obj) (s : string) :
  long_str view o = Some s -> view o = NStr s /\ (10000 < len s)%Z.
Proof.
  unfold long_str; destruct (view o); try discriminate.
  destruct (Z.ltb_spec 10000 (len s0)); [|discriminate].
  intros [= <-]; auto.
Qed.

Lemma long_str_truncated (s : string) :
  (10000 < len s)%Z ->
  long_str view_value (truncated s)
  = Some (str_take (Z.to_nat 10000) s ++ "... [truncated]")%string.
Proof.
  intros Hs; unfold long_str, truncated; cbn [view_value].
  rewrite (len_truncated_text s Hs).
  replace (len "... [truncated]") with 15%Z by reflexivity.
  reflexivity.
Qed.

Lemma truncated_truncated (s : string) :
  (10000 < len s)%Z ->
  truncated (str_take (Z.to_nat 10000) s ++ "... [truncated]") = truncated s.
Proof.
  intros Hs; unfold truncated; do 2 f_equal.
  apply str_take_append_take; unfold len in Hs; lia.
Qed.

Section Idempotence.

Context {Obj : Type}.
Variable view : Obj -> node Obj.

Lemma long_str_cleaned (gap : nat) (o : Obj) :
  long_str view o = None ->
  long_str view_value (cleaned_value view gap o) = None.
Proof.
  destruct gap as [|gap]; cbn [cleaned_value]; [reflexivity|].
  unfold long_str at 1.
  destruct (view o) as [| | | | s|items|items|[s|e]]; try reflexivity.
  - intros Hs; unfold long_str; cbn [view_value]; exact Hs.
  - intros _; unfold long_str; cbn [view_value].
    destruct (Z.ltb_spec 10000 (len (str_take 1000 s))) as [Hlt|_];
      [|reflexivity].
    unfold len in Hlt; rewrite length_str_take in Hlt; lia.
Qed.

Lemma entry_value_fixed (gap : nat) (o : Obj) :
  (forall o', cleaned_value view_value gap (cleaned_value view gap o')
              = cleaned_value view gap o') ->
  entry_value view_value (cleaned_value view_value gap)
    (entry_value view (cleaned_value view gap) o)
  = entry_value view (cleaned_value view gap) o.
Proof.
  intros IH; unfold entry_value at 2 3.
  destruct (long_str view o) as [s|] eqn:Hlong.
  - apply long_str_spec in Hlong; destruct Hlong as [_ Hs].
    unfold entry_value; rewrite (long_str_truncated s Hs).
    now apply truncated_truncated.
  - unfold entry_value; rewrite (long_str_cleaned gap o Hlong); apply IH.
Qed.

Lemma cleaned_idempotent (gap : nat) (obj : Obj) :
  cleaned_value view_value gap (cleaned_value view gap obj)
  = cleaned_value view gap obj.
Proof.
  revert obj; induction gap as [|gap IH]; intros obj.
  - reflexivity.
  - cbn [cleaned_value].
    destruct (view obj) as [| | | | |items|items|[s|e]]; try reflexivity.
    + cbn [cleaned_value view_value]; f_equal.
      apply keep_entries_fixed.
      * cbn [map app]; apply NoDup_keep_entries; constructor.
      * apply Forall_keep_entries; [constructor|].
        intros kv _ Hdeny; cbn [fst snd]; split; [exact Hdeny|].
        now apply entry_value_fixed.
    + cbn [cleaned_value view_value]; f_equal.
      rewrite firstn_map, firstn_firstn, map_map.
      apply map_ext; intros o; apply IH.
Qed.

End Idempotence.


(** ** The monad *)

Section MonadFacts.

Context {S : Type}.

Lemma bind_ok_inv {A B : Type} (m : M S A) (k : A -> M S B)
    (s s' : S) (b : B) :
  bind m k s = (Ok b, s') ->
  exists a s1, m s = (Ok a, s1) /\ k a s1 = (Ok b, s').
Proof.
  unfold bind; destruct (m s) as [[a|e] s1]; intros H.
  - exists a, s1; auto.
  - discriminate.
Qed.

Lemma bind_ok {A B : Type} (m : M S A) (k : A -> M S B)
    (s s1 : S) (a : A) :
  m s = (Ok a, s1) -> bind m k s = k a s1.
Proof. unfold bind; intros ->; reflexivity. Qed.

Lemma bind_raise {A B : Type} (m : M S A) (k : A -> M S B)
    (s s1 : S) (e : exn) :
  m s = (Raise e, s1) -> bind m k s = (Raise e, s1).
Proof. unfold bind; intros ->; reflexivity. Qed.

Lemma preserves_ret {A : Type} (I : S -> Prop) (a : A) : preserves I (ret a).
Proof. intros s r s' Hs [= <- <-]; exact Hs. Qed.

Lemma preserves_lift {A : Type} (I : S -> Prop) (r : result A) :
  preserves I (lift r).
Proof. intros s r' s' Hs [= <- <-]; exact Hs. Qed.

Lemma preserves_bind {A B : Type} (I : S -> Prop) (m : M S A)
    (k : A -> M S B) :
  preserves I m -> (forall a, preserves I (k a)) -> preserves I (bind m k).
Proof.
  intros Hm Hk s r s' Hs; unfold bind.
  destruct (m s) as [[a|e] s1] eqn:Hms.
  - apply (Hk a); apply (Hm _ _ _ Hs Hms).
  - intros [= <- <-]; apply (Hm _ _ _ Hs Hms).
Qed.

Lemma preserves_try_except {A : Type} (I : S -> Prop) (body : M S A)
    (handler : exn -> M S A) :
  preserves I body -> (forall e, preserves I (handler e)) ->
  preserves I (try_except body handler).
Proof.
  intros Hb Hh s r s' Hs; unfold try_except.
  destruct (body s) as [[a|e] s1] eqn:Hbs.
  - intros [= <- <-]; apply (Hb _ _ _ Hs Hbs).
  - apply (Hh e); apply (Hb _ _ _ Hs Hbs).
Qed.

Lemma preserves_attempt {A : Type} (I : S -> Prop) (body : M S A) :
  preserves I body -> preserves I (attempt body).
Proof.
  intros Hb s r s' Hs; unfold attempt.
  destruct (body s) as [r0 s1] eqn:Hbs.
  intros [= <- <-]; apply (Hb _ _ _ Hs Hbs).
Qed.

End MonadFacts.

Create HintDb preserve.

#[local] Hint Resolve preserves_ret preserves_lift preserves_bind
  preserves_try_except preserves_attempt : preserve.

(** ** The stages do not write the session table *)

Section StageInvariants.

Variable env : collaborators.
Variable I : world -> Prop.
Hypothesis I_blind : trace_blind I.

Lemma preserves_log (ev : event) : preserves I (log ev).
Proof. intros w r w' Hw [= <- <-]; apply I_blind; exact Hw. Qed.

Lemma preserves_call_salvar_etapa (nome : string) (payload : value)
    (categoria : string) :
  preserves I (call_salvar_etapa env nome payload categoria).
Proof.
  unfold call_salvar_etapa; auto using preserves_log with preserve.
Qed.

Lemma preserves_call_salvar_erro (nome : string) (e : exn)
    (contexto : value) :
  preserves I (call_salvar_erro env nome e contexto).
Proof. unfold call_salvar_erro; auto using preserves_log with preserve. Qed.

Lemma preserves_call_provider (stage : string) (outcome : result value) :
  preserves I (call_provider stage outcome).
Proof. unfold call_provider; auto using preserves_log with preserve. Qed.

Lemma preserves_call_progress (cb : option callback) (step : Z)
    (message : string) :
  preserves I (call_progress cb step message).
Proof. unfold call_progress; destruct cb; auto with preserve. Qed.

Hint Resolve preserves_call_salvar_etapa preserves_call_salvar_erro
  preserves_call_provider preserves_call_progress : preserve.

Lemma preserves_run_base (data : list (string * value)) (sid : string)
    (cb : option callback) :
  preserves I (run_base env data sid cb).
Proof. unfold run_base; auto 10 with preserve. Qed.

Lemma preserves_run_enhanced (data : list (string * value)) (sid : string)
    (cb : option callback) (base : value) :
  preserves I (run_enhanced env data sid cb base).
Proof. unfold run_enhanced; auto 10 with preserve. Qed.

Lemma preserves_run_guarded (progress : M world unit) (stage : string)
    (outcome : result value) (etapa erro sid : string) :
  preserves I progress ->
  preserves I (run_guarded env progress stage outcome etapa erro sid).
Proof.
  intros Hp; unfold run_guarded.
  apply preserves_bind; [auto with preserve|].
  intros [analysis|e]; [|auto with preserve].
  apply preserves_bind; [auto with preserve|].
  intros [[]|e]; auto with preserve.
Qed.

Lemma preserves_run_stages (data : list (string * value)) (sid : string)
    (cb : option callback) :
  preserves I (run_stages env data sid cb).
Proof.
  unfold run_stages, run_funnel, run_insights.
  auto 12 using preserves_run_base, preserves_run_enhanced,
    preserves_run_guarded with preserve.
Qed.

Lemma preserves_save_in (categories : list string) (results : value) :
  preserves I (save_in env categories results).
Proof.
  induction categories as [|c cs IH]; simpl; auto with preserve.
Qed.

End StageInvariants.


(** ** Lookups after an assignment *)

Lemma dict_find_set_same {A : Type} (k : string) (v : A)
    (d : list (string * A)) :
  dict_find k (dict_set k v d) = Some v.
Proof.
  induction d as [|[k' v'] d IH]; simpl.
  - now rewrite String.eqb_refl.
  - destruct (String.eqb k k') eqn:Hk; simpl; rewrite ?String.eqb_refl, ?Hk;
      auto.
Qed.

Lemma dict_find_set_other {A : Type} (k k' : string) (v : A)
    (d : list (string * A)) :
  String.eqb k k' = false ->
  dict_find k (dict_set k' v d) = dict_find k d.
Proof.
  intros Hk; induction d as [|[k1 v1] d IH]; simpl.
  - now rewrite Hk.
  - destruct (String.eqb_spec k' k1) as [->|Hne]; simpl.
    + now rewrite Hk.
    + now rewrite IH.
Qed.

Lemma dict_find_not_in {A : Type} (k : string) (d : list (string * A)) :
  ~ In k (map fst d) -> dict_find k d = None.
Proof.
  induction d as [|[k' v'] d IH]; simpl; intros Hk; [reflexivity|].
  destruct (String.eqb_spec k k') as [->|_].
  - exfalso; apply Hk; now left.
  - apply IH; intros Hin; apply Hk; now right.
Qed.

(** ** The session table during a run *)

Section SessionFacts.

Variable env : collaborators.

Lemma trace_blind_registered (sid : string) :
  trace_blind (session_registered sid).
Proof. intros w t Hw; exact Hw. Qed.

Lemma trace_blind_errors_empty (sid : string) :
  trace_blind (errors_empty sid).
Proof. intros w t Hw; exact Hw. Qed.

Lemma trace_blind_same_sessions (st : list (string * value)) :
  trace_blind (fun w => execution_state w = st).
Proof. intros w t Hw; exact Hw. Qed.

Lemma register_session_spec (sid : string) (t0 : Z) (w : world) :
  exists w',
    register_session sid t0 w = (Ok tt, w')
    /\ errors_empty sid w'
    /\ session_status sid w' = Some (VStr "running")
    /\ trace w' = trace w.
Proof.
  eexists; split; [reflexivity|]; unfold errors_empty, session_status; simpl.
  rewrite dict_find_set_same; repeat split.
  eexists; split; reflexivity.
Qed.

Lemma errors_empty_registered (sid : string) (w : world) :
  errors_empty sid w -> session_registered sid w.
Proof. intros [entry [H _]]; now exists entry. Qed.

(** A write to a registered session goes through. *)
Lemma set_session_field_ok (sid key : string) (v : value) (w : world) :
  session_registered sid w ->
  exists w',
    set_session_field sid key v w = (Ok tt, w')
    /\ session_registered sid w'
    /\ trace w' = trace w.
Proof.
  intros [entry Hentry]; unfold set_session_field; rewrite Hentry.
  eexists; split; [reflexivity|]; split; [|reflexivity].
  unfold session_registered; simpl; rewrite dict_find_set_same; eauto.
Qed.

Lemma preserves_set_session_field_registered (sid key : string) (v : value) :
  preserves (session_registered sid) (set_session_field sid key v).
Proof.
  intros w r w' Hw; destruct (set_session_field_ok sid key v w Hw)
    as [w1 [Hrun [Hreg _]]].
  rewrite Hrun; intros [= <- <-]; exact Hreg.
Qed.

(** A write to another key leaves the error list as it is. *)
Lemma preserves_set_session_field_errors (sid key : string) (v : value) :
  String.eqb "errors" key = false ->
  preserves (errors_empty sid) (set_session_field sid key v).
Proof.
  intros Hkey w r w' [entry [Hentry Herr]]; unfold set_session_field.
  rewrite Hentry; intros [= <- <-].
  unfold errors_empty; simpl; rewrite dict_find_set_same.
  eexists; split; [reflexivity|].
  now rewrite dict_find_set_other.
Qed.

Lemma preserves_finish (I : world -> Prop) (data : list (string * value))
    (sid : string) (cb : option callback) (t0 : Z)
    (stages : value * value * value * value) :
  trace_blind I ->
  (forall key v, String.eqb "errors" key = false ->
                 preserves I (set_session_field sid key v)) ->
  preserves I (finish env data sid cb t0 stages).
Proof.
  intros Hblind Hset; destruct stages as [[[b e] f] i]; unfold finish.
  unfold _safe_save_all_data.
  repeat (apply preserves_bind; [|intros ?]);
    auto using preserves_call_progress, preserves_attempt,
      preserves_call_salvar_etapa, preserves_lift, preserves_ret.
Qed.

Lemma preserves_emergency (I : world -> Prop) (data : list (string * value))
    (sid : string) (e : exn) :
  trace_blind I ->
  (forall key v, String.eqb "errors" key = false ->
                 preserves I (set_session_field sid key v)) ->
  preserves I (emergency env data sid e).
Proof.
  intros Hblind Hset; unfold emergency.
  apply preserves_bind; [apply Hset; reflexivity|intros _].
  apply preserves_bind; [apply Hset; reflexivity|intros _].
  apply preserves_bind;
    [apply preserves_call_salvar_erro; exact Hblind|intros _].
  apply preserves_ret.
Qed.

(** The part of [execute_synchronized_analysis] inside the outermost
    [try], after the session is registered. *)
Lemma execute_unfold (data : list (string * value)) (sid : string)
    (cb : option callback) (w : world) :
  exists w0,
    register_session sid (time_start env) w = (Ok tt, w0)
    /\ errors_empty sid w0
    /\ session_status sid w0 = Some (VStr "running")
    /\ trace w0 = trace w
    /\ execute_synchronized_analysis env data sid cb w
       = try_except
           (bind (call_progress cb 1 "🔧 Iniciando análise ultra robusta...")
              (fun _ =>
                 bind (run_stages env data sid cb)
                   (finish env data sid cb (time_start env))))
           (emergency env data sid) w0.
Proof.
  destruct (register_session_spec sid (time_start env) w)
    as [w0 [Hreg [Herr [Hst Htr]]]].
  exists w0; repeat split; auto.
  unfold execute_synchronized_analysis, try_except.
  cbv zeta; rewrite (bind_ok _ _ _ _ _ Hreg); reflexivity.
Qed.

(** After any run the error list of the session is still empty. *)
Lemma execute_errors_empty (data : list (string * value)) (sid : string)
    (cb : option callback) (w : world) (r : result value) (w' : world) :
  execute_synchronized_analysis env data sid cb w = (r, w') ->
  errors_empty sid w'.
Proof.
  destruct (execute_unfold data sid cb w) as [w0 [_ [Herr [_ [_ ->]]]]].
  apply preserves_try_except; [| |exact Herr].
  - apply preserves_bind; [|intros _; apply preserves_bind];
      auto using preserves_call_progress, preserves_run_stages,
        preserves_finish, trace_blind_errors_empty,
        preserves_set_session_field_errors.
  - intros e; apply preserves_emergency;
      auto using trace_blind_errors_empty,
        preserves_set_session_field_errors.
Qed.

(** The outermost handler returns the minimal report. *)
Lemma emergency_returns (data : list (string * value)) (sid : string)
    (e : exn) (w : world) :
  error_sink_accepts env ->
  session_registered sid w ->
  exists w',
    emergency env data sid e w
    = (Ok (_generate_minimal_success_report env data sid (str_exn e)), w')
    /\ session_status sid w' = Some (VStr "completed_with_errors")
    /\ trace w'
       = trace w ++ [ESalvarErro "super_orchestrator_critico" e
                       (session_context sid)].
Proof.
  intros Hsink [entry Hentry]; unfold emergency.
  unfold set_session_field at 1.
  unfold bind at 1; rewrite Hentry.
  unfold bind at 1, set_session_field; cbn [execution_state].
  rewrite dict_find_set_same.
  unfold bind at 1, call_salvar_erro, log, bind, lift, ret.
  rewrite Hsink; cbn [execution_state trace].
  eexists; split; [reflexivity|]; split; [|reflexivity].
  unfold session_status; cbn [execution_state].
  rewrite dict_find_set_same; cbn [field].
  rewrite dict_find_set_other by reflexivity.
  apply dict_find_set_same.
Qed.

End SessionFacts.


(** ** What each stage leaves in its variable *)

(** Opens a stage: every [bind], handler and collaborator call is unfolded
    and every outcome met on the way is split. *)
Ltac open_stage H :=
  unfold run_base, run_enhanced, run_funnel, run_insights, run_guarded in H;
  unfold call_provider, call_salvar_etapa, call_salvar_erro in H;
  unfold try_except, attempt, bind, log, lift, ret in H;
  cbv beta in H;
  repeat match type of H with
         | context [match ?x with _ => _ end] =>
             match x with
             | context [match _ with _ => _ end] => fail 1
             | _ => destruct x eqn:?
             end
         end;
  try discriminate.

Section StageValues.

Variable env : collaborators.

Lemma run_base_value (data : list (string * value)) (sid : string)
    (cb : option callback) (w w' : world) (b : value) :
  run_base env data sid cb w = (Ok b, w') ->
  generate_gigantic_analysis env data sid cb = Ok b
  \/ _create_fallback_analysis env data = Ok b.
Proof.
  intros H; open_stage H; injection H as <- <-; auto.
Qed.

Lemma run_base_fallback (data : list (string * value)) (sid : string)
    (cb : option callback) (w w' : world) (b : value) :
  base_provider_raises env ->
  run_base env data sid cb w = (Ok b, w') ->
  _create_fallback_analysis env data = Ok b.
Proof.
  intros Hraises H.
  destruct (run_base_value _ _ _ _ _ _ H) as [Hok|Hfb]; [|exact Hfb].
  destruct (Hraises data sid cb) as [e He]; congruence.
Qed.

Lemma run_enhanced_value (data : list (string * value)) (sid : string)
    (cb : option callback) (base : value) (w w' : world) (e : value) :
  run_enhanced env data sid cb base w = (Ok e, w') ->
  e = VNone
  \/ execute_ultra_enhanced_analysis env (_safe_combine_data data base) sid cb
     = Ok e.
Proof.
  intros H; open_stage H; injection H as <- <-; auto.
Qed.

Lemma run_enhanced_none (data : list (string * value)) (sid : string)
    (cb : option callback) (base : value) (w w' : world) (e : value) :
  enhanced_provider_raises env ->
  run_enhanced env data sid cb base w = (Ok e, w') ->
  e = VNone.
Proof.
  intros Hraises H.
  destruct (run_enhanced_value _ _ _ _ _ _ _ H) as [Hnone|Hok];
    [exact Hnone|].
  destruct (Hraises (_safe_combine_data data base) sid cb) as [x Hx];
    congruence.
Qed.

Lemma run_guarded_value (progress : M world unit) (stage : string)
    (outcome : result value) (etapa erro sid : string) (w w' : world)
    (v : value) :
  run_guarded env progress stage outcome etapa erro sid w = (Ok v, w') ->
  v = VNone \/ outcome = Ok v.
Proof.
  intros H; open_stage H; injection H as <- <-; auto.
Qed.

Lemma run_guarded_none (progress : M world unit) (stage : string)
    (outcome : result value) (etapa erro sid : string) (w w' : world)
    (v : value) :
  raises outcome ->
  run_guarded env progress stage outcome etapa erro sid w = (Ok v, w') ->
  v = VNone.
Proof.
  intros [x Hx] H.
  destruct (run_guarded_value _ _ _ _ _ _ _ _ _ H) as [Hnone|Hok];
    [exact Hnone | congruence].
Qed.

(** The four values [run_stages] returns, by where they come from. *)
Lemma run_stages_values (data : list (string * value)) (sid : string)
    (cb : option callback) (w w' : world) (b e f i : value) :
  run_stages env data sid cb w = (Ok (b, e, f, i), w') ->
  (generate_gigantic_analysis env data sid cb = Ok b
   \/ _create_fallback_analysis env data = Ok b)
  /\ (e = VNone
      \/ execute_ultra_enhanced_analysis env (_safe_combine_data data b)
           sid cb = Ok e)
  /\ (f = VNone
      \/ analyze_conversion_funnel env (_safe_combine_data data b)
           (dict_get data "segmento" VNone) = Ok f)
  /\ (i = VNone
      \/ generate_strategic_insights env (_combine_all_analyses b e f data)
         = Ok i).
Proof.
  unfold run_stages; intros H.
  apply bind_ok_inv in H; destruct H as [b0 [w1 [Hb H]]].
  apply bind_ok_inv in H; destruct H as [e0 [w2 [He H]]].
  apply bind_ok_inv in H; destruct H as [f0 [w3 [Hf H]]].
  apply bind_ok_inv in H; destruct H as [i0 [w4 [Hi H]]].
  injection H as <- <- <- <- <-.
  repeat split.
  - eapply run_base_value; eauto.
  - eapply run_enhanced_value; eauto.
  - eapply run_guarded_value; exact Hf.
  - eapply run_guarded_value; exact Hi.
Qed.

(** A stage whose provider raises leaves [None]; the base stage leaves the
    fallback analysis. *)
Lemma run_stages_failed (data : list (string * value)) (sid : string)
    (cb : option callback) (w w' : world) (b e f i : value) :
  run_stages env data sid cb w = (Ok (b, e, f, i), w') ->
  (base_provider_raises env -> _create_fallback_analysis env data = Ok b)
  /\ (enhanced_provider_raises env -> e = VNone)
  /\ (funnel_provider_raises env -> f = VNone)
  /\ (insights_provider_raises env -> i = VNone).
Proof.
  intros H; destruct (run_stages_values _ _ _ _ _ _ _ _ _ H)
    as [Hb [He [Hf Hi]]].
  repeat split; intros Hraises.
  - destruct Hb as [Hb|Hb]; [|exact Hb].
    destruct (Hraises data sid cb) as [x Hx]; congruence.
  - destruct He as [He|He]; [exact He|].
    destruct (Hraises (_safe_combine_data data b) sid cb) as [x Hx];
      congruence.
  - destruct Hf as [Hf|Hf]; [exact Hf|].
    destruct (Hraises (_safe_combine_data data b)
                (dict_get data "segmento" VNone)) as [x Hx]; congruence.
  - destruct Hi as [Hi|Hi]; [exact Hi|].
    destruct (Hraises (_combine_all_analyses b e f data)) as [x Hx];
      congruence.
Qed.

End StageValues.


(** ** The two ways out of [execute_synchronized_analysis] *)

Section RunCases.

Variable env : collaborators.

Lemma call_progress_world (cb : option callback) (step : Z)
    (message : string) (w : world) (r : result unit) (w' : world) :
  call_progress cb step message w = (r, w') -> w' = w.
Proof.
  unfold call_progress, lift, ret; destruct cb; intros [= _ <-]; reflexivity.
Qed.

Lemma call_progress_returns (cb : option callback) (step : Z)
    (message : string) (w : world) :
  callback_returns cb -> call_progress cb step message w = (Ok tt, w).
Proof.
  unfold call_progress, lift, ret; destruct cb as [f|]; intros Hcb;
    [|reflexivity].
  now rewrite (Hcb f eq_refl).
Qed.

(** The result of the normal return. *)
Lemma finish_ok_inv (data : list (string * value)) (sid : string)
    (cb : option callback) (t0 : Z) (b e f i : value) (w w' : world)
    (v : value) :
  finish env data sid cb t0 (b, e, f, i) w = (Ok v, w') ->
  exists report,
    _consolidate_results_robustly env b e f i data sid = Ok report
    /\ v = VDict
             [("success", VBool true);
              ("session_id", VStr sid);
              ("execution_time", VFloat (time_end env - t0));
              ("report", report);
              ("sync_status", VStr "ULTRA_ROBUST_SUCCESS");
              ("quality_level",
               VStr (if truthy e then "PREMIUM" else "HIGH"))]
    /\ session_status sid w' = Some (VStr "completed").
Proof.
  unfold finish; intros H.
  apply bind_ok_inv in H; destruct H as [[] [w1 [_ H]]].
  apply bind_ok_inv in H; destruct H as [report [w2 [Hrep H]]].
  apply bind_ok_inv in H; destruct H as [[] [w3 [_ H]]].
  apply bind_ok_inv in H; destruct H as [[] [w4 [_ H]]].
  cbv zeta in H.
  apply bind_ok_inv in H; destruct H as [[] [w5 [Hst H]]].
  apply bind_ok_inv in H; destruct H as [[] [w6 [Hex H]]].
  injection H as <- <-.
  exists report; repeat split.
  - unfold lift in Hrep; congruence.
  - unfold set_session_field in Hst, Hex.
    destruct (dict_find sid (execution_state w4)) as [[| | | | |entry| |]|];
      try discriminate.
    injection Hst as <-; cbn [execution_state] in Hex.
    rewrite dict_find_set_same in Hex; injection Hex as <-.
    unfold session_status; cbn [execution_state].
    rewrite dict_find_set_same; cbn [field].
    rewrite dict_find_set_other by reflexivity.
    apply dict_find_set_same.
Qed.

Lemma execute_cases (data : list (string * value)) (sid : string)
    (cb : option callback) (w : world) (r : result value) (w' : world) :
  execute_synchronized_analysis env data sid cb w = (r, w') ->
  exists w0,
    session_status sid w0 = Some (VStr "running")
    /\ errors_empty sid w0
    /\ trace w0 = trace w
    /\ ((exists b e f i w1 v,
           run_stages env data sid cb w0 = (Ok (b, e, f, i), w1)
           /\ finish env data sid cb (time_start env) (b, e, f, i) w1
              = (Ok v, w')
           /\ r = Ok v)
        \/ (exists x w1,
              session_registered sid w1
              /\ emergency env data sid x w1 = (r, w'))).
Proof.
  destruct (execute_unfold env data sid cb w)
    as [w0 [_ [Herr [Hst [Htr ->]]]]].
  intros H; exists w0; repeat split; auto.
  unfold try_except in H.
  match type of H with
  | context [match ?body w0 with _ => _ end] =>
      destruct (body w0) as [[v|x] w1] eqn:Hbody
  end.
  - left; injection H as <- <-.
    apply bind_ok_inv in Hbody; destruct Hbody as [[] [w2 [Hcb Hbody]]].
    apply call_progress_world in Hcb; subst w2.
    apply bind_ok_inv in Hbody;
      destruct Hbody as [[[[b e] f] i] [w3 [Hstages Hfin]]].
    exists b, e, f, i, w3, v; auto.
  - right; exists x, w1; split; [|exact H].
    eapply (fun Hm Hk Hw0 =>
              preserves_bind (session_registered sid) _ _ Hm Hk
                w0 _ w1 Hw0 Hbody).
    + auto using preserves_call_progress, trace_blind_registered.
    + intros _; apply preserves_bind.
      * auto using preserves_run_stages, trace_blind_registered.
      * intros stages; apply preserves_finish.
        -- apply trace_blind_registered.
        -- intros key v0 _; apply preserves_set_session_field_registered.
    + now apply errors_empty_registered.
Qed.


End RunCases.

(** ** A stage keeps what its provider returned *)

Section StageKeeps.

Variable env : collaborators.
Variable cb : option callback.
Hypothesis cb_ok : callback_returns cb.

Lemma run_base_keeps (data : list (string * value)) (sid : string)
    (w w' : world) (a b : value) :
  generate_gigantic_analysis env data sid cb = Ok a ->
  salvar_etapa env "analise_base_robusta" a "analise_completa" = Ok tt ->
  run_base env data sid cb w = (Ok b, w') ->
  b = a.
Proof.
  intros Ha Hsave; unfold run_base, try_except.
  unfold bind at 1; rewrite (call_progress_returns cb _ _ w cb_ok).
  unfold call_provider, call_salvar_etapa, call_salvar_erro, bind, log,
    lift, ret.
  rewrite Ha; cbv beta iota; rewrite Hsave; cbv beta iota.
  now intros [= <- _].
Qed.

Lemma run_enhanced_keeps (data : list (string * value)) (sid : string)
    (base : value) (w w' : world) (a e : value) :
  execute_ultra_enhanced_analysis env (_safe_combine_data data base) sid cb
  = Ok a ->
  salvar_etapa env "analise_psicologica_robusta" a "analise_completa"
  = Ok tt ->
  run_enhanced env data sid cb base w = (Ok e, w') ->
  e = a.
Proof.
  intros Ha Hsave; unfold run_enhanced, try_except.
  unfold bind at 1; rewrite (call_progress_returns cb _ _ w cb_ok).
  cbv zeta.
  unfold call_provider, call_salvar_etapa, call_salvar_erro, bind, log,
    lift, ret.
  rewrite Ha; cbv beta iota; rewrite Hsave; cbv beta iota.
  now intros [= <- _].
Qed.

Lemma run_guarded_keeps (step : Z) (message stage : string) (a : value)
    (etapa erro sid : string) (w w' : world) (v : value) :
  run_guarded env (call_progress cb step message) stage (Ok a) etapa erro
    sid w = (Ok v, w') ->
  v = a.
Proof.
  unfold run_guarded.
  unfold bind at 1, attempt.
  unfold bind at 1; rewrite (call_progress_returns cb _ _ w cb_ok).
  unfold call_provider, call_salvar_etapa, call_salvar_erro, bind, log,
    lift, ret.
  cbv beta iota.
  match goal with
  | |- context [salvar_etapa env ?n ?p ?c] =>
      destruct (salvar_etapa env n p c) as [[]|x]
  end; cbv beta iota.
  - now intros [= <- _].
  - match goal with
    | |- context [salvar_erro env ?n ?p ?c] =>
        destruct (salvar_erro env n p c) as [[]|y]
    end; [now intros [= <- _] | discriminate].
Qed.

Lemma run_stages_keep (data : list (string * value)) (sid : string)
    (w w' : world) (b e f i : value) :
  run_stages env data sid cb w = (Ok (b, e, f, i), w') ->
  stages_keep env data sid cb b e f i.
Proof.
  intros H; unfold run_stages in H.
  apply bind_ok_inv in H; destruct H as [b0 [w1 [Hb H]]].
  apply bind_ok_inv in H; destruct H as [e0 [w2 [He H]]].
  apply bind_ok_inv in H; destruct H as [f0 [w3 [Hf H]]].
  apply bind_ok_inv in H; destruct H as [i0 [w4 [Hi H]]].
  injection H as <- <- <- <- <-.
  repeat split; intros a Ha.
  - intros Hsave; eapply run_base_keeps; eauto.
  - intros Hsave; eapply run_enhanced_keeps; eauto.
  - unfold run_funnel in Hf; rewrite Ha in Hf.
    eapply run_guarded_keeps; eauto.
  - unfold run_insights in Hi; rewrite Ha in Hi.
    eapply run_guarded_keeps; eauto.
Qed.

End StageKeeps.


(** ** The bounded copy and the consolidated report *)

Lemma rbind_ok_inv {A B : Type} (r : result A) (k : A -> result B) (b : B) :
  rbind r k = Ok b -> exists a, r = Ok a /\ k a = Ok b.
Proof. destruct r as [a|e]; simpl; [eauto | discriminate]. Qed.

(** Where the copy of a mapping returns, each key holds the copy of what it
    held. *)
Lemma copy_items_find (g : nat) (items acc copied : list (string * value))
    (k : string) :
  result_fold
    (fun copied kv =>
       rbind (simple_copy_at g (snd kv))
         (fun v => Ok (dict_set (fst kv) v copied)))
    items acc = Ok copied ->
  NoDup (map fst items) ->
  match dict_find k items with
  | Some v =>
      exists v', simple_copy_at g v = Ok v' /\ dict_find k copied = Some v'
  | None => dict_find k copied = dict_find k acc
  end.
Proof.
  revert acc; induction items as [|[k1 v1] items IH]; intros acc Hfold Hnd.
  - simpl in *; congruence.
  - cbn [result_fold fst snd] in Hfold.
    apply rbind_ok_inv in Hfold; destruct Hfold as [acc' [Hstep Hfold]].
    apply rbind_ok_inv in Hstep; destruct Hstep as [v1' [Hv1 [= <-]]].
    inversion Hnd as [|? ? Hnotin Hnd']; subst.
    specialize (IH _ Hfold Hnd').
    cbn [dict_find]; destruct (String.eqb_spec k k1) as [->|Hne].
    + rewrite (dict_find_not_in _ _ Hnotin) in IH.
      exists v1'; split; [exact Hv1|].
      rewrite IH; apply dict_find_set_same.
    + destruct (dict_find k items); [exact IH|].
      rewrite IH; apply dict_find_set_other.
      now apply String.eqb_neq.
Qed.

Lemma simple_copy_dict_find (g : nat) (items : list (string * value))
    (copied v : value) (k : string) :
  simple_copy_at (S g) (VDict items) = Ok copied ->
  NoDup (map fst (firstn 20 items)) ->
  dict_find k (firstn 20 items) = Some v ->
  exists d v',
    copied = VDict d /\ simple_copy_at g v = Ok v' /\ dict_find k d = Some v'.
Proof.
  cbn [simple_copy_at]; intros Hcopy Hnd Hk.
  apply rbind_ok_inv in Hcopy; destruct Hcopy as [d [Hfold [= <-]]].
  pose proof (copy_items_find g _ _ _ k Hfold Hnd) as Hfind.
  rewrite Hk in Hfind; destruct Hfind as [v' [Hv' Hd]].
  exists d, v'; auto.
Qed.

Lemma add_section_other (key k : string) (analysis : value)
    (d d' : list (string * value)) :
  add_section key analysis d = Ok d' ->
  String.eqb k key = false ->
  dict_find k d' = dict_find k d.
Proof.
  unfold add_section; intros H Hk.
  destruct (truthy analysis && is_dict analysis).
  - apply rbind_ok_inv in H; destruct H as [c [_ [= <-]]].
    now apply dict_find_set_other.
  - now injection H as <-.
Qed.

Lemma add_section_holds (key : string) (analysis : value)
    (d d' : list (string * value)) :
  add_section key analysis d = Ok d' ->
  dict_find key d = None ->
  section_holds d' key analysis.
Proof.
  unfold add_section, section_holds; intros H Hd.
  destruct (truthy analysis && is_dict analysis).
  - apply rbind_ok_inv in H; destruct H as [c [Hc [= <-]]].
    exists c; split; [exact Hc | apply dict_find_set_same].
  - now injection H as <-.
Qed.

Lemma section_holds_ext (d d' : list (string * value)) (key : string)
    (analysis : value) :
  dict_find key d' = dict_find key d ->
  section_holds d key analysis -> section_holds d' key analysis.
Proof.
  unfold section_holds; intros ->; auto.
Qed.

Lemma str_append_assoc (s t u : string) :
  ((s ++ t) ++ u)%string = (s ++ t ++ u)%string.
Proof. induction s as [|c s IH]; simpl; [reflexivity | now rewrite IH]. Qed.

Lemma unlines_app (a b : list string) :
  unlines (a ++ b) = (unlines a ++ unlines b)%string.
Proof.
  induction a as [|l a IH]; cbn [unlines app]; [reflexivity|].
  now rewrite IH, !str_append_assoc.
Qed.

Section ConsolidatedFacts.

Variable env : collaborators.

Lemma summary_lists_next_steps (b e f i : value)
    (data : list (string * value)) :
  lists_next_steps (_generate_executive_summary env b e f i data).
Proof.
  unfold lists_next_steps, _generate_executive_summary.
  cbv zeta; rewrite 2 unlines_app; eauto.
Qed.

(** The keys of the consolidated report. *)
Lemma consolidated_sections (b e f i : value) (data : list (string * value))
    (sid : string) (report : value) :
  _consolidate_results_robustly env b e f i data sid = Ok report ->
  exists d,
    report = VDict d
    /\ section_holds d "analise_base" b
    /\ section_holds d "analise_aprimorada" e
    /\ section_holds d "analise_funil" f
    /\ section_holds d "insights_estrategicos" i
    /\ (exists dados,
          _create_simple_copy (VDict data) 3 0 = Ok dados
          /\ dict_find "dados_originais" d = Some dados)
    /\ dict_find "sumario_executivo" d
       = Some (VStr (_generate_executive_summary env b e f i data))
    /\ dict_find "proximos_passos" d = None
    /\ dict_find "session_id" d = Some (VStr sid).
Proof.
  unfold _consolidate_results_robustly; cbv zeta; intros H.
  apply rbind_ok_inv in H; destruct H as [d1 [H1 H]].
  apply rbind_ok_inv in H; destruct H as [d2 [H2 H]].
  apply rbind_ok_inv in H; destruct H as [d3 [H3 H]].
  apply rbind_ok_inv in H; destruct H as [d4 [H4 H]].
  apply rbind_ok_inv in H; destruct H as [dados [Hdados [= <-]]].
  eexists; split; [reflexivity|].
  assert (Hlast : forall k,
             String.eqb k "sumario_executivo" = false ->
             String.eqb k "dados_originais" = false ->
             dict_find k
               (dict_set "sumario_executivo"
                  (VStr (_generate_executive_summary env b e f i data))
                  (dict_set "dados_originais" dados d4))
             = dict_find k d4).
  { intros k Hk1 Hk2; now rewrite !dict_find_set_other. }
  repeat split.
  - eapply section_holds_ext; [apply Hlast; reflexivity|].
    eapply section_holds_ext;
      [apply (add_section_other _ _ _ _ _ H4); reflexivity|].
    eapply section_holds_ext;
      [apply (add_section_other _ _ _ _ _ H3); reflexivity|].
    eapply section_holds_ext;
      [apply (add_section_other _ _ _ _ _ H2); reflexivity|].
    apply (add_section_holds _ _ _ _ H1); reflexivity.
  - eapply section_holds_ext; [apply Hlast; reflexivity|].
    eapply section_holds_ext;
      [apply (add_section_other _ _ _ _ _ H4); reflexivity|].
    eapply section_holds_ext;
      [apply (add_section_other _ _ _ _ _ H3); reflexivity|].
    apply (add_section_holds _ _ _ _ H2).
    rewrite (add_section_other _ _ _ _ _ H1); reflexivity.
  - eapply section_holds_ext; [apply Hlast; reflexivity|].
    eapply section_holds_ext;
      [apply (add_section_other _ _ _ _ _ H4); reflexivity|].
    apply (add_section_holds _ _ _ _ H3).
    rewrite (add_section_other _ _ _ _ _ H2) by reflexivity.
    rewrite (add_section_other _ _ _ _ _ H1); reflexivity.
  - eapply section_holds_ext; [apply Hlast; reflexivity|].
    apply (add_section_holds _ _ _ _ H4).
    rewrite (add_section_other _ _ _ _ _ H3) by reflexivity.
    rewrite (add_section_other _ _ _ _ _ H2) by reflexivity.
    rewrite (add_section_other _ _ _ _ _ H1); reflexivity.
  - exists dados; split; [exact Hdados|].
    rewrite dict_find_set_other by reflexivity.
    apply dict_find_set_same.
  - apply dict_find_set_same.
  - rewrite Hlast by reflexivity.
    rewrite (add_section_other _ _ _ _ _ H4) by reflexivity.
    rewrite (add_section_other _ _ _ _ _ H3) by reflexivity.
    rewrite (add_section_other _ _ _ _ _ H2) by reflexivity.
    rewrite (add_section_other _ _ _ _ _ H1); reflexivity.
  - rewrite Hlast by reflexivity.
    rewrite (add_section_other _ _ _ _ _ H4) by reflexivity.
    rewrite (add_section_other _ _ _ _ _ H3) by reflexivity.
    rewrite (add_section_other _ _ _ _ _ H2) by reflexivity.
    rewrite (add_section_other _ _ _ _ _ H1); reflexivity.
Qed.

End ConsolidatedFacts.


(** ** The fallback analysis in the consolidated report *)

Ltac distinct_keys :=
  repeat constructor; cbn [In]; intuition discriminate.

Section FallbackFacts.

Variable env : collaborators.

Lemma fallback_is_mapping (data : list (string * value)) (fb : value) :
  _create_fallback_analysis env data = Ok fb ->
  truthy fb && is_dict fb = true.
Proof.
  unfold _create_fallback_analysis; cbv zeta; intros H.
  apply rbind_ok_inv in H; destruct H as [lower [_ [= <-]]]; reflexivity.
Qed.

(** The copy of the fallback analysis keeps the segment and the product
    under [analise_mercado]. *)
Lemma fallback_copy_fields (data : list (string * value))
    (fb copied : value) :
  _create_fallback_analysis env data = Ok fb ->
  _create_simple_copy fb 3 0 = Ok copied ->
  exists ab am produto,
    copied = VDict ab
    /\ dict_find "analise_mercado" ab = Some (VDict am)
    /\ dict_find "segmento" am
       = Some (dict_get data "segmento" (VStr "Empreendedores"))
    /\ _create_simple_copy (dict_get data "produto" (VStr "Programa MASI"))
         3 2 = Ok produto
    /\ dict_find "produto" am = Some produto.
Proof.
  unfold _create_fallback_analysis; cbv zeta; intros Hfb Hcopy.
  apply rbind_ok_inv in Hfb; destruct Hfb as [lower [Hlower [= <-]]].
  destruct (dict_get data "segmento" (VStr "Empreendedores"))
    as [| | | |s| | |] eqn:Hseg; try discriminate.
  change (_create_simple_copy ?v 3 0) with (simple_copy_at 4 v) in Hcopy.
  eapply simple_copy_dict_find with (k := "analise_mercado") in Hcopy;
    [| cbn [firstn map fst]; distinct_keys | reflexivity].
  destruct Hcopy as [ab [am' [-> [Ham Hab]]]].
  pose proof Ham as Hprod.
  eapply simple_copy_dict_find with (k := "segmento") in Ham;
    [| cbn [firstn map fst]; distinct_keys | reflexivity].
  destruct Ham as [am [seg' [-> [Hseg' Hfind]]]].
  eapply simple_copy_dict_find with (k := "produto") in Hprod;
    [| cbn [firstn map fst]; distinct_keys | reflexivity].
  destruct Hprod as [am2 [prod' [[= <-] [Hprod' Hfindp]]]].
  injection Hseg' as <-.
  exists ab, am, prod'; repeat split; auto.
Qed.

End FallbackFacts.

(** ** Records in the error sink and providers that raised *)

Lemma count_salvar_erro_app (t u : list event) :
  count_salvar_erro (t ++ u) = count_salvar_erro t + count_salvar_erro u.
Proof. unfold count_salvar_erro; now rewrite filter_app, length_app. Qed.

Lemma count_provider_failures_app (t u : list event) :
  count_provider_failures (t ++ u)
  = count_provider_failures t + count_provider_failures u.
Proof.
  unfold count_provider_failures; now rewrite filter_app, length_app.
Qed.

Lemma sink_matches_failures_refl (w : world) : sink_matches_failures w w.
Proof. unfold sink_matches_failures; lia. Qed.

Lemma sink_matches_failures_trans (w1 w2 w3 : world) :
  sink_matches_failures w1 w2 -> sink_matches_failures w2 w3 ->
  sink_matches_failures w1 w3.
Proof. unfold sink_matches_failures; lia. Qed.

(** Closes the branches a returning callback and an accepting step sink
    rule out, and counts the events of the branch that is left. *)
Ltac count_events :=
  repeat match goal with
         | Hcb : callback_returns ?cb,
           H : call_progress ?cb ?n ?m ?w = (_, _) |- _ =>
             rewrite (call_progress_returns cb n m w Hcb) in H;
             try discriminate; injection H; intros; subst; clear H
         | Hs : step_sink_accepts ?env,
           H : salvar_etapa ?env _ _ _ = _ |- _ =>
             rewrite Hs in H; try discriminate; clear H
         end;
  unfold sink_matches_failures; cbn [trace];
  rewrite ?count_salvar_erro_app, ?count_provider_failures_app;
  cbn; lia.

Section SinkFacts.

Variable env : collaborators.
Variable cb : option callback.
Hypothesis cb_returns : callback_returns cb.
Hypothesis steps_accepted : step_sink_accepts env.

Lemma run_base_balance (data : list (string * value)) (sid : string)
    (w w' : world) (b : value) :
  run_base env data sid cb w = (Ok b, w') -> sink_matches_failures w w'.
Proof.
  intros H; open_stage H; injection H as <- <-; subst; count_events.
Qed.

Lemma run_enhanced_balance (data : list (string * value)) (sid : string)
    (base : value) (w w' : world) (e : value) :
  run_enhanced env data sid cb base w = (Ok e, w') ->
  sink_matches_failures w w'.
Proof.
  intros H; open_stage H; injection H as <- <-; subst; count_events.
Qed.

Lemma run_guarded_balance (step : Z) (message stage : string)
    (outcome : result value) (etapa erro sid : string) (w w' : world)
    (v : value) :
  run_guarded env (call_progress cb step message) stage outcome etapa erro
    sid w = (Ok v, w') ->
  sink_matches_failures w w'.
Proof.
  intros H; open_stage H; injection H as <- <-; subst; count_events.
Qed.

Lemma run_stages_balance (data : list (string * value)) (sid : string)
    (w w' : world) (stages : value * value * value * value) :
  run_stages env data sid cb w = (Ok stages, w') ->
  sink_matches_failures w w'.
Proof.
  unfold run_stages, run_funnel, run_insights; intros H.
  apply bind_ok_inv in H; destruct H as [b [w1 [Hb H]]].
  apply bind_ok_inv in H; destruct H as [e [w2 [He H]]].
  apply bind_ok_inv in H; destruct H as [f [w3 [Hf H]]].
  apply bind_ok_inv in H; destruct H as [i [w4 [Hi H]]].
  injection H as _ <-.
  apply run_base_balance in Hb.
  apply run_enhanced_balance in He.
  apply run_guarded_balance in Hf.
  apply run_guarded_balance in Hi.
  eauto using sink_matches_failures_trans.
Qed.

End SinkFacts.


(** ** The events of the normal return *)

Section FinishFacts.

Variable env : collaborators.

Lemma call_salvar_etapa_world (nome : string) (payload : value)
    (categoria : string) (w : world) (r : result unit) (w' : world) :
  call_salvar_etapa env nome payload categoria w = (r, w') ->
  w' = {| execution_state := execution_state w;
          trace := trace w ++ [ESalvarEtapa nome payload categoria] |}.
Proof.
  unfold call_salvar_etapa, bind, log, lift; now intros [= _ <-].
Qed.

Lemma save_in_counts (categories : list string) (results : value)
    (w : world) (r : result unit) (w' : world) :
  save_in env categories results w = (r, w') ->
  count_salvar_erro (trace w') = count_salvar_erro (trace w)
  /\ count_provider_failures (trace w') = count_provider_failures (trace w).
Proof.
  revert w; induction categories as [|c cs IH]; intros w; cbn [save_in].
  - unfold ret; intros [= _ <-]; auto.
  - unfold bind at 1, attempt.
    destruct (call_salvar_etapa env ("resultado_final_" ++ c) results c w)
      as [r1 w1] eqn:Hsave.
    apply call_salvar_etapa_world in Hsave; subst w1.
    intros H; apply IH in H; cbn [trace] in H.
    rewrite count_salvar_erro_app, count_provider_failures_app in H.
    cbn in H; lia.
Qed.

Lemma set_session_field_trace (sid key : string) (v : value) (w : world)
    (r : result unit) (w' : world) :
  set_session_field sid key v w = (r, w') -> trace w' = trace w.
Proof.
  unfold set_session_field.
  destruct (dict_find sid (execution_state w)) as [[| | | | |entry| |]|];
    now intros [= _ <-].
Qed.

Lemma finish_counts (data : list (string * value)) (sid : string)
    (cb : option callback) (t0 : Z)
    (stages : value * value * value * value) (w w' : world) (v : value) :
  finish env data sid cb t0 stages w = (Ok v, w') ->
  sink_matches_failures w w'.
Proof.
  destruct stages as [[[b e] f] i]; unfold finish; intros H.
  apply bind_ok_inv in H; destruct H as [[] [w1 [H1 H]]].
  apply call_progress_world in H1; subst w1.
  apply bind_ok_inv in H; destruct H as [report [w2 [H2 H]]].
  unfold lift in H2; injection H2 as _ <-.
  apply bind_ok_inv in H; destruct H as [[] [w3 [H3 H]]].
  apply call_progress_world in H3; subst w3.
  apply bind_ok_inv in H; destruct H as [[] [w4 [H4 H]]].
  apply save_in_counts in H4.
  cbv zeta in H.
  apply bind_ok_inv in H; destruct H as [[] [w5 [H5 H]]].
  apply set_session_field_trace in H5.
  apply bind_ok_inv in H; destruct H as [[] [w6 [H6 H]]].
  apply set_session_field_trace in H6.
  injection H as _ <-.
  unfold sink_matches_failures; rewrite H6, H5; lia.
Qed.

End FinishFacts.

(** ** A callback that returns changes nothing *)

Lemma bind_ext {S A B : Type} (m : M S A) (k k' : A -> M S B) (s : S) :
  (forall a s1, k a s1 = k' a s1) -> bind m k s = bind m k' s.
Proof. intros Hk; unfold bind; destruct (m s) as [[a|e] s1]; auto. Qed.

Lemma try_except_ext {S A : Type} (body body' : M S A)
    (handler : exn -> M S A) (s : S) :
  body s = body' s -> try_except body handler s = try_except body' handler s.
Proof. unfold try_except; now intros ->. Qed.

Section QuietCallback.

Variable env : collaborators.
Variable f : callback.
Hypothesis f_returns : forall step message, f step message = Ok tt.
Hypothesis ignored : providers_ignore_callback env.

Lemma call_progress_quiet (step : Z) (message : string) :
  call_progress (Some f) step message = call_progress None step message.
Proof. unfold call_progress; now rewrite f_returns. Qed.

Lemma run_base_quiet (data : list (string * value)) (sid : string) :
  run_base env data sid (Some f) = run_base env data sid None.
Proof.
  unfold run_base; rewrite call_progress_quiet.
  now rewrite (proj1 ignored data sid (Some f)).
Qed.

Lemma run_enhanced_quiet (data : list (string * value)) (sid : string)
    (base : value) :
  run_enhanced env data sid (Some f) base
  = run_enhanced env data sid None base.
Proof.
  unfold run_enhanced; rewrite call_progress_quiet.
  now rewrite (proj2 ignored _ sid (Some f)).
Qed.

Lemma run_funnel_quiet (data : list (string * value)) (sid : string)
    (base : value) :
  run_funnel env data sid (Some f) base = run_funnel env data sid None base.
Proof. unfold run_funnel; now rewrite call_progress_quiet. Qed.

Lemma run_insights_quiet (data : list (string * value)) (sid : string)
    (base enhanced funnel : value) :
  run_insights env data sid (Some f) base enhanced funnel
  = run_insights env data sid None base enhanced funnel.
Proof. unfold run_insights; now rewrite call_progress_quiet. Qed.

Lemma run_stages_quiet (data : list (string * value)) (sid : string)
    (w : world) :
  run_stages env data sid (Some f) w = run_stages env data sid None w.
Proof.
  unfold run_stages, bind; rewrite run_base_quiet.
  destruct (run_base env data sid None w) as [[b|x] w1]; [|reflexivity].
  rewrite run_enhanced_quiet.
  destruct (run_enhanced env data sid None b w1) as [[e|x] w2];
    [|reflexivity].
  rewrite run_funnel_quiet.
  destruct (run_funnel env data sid None b w2) as [[fu|x] w3];
    [|reflexivity].
  now rewrite run_insights_quiet.
Qed.

Lemma finish_quiet (data : list (string * value)) (sid : string) (t0 : Z)
    (stages : value * value * value * value) :
  finish env data sid (Some f) t0 stages = finish env data sid None t0 stages.
Proof.
  destruct stages as [[[b e] fu] i]; unfold finish.
  now rewrite !call_progress_quiet.
Qed.

Lemma execute_quiet (data : list (string * value)) (sid : string)
    (w : world) :
  execute_synchronized_analysis env data sid (Some f) w
  = execute_synchronized_analysis env data sid None w.
Proof.
  unfold execute_synchronized_analysis; cbv zeta.
  apply try_except_ext, bind_ext; intros _ w0.
  rewrite call_progress_quiet; apply bind_ext; intros _ w1.
  unfold bind; rewrite run_stages_quiet.
  destruct (run_stages env data sid None w1) as [[stages|x] w2];
    [|reflexivity].
  now rewrite finish_quiet.
Qed.

End QuietCallback.


(** ** Lookups in a sanitized mapping *)

Lemma dict_find_keep_entries {Obj : Type} (h : Obj -> value)
    (items : list (string * Obj)) (acc : list (string * value)) (k : string) :
  NoDup (map fst items) ->
  in_strs k deny_list = false ->
  dict_find k (fold_left (keep_entry h) items acc)
  = match dict_find k items with
    | Some o => Some (h o)
    | None => dict_find k acc
    end.
Proof.
  intros Hnd Hk; revert acc Hnd.
  induction items as [|[k1 o1] items IH]; intros acc Hnd; [reflexivity|].
  inversion Hnd as [|? ? Hnotin Hnd']; subst.
  cbn [fold_left dict_find]; rewrite (IH _ Hnd').
  unfold keep_entry; cbn [fst snd].
  destruct (String.eqb_spec k k1) as [->|Hne].
  - rewrite Hk, (dict_find_not_in _ _ Hnotin).
    apply dict_find_set_same.
  - destruct (dict_find k items); [reflexivity|].
    destruct (in_strs k1 deny_list); [reflexivity|].
    apply dict_find_set_other; now apply String.eqb_neq.
Qed.

(** A mapping under a key that is not denied is sanitized one level
    further down; a short string and an integer stay as they are. *)
Lemma cleaned_dict_find (gap : nat) (items : list (string * value))
    (k : string) :
  NoDup (map fst items) ->
  in_strs k deny_list = false ->
  exists d,
    cleaned_value view_value (S gap) (VDict items) = VDict d
    /\ dict_find k d
       = match dict_find k items with
         | Some v => Some (entry_value view_value
                             (cleaned_value view_value gap) v)
         | None => None
         end.
Proof.
  intros Hnd Hk; eexists; split; [reflexivity|].
  now rewrite dict_find_keep_entries.
Qed.

Lemma entry_value_dict (gap : nat) (items : list (string * value)) :
  entry_value view_value (cleaned_value view_value gap) (VDict items)
  = cleaned_value view_value gap (VDict items).
Proof. reflexivity. Qed.

Lemma entry_value_short_str (gap : nat) (s : string) :
  (len s <= 10000)%Z ->
  entry_value view_value (cleaned_value view_value (S gap)) (VStr s) = VStr s.
Proof.
  intros Hs; unfold entry_value, long_str; cbn [view_value].
  destruct (Z.ltb_spec 10000 (len s)); [lia | reflexivity].
Qed.

(** ** What [_extract_safe_data] reads *)

Section ExtractFacts.

Variable data : value.

Lemma preserves_set_key (k k' : string) (v : value) (x : option value) :
  String.eqb k k' = false ->
  preserves (fun d => dict_find k d = x) (set_key k' v).
Proof.
  intros Hk d r d' Hd [= _ <-]; now rewrite dict_find_set_other.
Qed.

Lemma preserves_flag_if_present (k key flag : string) (x : option value) :
  String.eqb k flag = false ->
  preserves (fun d => dict_find k d = x) (flag_if_present data key flag).
Proof.
  intros Hk; unfold flag_if_present.
  apply preserves_bind; [apply preserves_lift|].
  intros [|]; [now apply preserves_set_key | apply preserves_ret].
Qed.

Lemma preserves_extract_metadata (k : string) (x : option value) :
  String.eqb k "processing_time" = false ->
  preserves (fun d => dict_find k d = x) (extract_metadata data).
Proof.
  intros Hk; unfold extract_metadata.
  apply preserves_bind; [apply preserves_lift|].
  intros [|]; [|apply preserves_ret].
  repeat (apply preserves_bind; [apply preserves_lift|intros ?]).
  now apply preserves_set_key.
Qed.

Lemma preserves_extract_flags (k : string) (x : option value) :
  String.eqb k "has_psychological_analysis" = false ->
  String.eqb k "has_funnel_analysis" = false ->
  String.eqb k "has_strategic_insights" = false ->
  preserves (fun d => dict_find k d = x) (extract_flags data).
Proof.
  intros H1 H2 H3; unfold extract_flags.
  apply preserves_bind; [now apply preserves_flag_if_present|intros _].
  apply preserves_bind; [now apply preserves_flag_if_present|intros _].
  now apply preserves_flag_if_present.
Qed.

Lemma preserves_extract_tail (k : string) (x : option value) :
  String.eqb k "processing_time" = false ->
  String.eqb k "has_psychological_analysis" = false ->
  String.eqb k "has_funnel_analysis" = false ->
  String.eqb k "has_strategic_insights" = false ->
  preserves (fun d => dict_find k d = x)
    (bind (extract_metadata data) (fun _ => extract_flags data)).
Proof.
  intros H0 H1 H2 H3; apply preserves_bind.
  - now apply preserves_extract_metadata.
  - intros _; now apply preserves_extract_flags.
Qed.

End ExtractFacts.

(** With [projeto_dados] and research results at top level, the segment is
    the project's and research is recorded. *)
Lemma extract_projeto_run (clean projeto d : list (string * value))
    (current_s current_p : value) :
  dict_find "projeto_dados" clean = Some (VDict projeto) ->
  dict_find "segmento" d = Some current_s ->
  dict_find "produto" d = Some current_p ->
  extract_projeto (VDict clean) d
  = (Ok tt,
     dict_set "produto" (dict_get projeto "produto" current_p)
       (dict_set "segmento" (dict_get projeto "segmento" current_s) d)).
Proof.
  intros Hproj Hs Hp.
  unfold extract_projeto, bind, lift, py_contains, dict_has, py_subscript,
    read_key, py_get, set_key.
  rewrite Hproj, Hs; cbv beta iota.
  rewrite dict_find_set_other by reflexivity.
  now rewrite Hp.
Qed.

Lemma extract_projeto_skip (clean d : list (string * value)) :
  dict_find "projeto_dados" clean = None ->
  extract_projeto (VDict clean) d = (Ok tt, d).
Proof.
  intros Hproj.
  unfold extract_projeto, bind, lift, py_contains, dict_has.
  now rewrite Hproj.
Qed.

Lemma extract_pesquisa_run (clean pesquisa d : list (string * value))
    (n : Z) :
  dict_find "pesquisa_web_massiva" clean = Some (VDict pesquisa) ->
  dict_find "total_resultados" pesquisa = Some (VInt n) ->
  (0 < n)%Z ->
  extract_pesquisa (VDict clean) d
  = (Ok tt,
     dict_set "research_sources" (VInt n)
       (dict_set "has_research" (VBool true) d)).
Proof.
  intros Hpesq Htotal Hn.
  unfold extract_pesquisa, bind, lift, py_contains, dict_has, py_subscript,
    py_get, dict_get, py_gt0, set_key, is_dict.
  rewrite Hpesq, Htotal; cbv beta iota.
  destruct (Z.ltb_spec 0 n); [reflexivity | lia].
Qed.

Lemma extract_pesquisa_skip (clean d : list (string * value)) :
  dict_find "pesquisa_web_massiva" clean = None ->
  extract_pesquisa (VDict clean) d = (Ok tt, d).
Proof.
  intros Hpesq.
  unfold extract_pesquisa, bind, lift, py_contains, dict_has.
  now rewrite Hpesq.
Qed.

Lemma extract_body_from (data : value) (d1 d2 : list (string * value))
    (init : list (string * value)) (k : string) (x : option value) :
  extract_projeto data init = (Ok tt, d1) ->
  extract_pesquisa data d1 = (Ok tt, d2) ->
  dict_find k d2 = x ->
  String.eqb k "processing_time" = false ->
  String.eqb k "has_psychological_analysis" = false ->
  String.eqb k "has_funnel_analysis" = false ->
  String.eqb k "has_strategic_insights" = false ->
  dict_find k (snd (extract_body data init)) = x.
Proof.
  intros H1 H2 Hk K0 K1 K2 K3; unfold extract_body.
  rewrite (bind_ok _ _ _ _ _ H1), (bind_ok _ _ _ _ _ H2).
  destruct (bind (extract_metadata data) (fun _ => extract_flags data) d2)
    as [r final] eqn:Htail.
  cbn [snd].
  exact (preserves_extract_tail data k x K0 K1 K2 K3 _ _ _ Hk Htail).
Qed.

Lemma extract_with_research (clean projeto pesquisa : list (string * value))
    (s : value) (n : Z) :
  dict_find "projeto_dados" clean = Some (VDict projeto) ->
  dict_find "segmento" projeto = Some s ->
  dict_find "pesquisa_web_massiva" clean = Some (VDict pesquisa) ->
  dict_find "total_resultados" pesquisa = Some (VInt n) ->
  (0 < n)%Z ->
  dict_find "segmento" (_extract_safe_data (VDict clean)) = Some s
  /\ dict_find "has_research" (_extract_safe_data (VDict clean))
     = Some (VBool true).
Proof.
  intros Hproj Hseg Hpesq Htotal Hn; unfold _extract_safe_data.
  split.
  - eapply extract_body_from;
      [ eapply extract_projeto_run; [exact Hproj | reflexivity | reflexivity]
      | eapply extract_pesquisa_run; eassumption
      | | reflexivity | reflexivity | reflexivity | reflexivity ].
    unfold dict_get; rewrite Hseg; reflexivity.
  - eapply extract_body_from;
      [ eapply extract_projeto_run; [exact Hproj | reflexivity | reflexivity]
      | eapply extract_pesquisa_run; eassumption
      | | reflexivity | reflexivity | reflexivity | reflexivity ].
    reflexivity.
Qed.

(** With neither key at top level the defaults stay. *)
Lemma extract_defaults (clean : list (string * value)) :
  dict_find "projeto_dados" clean = None ->
  dict_find "pesquisa_web_massiva" clean = None ->
  dict_find "segmento" (_extract_safe_data (VDict clean))
  = Some (VStr "Empreendedores")
  /\ dict_find "has_research" (_extract_safe_data (VDict clean))
     = Some (VBool false).
Proof.
  intros Hproj Hpesq; unfold _extract_safe_data.
  split; (eapply extract_body_from;
          [ now apply extract_projeto_skip
          | now apply extract_pesquisa_skip
          | reflexivity | reflexivity | reflexivity | reflexivity
          | reflexivity ]).
Qed.

(** ** The assembled report *)

Section AssemblerFacts.

Variable env : collaborators.

(** The assembler returns, with every one of its sections, whatever it is
    given. *)
Lemma generate_clean_report_returns (analysis_data session_id : value)
    (w : world) :
  exists d w',
    generate_clean_report env analysis_data session_id w = (Ok (VDict d), w')
    /\ map fst d = report_sections
    /\ dict_find "relatorio_executivo" d
       = Some (relatorio_executivo env
                 (_extract_safe_data
                    (cleaned_value view_value 11 analysis_data))).
Proof.
  unfold generate_clean_report, try_except.
  unfold bind at 1, lift, _deep_clean_data.
  change (depth_gap 10 0) with 11; rewrite clean_at_ok.
  unfold bind, _safe_save_report, try_except, call_salvar_etapa, bind, log,
    lift, ret.
  cbv beta iota zeta.
  match goal with
  | |- context [salvar_etapa env ?n ?p ?c] =>
      destruct (salvar_etapa env n p c) as [[]|x]
  end; eexists; eexists; split; try reflexivity; split; reflexivity.
Qed.

End AssemblerFacts.


(* ================================================================== *)
(** * Part III: the claims *)
(* ================================================================== *)

(** ** The deep sanitizer *)


Lemma depth_nested_lists (n : nat) (v : value) :
  depth (nested_lists n v) = n + depth v.
Proof. induction n as [|n IH]; simpl; [reflexivity|]. rewrite IH; lia. Qed.

(** C2, as the claim states it, fails: with the default [max_depth = 10],
    twelve sequences inside one another come back as eleven sequences
    around the marker mapping, a value of nesting depth 12. *)
Lemma deep_clean_depth_exceeds_max_depth :
  exists v,
    _deep_clean_data view_value (nested_lists 12 (VInt 1)) 10 0 = Ok v
    /\ v = nested_lists 11 max_depth_marker
    /\ ~ (Z.of_nat (depth v) <= 10)%Z.
Proof.
  exists (nested_lists 11 max_depth_marker); split; [reflexivity|].
  split; [reflexivity|].
  rewrite depth_nested_lists; cbn; lia.
Qed.

(** C2, amended: for every object graph, cyclic or not, and every pair of
    depths, [_deep_clean_data] returns (it does not raise, and it is a
    total function); the value is made of scalars, mappings and sequences
    only, its sequences have at most 50 elements, and its nesting depth is
    at most [max_depth - current_depth + 2]: the levels up to [max_depth]
    are copied and what lies below is replaced by the marker mapping,
    itself one level deep. *)
Theorem deep_clean_returns_bounded {Obj : Type} (view : Obj -> node Obj)
    (obj : Obj) (max_depth current_depth : Z) :
  exists v,
    _deep_clean_data view obj max_depth current_depth = Ok v
    /\ plain v = true
    /\ lists_within 50 v = true
    /\ (Z.of_nat (depth v) <= Z.max 0 (max_depth - current_depth + 1) + 1)%Z.
Proof.
  unfold _deep_clean_data; rewrite clean_at_ok; eexists; split; [reflexivity|].
  split; [apply cleaned_plain|]; split; [apply cleaned_lists_within|].
  pose proof (cleaned_depth view (depth_gap max_depth current_depth) obj).
  unfold depth_gap in *; lia.
Qed.

(** The walk over a graph that leads back to itself ends at the marker. *)
Example deep_clean_cyclic_store :
  _deep_clean_data (view_store cyclic_store) 0 1 0
  = Ok (VDict
          [("name", VStr "node");
           ("self", VDict [("name", max_depth_marker);
                           ("self", max_depth_marker);
                           ("children", max_depth_marker)]);
           ("children", VList [max_depth_marker; max_depth_marker])]).
Proof. reflexivity. Qed.




(** C5: sanitizing what the sanitizer returned, with the same depths,
    returns it again, whatever the object graph it came from. *)
Theorem deep_clean_idempotent {Obj : Type} (view : Obj -> node Obj)
    (obj : Obj) (max_depth current_depth : Z) :
  exists v,
    _deep_clean_data view obj max_depth current_depth = Ok v
    /\ _deep_clean_data view_value v max_depth current_depth = Ok v.
Proof.
  unfold _deep_clean_data; rewrite clean_at_ok; eexists; split; [reflexivity|].
  rewrite clean_at_ok; f_equal; apply cleaned_idempotent.
Qed.

(** C6: no key of the deny-list is bound anywhere in what the sanitizer
    returns, at any depth. *)
Theorem deep_clean_drops_denied_keys {Obj : Type} (view : Obj -> node Obj)
    (obj : Obj) (max_depth current_depth : Z) :
  exists v,
    _deep_clean_data view obj max_depth current_depth = Ok v
    /\ Forall (fun k => key_occurs k v = false) deny_list.
Proof.
  unfold _deep_clean_data; rewrite clean_at_ok; eexists; split; [reflexivity|].
  apply Forall_forall; intros k Hk; now apply denied_key_absent.
Qed.

(** A [parent] key at three depths, and what is left of the input. *)
Example deep_clean_drops_parent :
  _deep_clean_data view_value
    (VDict [("parent", VInt 0);
            ("name", VStr "a");
            ("child", VDict [("parent", VInt 1);
                             ("items", VList [VDict [("parent", VInt 2);
                                                     ("id", VInt 7)]])])])
    10 0
  = Ok (VDict [("name", VStr "a");
               ("child", VDict [("items", VList [VDict [("id", VInt 7)]])])]).
Proof. reflexivity. Qed.


(** ** The orchestrator *)

Lemma env_of_sinks_accept (base enhanced funnel insights : result value) :
  error_sink_accepts (env_of base enhanced funnel insights)
  /\ step_sink_accepts (env_of base enhanced funnel insights).
Proof. split; intros ? ? ?; reflexivity. Qed.

Lemma env_all_fail_raises : all_providers_raise env_all_fail.
Proof.
  repeat split; repeat intro; exists timeout_error; reflexivity.
Qed.

(** With every provider raising and a request whose segment is a text,
    the run returns normally and its report is the consolidated one: the
    segment and the product of the request are under [analise_base],
    [analise_mercado] and, with the whole request, under
    [dados_originais]; the next steps are the numbered lines of
    [sumario_executivo]. *)
Example all_providers_raise_consolidated_report :
  all_providers_raise env_all_fail
  /\ exists v report w',
       execute_synchronized_analysis env_all_fail request_varejo "sessao-1"
         None empty_world = (Ok v, w')
       /\ field "success" v = Some (VBool true)
       /\ field "report" v = Some (VDict report)
       /\ lookup_path ["analise_base"; "analise_mercado"; "segmento"]
            (VDict report) = Some (VStr "Varejo")
       /\ lookup_path ["analise_base"; "analise_mercado"; "produto"]
            (VDict report) = Some (VStr "Curso X")
       /\ dict_find "dados_originais" report = Some (VDict request_varejo)
       /\ dict_find "sumario_executivo" report
          = Some (VStr (_generate_executive_summary env_all_fail
                          (value_of (_create_fallback_analysis env_all_fail
                                       request_varejo))
                          VNone VNone VNone request_varejo)).
Proof.
  split; [exact env_all_fail_raises|].
  eexists; eexists; eexists; split; [vm_compute; reflexivity|].
  repeat split.
Qed.

(** C1: with an error sink that takes every record (the contract of the
    sink), the run returns for every request, session and callback, and
    what it returns says [success = True].  When every provider raises,
    the report is not empty and echoes the segment and the product and
    lists the next steps, in one of two shapes: the report of the
    outermost handler, with [segmento], [produto] and the list
    [proximos_passos] at top level; or the consolidated report, with the
    segment and the product under [analise_base], [analise_mercado], the
    request under [dados_originais], and the next steps as the numbered
    lines of [sumario_executivo]. *)
Theorem execute_always_succeeds (env : collaborators)
    (data : list (string * value)) (session_id : string)
    (progress_callback : option callback) (w : world) :
  error_sink_accepts env ->
  exists v w',
    execute_synchronized_analysis env data session_id progress_callback w
    = (Ok v, w')
    /\ field "success" v = Some (VBool true)
    /\ (all_providers_raise env ->
        exists report,
          field "report" v = Some (VDict report)
          /\ report <> []
          /\ (emergency_report_shape data report
              \/ consolidated_report_shape data report)).
Proof.
  intros Hsink.
  destruct (execute_synchronized_analysis env data session_id
              progress_callback w) as [r w'] eqn:Hrun.
  destruct (execute_cases _ _ _ _ _ _ _ Hrun)
    as [w0 [_ [_ [_ [Hnormal|Hemergency]]]]].
  - destruct Hnormal as [b [e [f [i [w1 [v [Hstages [Hfin ->]]]]]]]].
    exists v, w'; split; [reflexivity|].
    apply finish_ok_inv in Hfin; destruct Hfin as [report [Hrep [-> _]]].
    split; [reflexivity|]; intros [Hbase _].
    destruct (run_stages_failed _ _ _ _ _ _ _ _ _ _ Hstages) as [Hfb _].
    specialize (Hfb Hbase).
    destruct (consolidated_sections _ _ _ _ _ _ _ _ Hrep)
      as [d [-> [Hsec [_ [_ [_ [[dados [Hdados Hecho]] [Hsum _]]]]]]]].
    unfold section_holds in Hsec.
    rewrite (fallback_is_mapping _ _ _ Hfb) in Hsec.
    destruct Hsec as [copied [Hcopy Hfind]].
    destruct (fallback_copy_fields _ _ _ _ Hfb Hcopy)
      as [ab [am [produto [-> [Ham [Hseg [Hpcopy Hprod]]]]]]].
    exists d; split; [reflexivity|]; split.
    + intros ->; discriminate.
    + right; exists ab, am, produto, dados; eexists.
      do 8 (split; [eassumption|]).
      apply summary_lists_next_steps.
  - destruct Hemergency as [x [w1 [Hreg Hem]]].
    destruct (emergency_returns env data session_id x w1 Hsink Hreg)
      as [w2 [Hret _]].
    rewrite Hret in Hem; injection Hem as <- <-.
    eexists; eexists; split; [reflexivity|].
    split; [reflexivity|]; intros _.
    eexists; split; [reflexivity|]; split; [discriminate|].
    left; repeat split; eexists; split; [reflexivity | discriminate].
Qed.

Lemma execute_always_succeeds_witness :
  error_sink_accepts env_all_fail
  /\ exists v w',
       execute_synchronized_analysis env_all_fail request_varejo "sessao-1"
         (Some raising_callback) empty_world = (Ok v, w')
       /\ field "success" v = Some (VBool true)
       /\ (all_providers_raise env_all_fail ->
           exists report,
             field "report" v = Some (VDict report)
             /\ report <> []
             /\ (emergency_report_shape request_varejo report
                 \/ consolidated_report_shape request_varejo report)).
Proof.
  split.
  - intros nome e contexto; reflexivity.
  - apply (execute_always_succeeds env_all_fail request_varejo "sessao-1"
             (Some raising_callback) empty_world).
    intros nome e contexto; reflexivity.
Defined.

(** The hypothesis on the error sink is used: the handlers call
    [salvar_erro] outside any [try] of their own. *)
Example raising_error_sink_escapes :
  fst (execute_synchronized_analysis
         {| generate_gigantic_analysis := fun _ _ _ => Raise timeout_error;
            execute_ultra_enhanced_analysis := fun _ _ _ => Ok enhanced_ok;
            analyze_conversion_funnel := fun _ _ => Ok funnel_ok;
            generate_strategic_insights := fun _ => Ok insights_ok;
            salvar_etapa := fun _ _ _ => Ok tt;
            salvar_erro :=
              fun _ _ _ => Raise (Exception "OSError" "disk full");
            time_start := 0;
            time_end := 1;
            now_isoformat := fun _ => "2025-01-01T12:00:00";
            now_strftime := "01/01/2025 12:00:00";
            py_repr := type_name;
            str_lower := ascii_lower |}
         request_varejo "sessao-1" None empty_world)
  = Raise (Exception "OSError" "disk full").
Proof. reflexivity. Qed.


(** The normal return is told by [sync_status]; the report of the
    outermost handler has no such field. *)
Lemma normal_return_inv (env : collaborators) (data : list (string * value))
    (sid : string) (cb : option callback) (w w' : world) (v : value) :
  execute_synchronized_analysis env data sid cb w = (Ok v, w') ->
  field "sync_status" v = Some (VStr "ULTRA_ROBUST_SUCCESS") ->
  exists w0 b e f i w1,
    session_status sid w0 = Some (VStr "running")
    /\ trace w0 = trace w
    /\ run_stages env data sid cb w0 = (Ok (b, e, f, i), w1)
    /\ finish env data sid cb (time_start env) (b, e, f, i) w1 = (Ok v, w').
Proof.
  intros Hrun Hsync.
  destruct (execute_cases _ _ _ _ _ _ _ Hrun)
    as [w0 [Hst [_ [Htr [Hnormal|Hemergency]]]]].
  - destruct Hnormal as [b [e [f [i [w1 [v0 [Hstages [Hfin [= <-]]]]]]]]].
    exists w0, b, e, f, i, w1; auto.
  - destruct Hemergency as [x [w1 [_ Hem]]].
    unfold emergency in Hem.
    apply bind_ok_inv in Hem; destruct Hem as [[] [w2 [_ Hem]]].
    apply bind_ok_inv in Hem; destruct Hem as [[] [w3 [_ Hem]]].
    apply bind_ok_inv in Hem; destruct Hem as [[] [w4 [_ Hem]]].
    injection Hem as <- _; discriminate.
Qed.






(** C7, as the claim states it, fails: after a run in which the four
    providers raised, the error list of the session has no entry; the four
    failures are four records in the error sink. *)
Lemma four_failures_empty_error_list :
  exists r w' entry,
    execute_synchronized_analysis env_all_fail request_varejo "sessao-1"
      None empty_world = (r, w')
    /\ count_provider_failures (trace w') = 4
    /\ dict_find "sessao-1" (execution_state w') = Some (VDict entry)
    /\ dict_find "errors" entry = Some (VList [])
    /\ count_salvar_erro (trace w') = 4.
Proof.
  eexists; eexists; eexists; split; [vm_compute; reflexivity|].
  repeat split.
Qed.

(** C7, amended: after any run the error list of the session is empty: no
    stage writes to it.  The four stages leave the session table as it is,
    so the status set to [running] at the start stays until the run
    completes.  What a failed stage leaves is a record in the error sink:
    when the callback returns and the step sink takes every step, the
    normal return has as many new records in the error sink as providers
    that raised, and the status is then [completed]. *)
Theorem stage_failures_go_to_the_sink (env : collaborators)
    (data : list (string * value)) (session_id : string)
    (progress_callback : option callback) (w : world) (r : result value)
    (w' : world) :
  execute_synchronized_analysis env data session_id progress_callback w
  = (r, w') ->
  errors_empty session_id w'
  /\ (forall w0 r0 w1,
        run_stages env data session_id progress_callback w0 = (r0, w1) ->
        execution_state w1 = execution_state w0)
  /\ (callback_returns progress_callback ->
      step_sink_accepts env ->
      forall v,
        r = Ok v ->
        field "sync_status" v = Some (VStr "ULTRA_ROBUST_SUCCESS") ->
        sink_matches_failures w w'
        /\ session_status session_id w' = Some (VStr "completed")).
Proof.
  intros Hrun; split; [|split].
  - eapply execute_errors_empty; exact Hrun.
  - intros w0 r0 w1 Hstages.
    exact (preserves_run_stages env
             (fun w2 => execution_state w2 = execution_state w0)
             (trace_blind_same_sessions _) data session_id progress_callback
             w0 r0 w1 eq_refl Hstages).
  - intros Hcb Hsteps v -> Hsync.
    destruct (normal_return_inv _ _ _ _ _ _ _ Hrun Hsync)
      as [w0 [b [e [f [i [w1 [_ [Htr [Hstages Hfin]]]]]]]]].
    pose proof (run_stages_balance env progress_callback Hcb Hsteps
                  _ _ _ _ _ Hstages) as Hbal1.
    pose proof (finish_counts _ _ _ _ _ _ _ _ _ Hfin) as Hbal2.
    apply finish_ok_inv in Hfin; destruct Hfin as [_ [_ [_ Hstatus]]].
    split; [|exact Hstatus].
    unfold sink_matches_failures in *; rewrite Htr in Hbal1; lia.
Qed.

Lemma stage_failures_go_to_the_sink_witness :
  let run :=
    execute_synchronized_analysis env_all_fail request_varejo "sessao-1"
      None empty_world in
  errors_empty "sessao-1" (snd run)
  /\ (forall w0 r0 w1,
        run_stages env_all_fail request_varejo "sessao-1" None w0 = (r0, w1) ->
        execution_state w1 = execution_state w0)
  /\ (callback_returns None ->
      step_sink_accepts env_all_fail ->
      forall v,
        fst run = Ok v ->
        field "sync_status" v = Some (VStr "ULTRA_ROBUST_SUCCESS") ->
        sink_matches_failures empty_world (snd run)
        /\ session_status "sessao-1" (snd run) = Some (VStr "completed")).
Proof.
  intros run.
  apply (stage_failures_go_to_the_sink env_all_fail request_varejo "sessao-1"
           None empty_world (fst run) (snd run)).
  vm_compute; reflexivity.
Defined.

(** C9, as the claim states it, fails: with the same request and the same
    providers, a callback that raises sends the run to the outermost
    handler, while without a callback the run returns normally. *)
Lemma raising_callback_changes_outcome :
  exists v_raising v_absent w1 w2,
    execute_synchronized_analysis env_all_succeed request_varejo "sessao-1"
      (Some raising_callback) empty_world = (Ok v_raising, w1)
    /\ execute_synchronized_analysis env_all_succeed request_varejo
         "sessao-1" None empty_world = (Ok v_absent, w2)
    /\ field "execution_mode" v_raising = Some (VStr "EMERGENCY_SUCCESS")
    /\ field "sync_status" v_raising = None
    /\ field "sync_status" v_absent = Some (VStr "ULTRA_ROBUST_SUCCESS")
    /\ session_status "sessao-1" w1 = Some (VStr "completed_with_errors")
    /\ session_status "sessao-1" w2 = Some (VStr "completed").
Proof.
  eexists; eexists; eexists; eexists.
  split; [vm_compute; reflexivity|].
  split; [vm_compute; reflexivity|].
  repeat split.
Qed.

(** C9, amended: a callback that returns at every call, handed to
    providers that do not look at it, changes nothing: the run returns the
    same result and leaves the same world as the run without a callback.
    A callback that raises is not covered: it changes the outcome. *)
Theorem returning_callback_is_advisory (env : collaborators)
    (data : list (string * value)) (session_id : string) (f : callback)
    (w : world) :
  (forall step message, f step message = Ok tt) ->
  providers_ignore_callback env ->
  execute_synchronized_analysis env data session_id (Some f) w
  = execute_synchronized_analysis env data session_id None w.
Proof.
  intros Hf Hignored; now apply execute_quiet.
Qed.

Lemma returning_callback_is_advisory_witness :
  (forall step message, quiet_callback step message = Ok tt)
  /\ providers_ignore_callback env_all_succeed
  /\ execute_synchronized_analysis env_all_succeed request_varejo "sessao-1"
       (Some quiet_callback) empty_world
     = execute_synchronized_analysis env_all_succeed request_varejo
         "sessao-1" None empty_world.
Proof.
  split; [reflexivity|].
  split; [split; reflexivity|].
  apply (returning_callback_is_advisory env_all_succeed request_varejo
           "sessao-1" quiet_callback empty_world).
  - reflexivity.
  - split; reflexivity.
Defined.

(** C10: on a run that returns normally, the top-level [quality_level] is
    ["PREMIUM"] when the value the enhanced stage left is true in Python's
    sense (a non-empty result of its provider) and ["HIGH"] otherwise; that
    value is [None] or what the provider returned, and it is what the
    provider returned when the callback returns and the step sink took it.
    Failures of the three other stages do not enter: the label is never
    ["BASIC"]. *)
Theorem quality_level_premium_or_high (env : collaborators)
    (data : list (string * value)) (session_id : string)
    (progress_callback : option callback) (w w' : world) (v : value) :
  execute_synchronized_analysis env data session_id progress_callback w
  = (Ok v, w') ->
  field "sync_status" v = Some (VStr "ULTRA_ROBUST_SUCCESS") ->
  exists base enhanced funnel insights w0 w1,
    run_stages env data session_id progress_callback w0
    = (Ok (base, enhanced, funnel, insights), w1)
    /\ (enhanced = VNone
        \/ execute_ultra_enhanced_analysis env
             (_safe_combine_data data base) session_id progress_callback
           = Ok enhanced)
    /\ (enhanced_provider_raises env -> enhanced = VNone)
    /\ (callback_returns progress_callback ->
        forall a,
          execute_ultra_enhanced_analysis env
            (_safe_combine_data data base) session_id progress_callback
          = Ok a ->
          salvar_etapa env "analise_psicologica_robusta" a "analise_completa"
          = Ok tt ->
          enhanced = a)
    /\ field "quality_level" v
       = Some (VStr (if truthy enhanced then "PREMIUM" else "HIGH"))
    /\ field "quality_level" v <> Some (VStr "BASIC").
Proof.
  intros Hrun Hsync.
  destruct (normal_return_inv _ _ _ _ _ _ _ Hrun Hsync)
    as [w0 [b [e [f [i [w1 [_ [_ [Hstages Hfin]]]]]]]]].
  apply finish_ok_inv in Hfin; destruct Hfin as [report [_ [-> _]]].
  exists b, e, f, i, w0, w1; split; [exact Hstages|].
  destruct (run_stages_values _ _ _ _ _ _ _ _ _ _ Hstages) as [_ [Ve _]].
  destruct (run_stages_failed _ _ _ _ _ _ _ _ _ _ Hstages) as [_ [Fe _]].
  split; [exact Ve|]; split; [exact Fe|]; split.
  - intros Hcb.
    exact (proj1 (proj2 (run_stages_keep _ _ Hcb _ _ _ _ _ _ _ _ Hstages))).
  - split; [reflexivity|].
    cbn; destruct (truthy e); discriminate.
Qed.

Lemma quality_level_premium_or_high_witness :
  let run :=
    execute_synchronized_analysis env_enhanced_fails request_varejo
      "sessao-1" None empty_world in
  let v := value_of (fst run) in
  run = (Ok v, snd run)
  /\ field "sync_status" v = Some (VStr "ULTRA_ROBUST_SUCCESS")
  /\ field "quality_level" v = Some (VStr "HIGH")
  /\ exists base enhanced funnel insights w0 w1,
       run_stages env_enhanced_fails request_varejo "sessao-1" None w0
       = (Ok (base, enhanced, funnel, insights), w1)
       /\ (enhanced = VNone
           \/ execute_ultra_enhanced_analysis env_enhanced_fails
                (_safe_combine_data request_varejo base) "sessao-1" None
              = Ok enhanced)
       /\ (enhanced_provider_raises env_enhanced_fails -> enhanced = VNone)
       /\ (callback_returns None ->
           forall a,
             execute_ultra_enhanced_analysis env_enhanced_fails
               (_safe_combine_data request_varejo base) "sessao-1" None
             = Ok a ->
             salvar_etapa env_enhanced_fails "analise_psicologica_robusta" a
               "analise_completa" = Ok tt ->
             enhanced = a)
       /\ field "quality_level" v
          = Some (VStr (if truthy enhanced then "PREMIUM" else "HIGH"))
       /\ field "quality_level" v <> Some (VStr "BASIC").
Proof.
  intros run v.
  split; [vm_compute; reflexivity|].
  split; [vm_compute; reflexivity|].
  split; [vm_compute; reflexivity|].
  apply (quality_level_premium_or_high env_enhanced_fails request_varejo
           "sessao-1" None empty_world (snd run) v).
  - vm_compute; reflexivity.
  - vm_compute; reflexivity.
Defined.

(** A result that is false in Python's sense counts as no result: with an
    enhanced provider that returns an empty tuple, or an empty mapping, the
    label is ["HIGH"]. *)
Example empty_enhanced_result_is_high :
  let label enhanced :=
    field "quality_level"
      (value_of
         (fst (execute_synchronized_analysis
                 (env_of (Ok base_ok) (Ok enhanced) (Ok funnel_ok)
                    (Ok insights_ok))
                 request_varejo "sessao-1" None empty_world))) in
  label (VOther false (Ok "()")) = Some (VStr "HIGH")
  /\ label (VDict []) = Some (VStr "HIGH")
  /\ label (VOther true (Ok "(1, 2)")) = Some (VStr "PREMIUM")
  /\ label enhanced_ok = Some (VStr "PREMIUM").
Proof. repeat split. Qed.


(** ** The report assembler *)

(** C8, as the claim states it, fails: for the request of the claim and
    providers that all return, the assembler fed with the orchestrator's
    consolidated report shows the default segment and the lower label; and
    fed with a base analysis that returned with no research result, it
    shows the segment of the request and the lower label as well. *)
Lemma varejo_report_not_premium :
  (exists report summary w',
     run_analysis_and_assemble env_all_succeed request_varejo "sessao-1"
       None empty_world = (Ok report, w')
     /\ field "relatorio_executivo" report = Some summary
     /\ field "segmento_analisado" summary = Some (VStr "Empreendedores")
     /\ field "qualidade_analise" summary = Some (VStr "BÁSICA"))
  /\ (exists report summary w',
        generate_clean_report env_all_succeed base_no_results
          (VStr "sessao-1") empty_world = (Ok report, w')
        /\ field "relatorio_executivo" report = Some summary
        /\ field "segmento_analisado" summary = Some (VStr "Varejo")
        /\ field "qualidade_analise" summary = Some (VStr "BÁSICA")).
Proof.
  split; eexists; eexists; eexists;
    (split; [vm_compute; reflexivity | repeat split]).
Qed.

(** The entries of a sanitized mapping. *)
Lemma cleaned_dict_eq (gap : nat) (items : list (string * value)) :
  cleaned_value view_value (S gap) (VDict items)
  = VDict (cleaned_entries gap items).
Proof. reflexivity. Qed.

Lemma relatorio_executivo_fields (env : collaborators)
    (report_data : list (string * value)) (s research : value) :
  dict_find "segmento" report_data = Some s ->
  dict_find "has_research" report_data = Some research ->
  exists summary,
    relatorio_executivo env report_data = VDict summary
    /\ dict_find "segmento_analisado" summary = Some s
    /\ dict_find "qualidade_analise" summary
       = Some (VStr (if truthy research then "PREMIUM" else "BÁSICA")).
Proof.
  intros Hs Hr; unfold relatorio_executivo, dict_get; rewrite Hs, Hr.
  eexists; split; [reflexivity|]; split; [reflexivity|].
  cbn; now destruct (truthy research).
Qed.

(** C8, amended: the executive summary of [generate_clean_report] follows
    the top level of the data it is given.  When the data hold
    [projeto_dados] with a segment and [pesquisa_web_massiva] with a
    positive [total_resultados] (the shape of the base analysis), the
    summary shows that segment, ["Varejo"] for the request of the claim,
    and ["PREMIUM"].  When the data hold neither key at top level, as in
    the orchestrator's consolidated report, the summary shows
    ["Empreendedores"] and ["BÁSICA"], whatever the providers did. *)
Theorem clean_report_summary (env : collaborators)
    (items projeto pesquisa : list (string * value)) (s : string) (n : Z)
    (session_id : value) (w : world) :
  NoDup (map fst items) ->
  NoDup (map fst projeto) ->
  NoDup (map fst pesquisa) ->
  dict_find "projeto_dados" items = Some (VDict projeto) ->
  dict_find "segmento" projeto = Some (VStr s) ->
  (len s <= 10000)%Z ->
  dict_find "pesquisa_web_massiva" items = Some (VDict pesquisa) ->
  dict_find "total_resultados" pesquisa = Some (VInt n) ->
  (0 < n)%Z ->
  (exists d summary w',
     generate_clean_report env (VDict items) session_id w = (Ok (VDict d), w')
     /\ dict_find "relatorio_executivo" d = Some (VDict summary)
     /\ dict_find "segmento_analisado" summary = Some (VStr s)
     /\ dict_find "qualidade_analise" summary = Some (VStr "PREMIUM"))
  /\ (forall others sid w0,
        NoDup (map fst others) ->
        dict_find "projeto_dados" others = None ->
        dict_find "pesquisa_web_massiva" others = None ->
        exists d summary w',
          generate_clean_report env (VDict others) sid w0
          = (Ok (VDict d), w')
          /\ dict_find "relatorio_executivo" d = Some (VDict summary)
          /\ dict_find "segmento_analisado" summary
             = Some (VStr "Empreendedores")
          /\ dict_find "qualidade_analise" summary = Some (VStr "BÁSICA")).
Proof.
  intros Hitems Hprojeto Hpesquisa Hproj Hseg Hlen Hpesq Htotal Hn; split.
  - destruct (generate_clean_report_returns env (VDict items) session_id w)
      as [d [w' [Hrun [_ Hsummary]]]].
    rewrite cleaned_dict_eq in Hsummary.
    destruct (extract_with_research (cleaned_entries 10 items)
                (cleaned_entries 9 projeto) (cleaned_entries 9 pesquisa)
                (VStr s) n) as [Es Er]; try assumption.
    + unfold cleaned_entries at 1.
      rewrite dict_find_keep_entries by (assumption || reflexivity).
      rewrite Hproj; reflexivity.
    + unfold cleaned_entries.
      rewrite dict_find_keep_entries by (assumption || reflexivity).
      now rewrite Hseg, (entry_value_short_str 8 s Hlen).
    + unfold cleaned_entries at 1.
      rewrite dict_find_keep_entries by (assumption || reflexivity).
      rewrite Hpesq; reflexivity.
    + unfold cleaned_entries.
      rewrite dict_find_keep_entries by (assumption || reflexivity).
      now rewrite Htotal.
    + destruct (relatorio_executivo_fields env _ _ _ Es Er)
        as [summary [Hsum [Hsa Hqa]]].
      rewrite Hsum in Hsummary.
      exists d, summary, w'; repeat split; assumption.
  - intros others sid w0 Hothers Hnoproj Hnopesq.
    destruct (generate_clean_report_returns env (VDict others) sid w0)
      as [d [w' [Hrun [_ Hsummary]]]].
    rewrite cleaned_dict_eq in Hsummary.
    destruct (extract_defaults (cleaned_entries 10 others)) as [Es Er].
    + unfold cleaned_entries.
      rewrite dict_find_keep_entries by (assumption || reflexivity).
      now rewrite Hnoproj.
    + unfold cleaned_entries.
      rewrite dict_find_keep_entries by (assumption || reflexivity).
      now rewrite Hnopesq.
    + destruct (relatorio_executivo_fields env _ _ _ Es Er)
        as [summary [Hsum [Hsa Hqa]]].
      rewrite Hsum in Hsummary.
      exists d, summary, w'; repeat split; assumption.
Qed.

Lemma clean_report_summary_witness :
  (0 < 12)%Z
  /\ (exists d summary w',
        generate_clean_report env_all_succeed base_ok (VStr "sessao-1")
          empty_world = (Ok (VDict d), w')
        /\ dict_find "relatorio_executivo" d = Some (VDict summary)
        /\ dict_find "segmento_analisado" summary = Some (VStr "Varejo")
        /\ dict_find "qualidade_analise" summary = Some (VStr "PREMIUM"))
  /\ (forall others sid w0,
        NoDup (map fst others) ->
        dict_find "projeto_dados" others = None ->
        dict_find "pesquisa_web_massiva" others = None ->
        exists d summary w',
          generate_clean_report env_all_succeed (VDict others) sid w0
          = (Ok (VDict d), w')
          /\ dict_find "relatorio_executivo" d = Some (VDict summary)
          /\ dict_find "segmento_analisado" summary
             = Some (VStr "Empreendedores")
          /\ dict_find "qualidade_analise" summary = Some (VStr "BÁSICA")).
Proof.
  split; [lia|].
  apply (clean_report_summary env_all_succeed
           [("projeto_dados", VDict request_varejo);
            ("pesquisa_web_massiva", VDict [("total_resultados", VInt 12)]);
            ("avatar_ultra_detalhado", VDict [("perfil", VStr "Lojista")]);
            ("metadata_gigante",
             VDict [("processing_time_formatted", VStr "2m")])]
           request_varejo [("total_resultados", VInt 12)] "Varejo" 12
           (VStr "sessao-1") empty_world).
  - repeat constructor; simpl; intuition discriminate.
  - repeat constructor; simpl; intuition discriminate.
  - repeat constructor; simpl; intuition discriminate.
  - reflexivity.
  - reflexivity.
  - vm_compute; discriminate.
  - reflexivity.
  - reflexivity.
  - lia.
Defined.

(* ================================================================== *)
(** * Part IV: further properties of the code *)
(* ================================================================== *)

(** ** The bounded copy: what it is made of *)

Lemma no_repeat_NoDup (l : list string) : no_repeat l = true <-> NoDup l.
Proof.
  induction l as [|k l IH]; simpl.
  - split; [constructor | reflexivity].
  - rewrite andb_true_iff, negb_true_iff, IH; split.
    + intros [Hk Hl]; constructor; [|exact Hl].
      intros Hin; apply in_strs_In in Hin; congruence.
    + intros Hnd; inversion Hnd as [|? ? Hk Hl]; subst; split; [|exact Hl].
      destruct (in_strs k l) eqn:Hin; [|reflexivity].
      apply in_strs_In in Hin; contradiction.
Qed.

Lemma length_dict_set {A : Type} (k : string) (v : A) (d : list (string * A)) :
  List.length (dict_set k v d) <= S (List.length d).
Proof.
  induction d as [|[k' v'] d IH]; simpl; [lia|].
  destruct (String.eqb k k'); simpl; lia.
Qed.

(** The loop over the items of a mapping keeps what holds of every copy. *)
Lemma copy_items_shape (P : value -> Prop) (g : nat)
    (items acc copied : list (string * value)) :
  result_fold
    (fun copied kv =>
       rbind (simple_copy_at g (snd kv))
         (fun v => Ok (dict_set (fst kv) v copied)))
    items acc = Ok copied ->
  (forall x v, simple_copy_at g x = Ok v -> P v) ->
  Forall (fun kv => P (snd kv)) acc ->
  NoDup (map fst acc) ->
  Forall (fun kv => P (snd kv)) copied
  /\ NoDup (map fst copied)
  /\ List.length copied <= List.length acc + List.length items.
Proof.
  intros Hfold HP; revert acc Hfold.
  induction items as [|[k x] items IH]; intros acc Hfold Hacc Hnd.
  - simpl in Hfold; injection Hfold as <-; repeat split; auto; lia.
  - cbn [result_fold fst snd] in Hfold.
    apply rbind_ok_inv in Hfold; destruct Hfold as [acc' [Hstep Hfold]].
    apply rbind_ok_inv in Hstep; destruct Hstep as [v [Hv [= <-]]].
    destruct (IH _ Hfold) as [H1 [H2 H3]].
    + apply Forall_dict_set; [exact (HP _ _ Hv) | exact Hacc].
    + now apply NoDup_keys_dict_set.
    + repeat split; auto.
      pose proof (length_dict_set k v acc); simpl; lia.
Qed.

(** The loop over the elements of a sequence copies them one by one. *)
Lemma copy_elems_shape (g : nat) (items acc copied : list value) :
  result_fold
    (fun copied item =>
       rbind (simple_copy_at g item) (fun v => Ok (copied ++ [v])))
    items acc = Ok copied ->
  exists vs,
    copied = acc ++ vs
    /\ Forall2 (fun x v => simple_copy_at g x = Ok v) items vs.
Proof.
  revert acc; induction items as [|x items IH]; intros acc Hfold.
  - simpl in Hfold; injection Hfold as <-.
    exists []; split; [now rewrite app_nil_r | constructor].
  - cbn [result_fold] in Hfold.
    apply rbind_ok_inv in Hfold; destruct Hfold as [acc' [Hstep Hfold]].
    apply rbind_ok_inv in Hstep; destruct Hstep as [v [Hv [= <-]]].
    destruct (IH _ Hfold) as [vs [-> Hvs]].
    exists (v :: vs); split; [now rewrite <- app_assoc | now constructor].
Qed.

Lemma Forall2_copies (P : value -> Prop) (g : nat) (items vs : list value) :
  (forall x v, simple_copy_at g x = Ok v -> P v) ->
  Forall2 (fun x v => simple_copy_at g x = Ok v) items vs ->
  Forall P vs /\ List.length vs = List.length items.
Proof.
  intros HP H; induction H as [|x v items vs Hv _ [IH1 IH2]].
  - split; [constructor | reflexivity].
  - split; [constructor; eauto | simpl; now rewrite IH2].
Qed.

Lemma forallb_Forall {A : Type} (f : A -> bool) (l : list A) :
  forallb f l = true <-> Forall (fun x => f x = true) l.
Proof. rewrite forallb_forall, Forall_forall; reflexivity. Qed.

Lemma copy_shaped_dict (g : nat) (d : list (string * value)) :
  Forall (fun kv => copy_shaped g (snd kv)) d ->
  NoDup (map fst d) -> List.length d <= 20 ->
  copy_shaped (S g) (VDict d).
Proof.
  intros Hd Hnd Hlen; unfold copy_shaped; cbn [plain depth dicts_within
    lists_within keys_unique].
  repeat split.
  - apply forallb_Forall; revert Hd; apply Forall_impl; intros kv H; apply H.
  - apply le_n_S, list_max_le, Forall_map; revert Hd; apply Forall_impl.
    intros kv H; apply H.
  - apply andb_true_iff; split; [now apply Nat.leb_le|].
    apply forallb_Forall; revert Hd; apply Forall_impl; intros kv H; apply H.
  - apply forallb_Forall; revert Hd; apply Forall_impl; intros kv H; apply H.
  - apply andb_true_iff; split; [now apply no_repeat_NoDup|].
    apply forallb_Forall; revert Hd; apply Forall_impl; intros kv H; apply H.
Qed.

Lemma copy_shaped_list (g : nat) (l : list value) :
  Forall (copy_shaped g) l -> List.length l <= 10 ->
  copy_shaped (S g) (VList l).
Proof.
  intros Hl Hlen; unfold copy_shaped; cbn [plain depth dicts_within
    lists_within keys_unique].
  repeat split.
  - apply forallb_Forall; revert Hl; apply Forall_impl; intros v H; apply H.
  - apply le_n_S, list_max_le, Forall_map; revert Hl; apply Forall_impl.
    intros v H; apply H.
  - apply forallb_Forall; revert Hl; apply Forall_impl; intros v H; apply H.
  - apply andb_true_iff; split; [now apply Nat.leb_le|].
    apply forallb_Forall; revert Hl; apply Forall_impl; intros v H; apply H.
  - apply forallb_Forall; revert Hl; apply Forall_impl; intros v H; apply H.
Qed.

Lemma copy_shaped_scalar (g : nat) (v : value) :
  match v with VDict _ | VList _ | VOther _ _ => False | _ => True end ->
  copy_shaped g v.
Proof.
  destruct v; intros H; try contradiction; unfold copy_shaped; simpl;
    repeat split; lia.
Qed.

Lemma simple_copy_shaped (g : nat) (obj v : value) :
  simple_copy_at g obj = Ok v -> copy_shaped g v.
Proof.
  revert obj v; induction g as [|g IH]; intros obj v Hcopy.
  - injection Hcopy as <-; now apply copy_shaped_scalar.
  - destruct obj as [| b | n | f | s | items | items | repr];
      cbn [simple_copy_at] in Hcopy;
      try (injection Hcopy as <-; now apply copy_shaped_scalar).
    + apply rbind_ok_inv in Hcopy; destruct Hcopy as [d [Hfold [= <-]]].
      destruct (copy_items_shape (copy_shaped g) g _ _ _ Hfold IH)
        as [H1 [H2 H3]]; [constructor | constructor |].
      apply copy_shaped_dict; auto.
      pose proof (firstn_le_length 20 items) as Hle; cbn [List.length] in H3; lia.
    + apply rbind_ok_inv in Hcopy; destruct Hcopy as [l [Hfold [= <-]]].
      destruct (copy_elems_shape g _ _ _ Hfold) as [vs [-> Hvs]].
      cbn [app].
      destruct (Forall2_copies (copy_shaped g) g _ _ IH Hvs) as [H1 H2].
      apply copy_shaped_list; auto.
      pose proof (firstn_le_length 10 items) as Hle; lia.
    + apply rbind_ok_inv in Hcopy; destruct Hcopy as [s [_ [= <-]]].
      now apply copy_shaped_scalar.
Qed.

(** ** Copying data that is already within the bounds *)

Lemma copy_items_fixed (g : nat) (d acc : list (string * value)) :
  NoDup (map fst acc ++ map fst d) ->
  Forall (fun kv => simple_copy_at g (snd kv) = Ok (snd kv)) d ->
  result_fold
    (fun copied kv =>
       rbind (simple_copy_at g (snd kv))
         (fun v => Ok (dict_set (fst kv) v copied)))
    d acc = Ok (acc ++ d).
Proof.
  revert acc; induction d as [|[k v] d IH]; intros acc Hnd Hd.
  - simpl; now rewrite app_nil_r.
  - inversion Hd as [|? ? Hv Hd']; subst; cbn [fst snd] in *.
    cbn [result_fold fst snd]; rewrite Hv; cbn [rbind].
    rewrite dict_set_fresh.
    + rewrite IH; [now rewrite <- app_assoc | | exact Hd'].
      rewrite map_app, <- app_assoc; exact Hnd.
    + apply NoDup_remove_2 in Hnd.
      intros Hin; apply Hnd, in_or_app; now left.
Qed.

Lemma copy_elems_fixed (g : nat) (l acc : list value) :
  Forall (fun v => simple_copy_at g v = Ok v) l ->
  result_fold
    (fun copied item =>
       rbind (simple_copy_at g item) (fun v => Ok (copied ++ [v])))
    l acc = Ok (acc ++ l).
Proof.
  revert acc; induction l as [|v l IH]; intros acc Hl.
  - simpl; now rewrite app_nil_r.
  - inversion Hl as [|? ? Hv Hl']; subst.
    cbn [result_fold]; rewrite Hv; cbn [rbind].
    rewrite IH by exact Hl'; now rewrite <- app_assoc.
Qed.

Lemma simple_copy_fixed_dict (g : nat) (d : list (string * value)) :
  NoDup (map fst d) -> List.length d <= 20 ->
  Forall (fun kv => simple_copy_at g (snd kv) = Ok (snd kv)) d ->
  simple_copy_at (S g) (VDict d) = Ok (VDict d).
Proof.
  intros Hnd Hlen Hd; cbn [simple_copy_at].
  rewrite firstn_all2 by exact Hlen.
  rewrite copy_items_fixed; [reflexivity | exact Hnd | exact Hd].
Qed.

Lemma simple_copy_fixed_list (g : nat) (l : list value) :
  List.length l <= 10 ->
  Forall (fun v => simple_copy_at g v = Ok v) l ->
  simple_copy_at (S g) (VList l) = Ok (VList l).
Proof.
  intros Hlen Hl; cbn [simple_copy_at].
  rewrite firstn_all2 by exact Hlen.
  rewrite copy_elems_fixed; [reflexivity | exact Hl].
Qed.

Lemma simple_copy_again (g : nat) (obj v : value) :
  simple_copy_at g obj = Ok v -> simple_copy_at g v = Ok v.
Proof.
  revert obj v; induction g as [|g IH]; intros obj v Hcopy.
  - injection Hcopy as <-; reflexivity.
  - destruct obj as [| b | n | f | s | items | items | repr];
      cbn [simple_copy_at] in Hcopy;
      try (injection Hcopy as <-; reflexivity).
    + apply rbind_ok_inv in Hcopy; destruct Hcopy as [d [Hfold [= <-]]].
      destruct (copy_items_shape (fun v => simple_copy_at g v = Ok v) g
                  _ _ _ Hfold IH) as [H1 [H2 H3]];
        [constructor | constructor |].
      apply simple_copy_fixed_dict; auto.
      pose proof (firstn_le_length 20 items) as Hle; cbn [List.length] in H3; lia.
    + apply rbind_ok_inv in Hcopy; destruct Hcopy as [l [Hfold [= <-]]].
      destruct (copy_elems_shape g _ _ _ Hfold) as [vs [-> Hvs]].
      cbn [app].
      destruct (Forall2_copies (fun v => simple_copy_at g v = Ok v) g
                  _ _ IH Hvs) as [H1 H2].
      apply simple_copy_fixed_list; auto.
      pose proof (firstn_le_length 10 items) as Hle; lia.
    + apply rbind_ok_inv in Hcopy; destruct Hcopy as [s [_ [= <-]]].
      reflexivity.
Qed.

Lemma depth_dict_lt (g : nat) (d : list (string * value)) :
  depth (VDict d) < S g -> Forall (fun kv => depth (snd kv) < g) d.
Proof.
  cbn [depth]; intros H; apply Forall_forall; intros kv Hkv.
  assert (Hle : list_max (map (fun kv => depth (snd kv)) d)
                <= list_max (map (fun kv => depth (snd kv)) d)) by lia.
  apply list_max_le in Hle; rewrite Forall_map, Forall_forall in Hle.
  specialize (Hle kv Hkv); simpl in Hle; lia.
Qed.

Lemma depth_list_lt (g : nat) (l : list value) :
  depth (VList l) < S g -> Forall (fun v => depth v < g) l.
Proof.
  cbn [depth]; intros H; apply Forall_forall; intros v Hv.
  assert (Hle : list_max (map depth l) <= list_max (map depth l)) by lia.
  apply list_max_le in Hle; rewrite Forall_map, Forall_forall in Hle.
  specialize (Hle v Hv); lia.
Qed.

Lemma simple_copy_small (g : nat) (v : value) :
  plain v = true -> keys_unique v = true ->
  dicts_within 20 v = true -> lists_within 10 v = true ->
  depth v < g ->
  simple_copy_at g v = Ok v.
Proof.
  revert v; induction g as [|g IH]; intros v Hp Hk Hd Hl Hdepth; [lia|].
  destruct v as [| b | n | f | s | items | items | repr];
    try reflexivity; try discriminate.
  - cbn [plain keys_unique dicts_within lists_within] in Hp, Hk, Hd, Hl.
    apply andb_true_iff in Hk; destruct Hk as [Hnd Hk].
    apply andb_true_iff in Hd; destruct Hd as [Hlen Hd].
    apply no_repeat_NoDup in Hnd; apply Nat.leb_le in Hlen.
    apply depth_dict_lt in Hdepth.
    rewrite forallb_forall in Hp, Hk, Hd, Hl; rewrite Forall_forall in Hdepth.
    apply simple_copy_fixed_dict; auto.
    apply Forall_forall; intros kv Hkv; apply IH; auto.
  - cbn [plain keys_unique dicts_within lists_within] in Hp, Hk, Hd, Hl.
    apply andb_true_iff in Hl; destruct Hl as [Hlen Hl].
    apply Nat.leb_le in Hlen.
    apply depth_list_lt in Hdepth.
    rewrite forallb_forall in Hp, Hk, Hd, Hl; rewrite Forall_forall in Hdepth.
    apply simple_copy_fixed_list; auto.
    apply Forall_forall; intros x Hx; apply IH; auto.
Qed.

(** The copy returns on data without foreign objects. *)
Lemma copy_items_return (g : nat) (items acc : list (string * value)) :
  Forall (fun kv => exists v, simple_copy_at g (snd kv) = Ok v) items ->
  exists copied,
    result_fold
      (fun copied kv =>
         rbind (simple_copy_at g (snd kv))
           (fun v => Ok (dict_set (fst kv) v copied)))
      items acc = Ok copied.
Proof.
  revert acc; induction items as [|[k x] items IH]; intros acc Hitems.
  - exists acc; reflexivity.
  - inversion Hitems as [|? ? [v Hv] Hrest]; subst; cbn [fst snd] in *.
    cbn [result_fold fst snd]; rewrite Hv; cbn [rbind]; apply IH, Hrest.
Qed.

Lemma copy_elems_return (g : nat) (items acc : list value) :
  Forall (fun x => exists v, simple_copy_at g x = Ok v) items ->
  exists copied,
    result_fold
      (fun copied item =>
         rbind (simple_copy_at g item) (fun v => Ok (copied ++ [v])))
      items acc = Ok copied.
Proof.
  revert acc; induction items as [|x items IH]; intros acc Hitems.
  - exists acc; reflexivity.
  - inversion Hitems as [|? ? [v Hv] Hrest]; subst.
    cbn [result_fold]; rewrite Hv; cbn [rbind]; apply IH, Hrest.
Qed.

Lemma Forall_firstn {A : Type} (P : A -> Prop) (n : nat) (l : list A) :
  Forall P l -> Forall P (firstn n l).
Proof.
  revert l; induction n as [|n IH]; intros l Hl; [constructor|].
  destruct Hl as [|x l Hx Hl]; [constructor|].
  simpl; constructor; auto.
Qed.

Lemma simple_copy_plain_returns (g : nat) (obj : value) :
  plain obj = true -> exists v, simple_copy_at g obj = Ok v.
Proof.
  revert obj; induction g as [|g IH]; intros obj Hp.
  - eexists; reflexivity.
  - destruct obj as [| b | n | f | s | items | items | repr];
      try discriminate; try (eexists; reflexivity).
    + cbn [plain] in Hp; apply forallb_Forall in Hp.
      destruct (copy_items_return g (firstn 20 items) []) as [c Hc].
      * apply Forall_firstn; revert Hp; apply Forall_impl.
        intros kv Hkv; now apply IH.
      * cbn [simple_copy_at]; rewrite Hc; eexists; reflexivity.
    + cbn [plain] in Hp; apply forallb_Forall in Hp.
      destruct (copy_elems_return g (firstn 10 items) []) as [c Hc].
      * apply Forall_firstn; revert Hp; apply Forall_impl.
        intros x Hx; now apply IH.
      * cbn [simple_copy_at]; rewrite Hc; eexists; reflexivity.
Qed.

(** ** Sanitizing data that is already clean *)

Lemma cleaned_small (g : nat) (v : value) :
  plain v = true -> keys_unique v = true -> clean_entries v = true ->
  lists_within 50 v = true -> depth v < g ->
  cleaned_value view_value g v = v.
Proof.
  revert v; induction g as [|g IH]; intros v Hp Hk Hc Hl Hdepth; [lia|].
  destruct v as [| b | n | f | s | items | items | repr];
    try reflexivity; try discriminate.
  - cbn [plain keys_unique clean_entries lists_within] in Hp, Hk, Hc, Hl.
    apply andb_true_iff in Hk; destruct Hk as [Hnd Hk].
    apply no_repeat_NoDup in Hnd.
    apply depth_dict_lt in Hdepth.
    rewrite forallb_forall in Hp, Hk, Hc, Hl; rewrite Forall_forall in Hdepth.
    cbn [cleaned_value view_value]; f_equal.
    apply (keep_entries_fixed _ items []); [exact Hnd|].
    apply Forall_forall; intros kv Hkv.
    specialize (Hc kv Hkv).
    apply andb_true_iff in Hc; destruct Hc as [Hc Hclean].
    apply andb_true_iff in Hc; destruct Hc as [Hdeny Hshort].
    apply negb_true_iff in Hdeny; split; [exact Hdeny|].
    assert (Hrec : cleaned_value view_value g (snd kv) = snd kv)
      by (apply IH; auto).
    unfold entry_value, long_str.
    destruct (snd kv) as [| | | | s | | |]; cbn [view_value]; try exact Hrec.
    cbn [short_str] in Hshort; apply Z.leb_le in Hshort.
    destruct (Z.ltb_spec 10000 (len s)); [lia | exact Hrec].
  - cbn [plain keys_unique clean_entries lists_within] in Hp, Hk, Hc, Hl.
    apply andb_true_iff in Hl; destruct Hl as [Hlen Hl].
    apply Nat.leb_le in Hlen.
    apply depth_list_lt in Hdepth.
    rewrite forallb_forall in Hp, Hk, Hc, Hl; rewrite Forall_forall in Hdepth.
    cbn [cleaned_value view_value]; f_equal.
    rewrite firstn_all2 by exact Hlen.
    rewrite <- (map_id items) at 2.
    apply map_ext_in; intros x Hx; apply IH; auto.
Qed.

(** ** [_create_simple_copy] *)

(** X1: whatever [_create_simple_copy] returns is made of scalars, mappings
    and sequences only; its mappings have at most 20 entries and its
    sequences at most 10 elements; its nesting depth is at most
    [max_depth - current_depth + 1] (4 with the default arguments): the
    levels up to [max_depth] are copied and what lies below is replaced by
    the string ["[Max depth reached]"]. *)
Theorem simple_copy_is_bounded (obj : value) (max_depth current_depth : Z)
    (v : value) :
  _create_simple_copy obj max_depth current_depth = Ok v ->
  plain v = true
  /\ dicts_within 20 v = true
  /\ lists_within 10 v = true
  /\ (Z.of_nat (depth v) <= Z.max 0 (max_depth - current_depth + 1))%Z.
Proof.
  unfold _create_simple_copy; intros Hcopy.
  destruct (simple_copy_shaped _ _ _ Hcopy) as [Hp [Hdepth [Hd [Hl _]]]].
  repeat split; auto.
  unfold depth_gap in Hdepth; lia.
Qed.

Lemma simple_copy_is_bounded_witness :
  _create_simple_copy (nested_dicts 6 (VInt 1)) 3 0
  = Ok (nested_dicts 4 (VStr "[Max depth reached]"))
  /\ plain (nested_dicts 4 (VStr "[Max depth reached]")) = true
  /\ dicts_within 20 (nested_dicts 4 (VStr "[Max depth reached]")) = true
  /\ lists_within 10 (nested_dicts 4 (VStr "[Max depth reached]")) = true
  /\ (Z.of_nat (depth (nested_dicts 4 (VStr "[Max depth reached]")))
      <= Z.max 0 (3 - 0 + 1))%Z.
Proof.
  split; [reflexivity|].
  apply (simple_copy_is_bounded (nested_dicts 6 (VInt 1)) 3 0).
  reflexivity.
Defined.

(** X2: copying a copy changes nothing: what [_create_simple_copy]
    returned, copied again with the same depths, comes back as it is. *)
Theorem simple_copy_idempotent (obj : value) (max_depth current_depth : Z)
    (v : value) :
  _create_simple_copy obj max_depth current_depth = Ok v ->
  _create_simple_copy v max_depth current_depth = Ok v.
Proof. unfold _create_simple_copy; apply simple_copy_again. Qed.

Lemma simple_copy_idempotent_witness :
  _create_simple_copy (VList (repeat (nested_dicts 6 (VInt 1)) 12)) 3 0
  = Ok (VList (repeat (nested_dicts 3 (VStr "[Max depth reached]")) 10))
  /\ _create_simple_copy
       (VList (repeat (nested_dicts 3 (VStr "[Max depth reached]")) 10)) 3 0
     = Ok (VList (repeat (nested_dicts 3 (VStr "[Max depth reached]")) 10)).
Proof.
  split; [reflexivity|].
  apply (simple_copy_idempotent
           (VList (repeat (nested_dicts 6 (VInt 1)) 12)) 3 0).
  reflexivity.
Defined.

(** X3: data within the bounds is copied as it is: a value of scalars,
    mappings (no key twice, at most 20 entries) and sequences (at most 10
    elements) whose nesting depth is at most [max_depth - current_depth]
    (3 with the default arguments) is returned unchanged. *)
Theorem simple_copy_keeps_small_data (v : value)
    (max_depth current_depth : Z) :
  plain v = true ->
  keys_unique v = true ->
  dicts_within 20 v = true ->
  lists_within 10 v = true ->
  (Z.of_nat (depth v) <= max_depth - current_depth)%Z ->
  _create_simple_copy v max_depth current_depth = Ok v.
Proof.
  intros Hp Hk Hd Hl Hdepth; unfold _create_simple_copy.
  apply simple_copy_small; auto.
  unfold depth_gap; lia.
Qed.

Lemma simple_copy_keeps_small_data_witness :
  plain request_curso = true
  /\ keys_unique request_curso = true
  /\ dicts_within 20 request_curso = true
  /\ lists_within 10 request_curso = true
  /\ (Z.of_nat (depth request_curso) <= 3 - 0)%Z
  /\ _create_simple_copy request_curso 3 0 = Ok request_curso.
Proof.
  repeat (split; [reflexivity || (cbn; lia)|]).
  apply (simple_copy_keeps_small_data request_curso 3 0);
    reflexivity || (cbn; lia).
Defined.

(** ** [_deep_clean_data] on clean data *)

(** X4: the sanitizer leaves clean data as it is: a value of scalars,
    mappings (no key twice, no key of the deny-list, no string of more than
    10,000 characters as the value of a key) and sequences (at most 50
    elements) whose nesting depth is at most [max_depth - current_depth]
    (10 with the default arguments) is returned unchanged. *)
Theorem deep_clean_keeps_clean_data (v : value)
    (max_depth current_depth : Z) :
  plain v = true ->
  keys_unique v = true ->
  clean_entries v = true ->
  lists_within 50 v = true ->
  (Z.of_nat (depth v) <= max_depth - current_depth)%Z ->
  _deep_clean_data view_value v max_depth current_depth = Ok v.
Proof.
  intros Hp Hk Hc Hl Hdepth; unfold _deep_clean_data.
  rewrite clean_at_ok; f_equal.
  apply cleaned_small; auto.
  unfold depth_gap; lia.
Qed.

Lemma deep_clean_keeps_clean_data_witness :
  plain request_curso = true
  /\ keys_unique request_curso = true
  /\ clean_entries request_curso = true
  /\ lists_within 50 request_curso = true
  /\ (Z.of_nat (depth request_curso) <= 10 - 0)%Z
  /\ _deep_clean_data view_value request_curso 10 0 = Ok request_curso.
Proof.
  repeat (split; [reflexivity || (cbn; lia)|]).
  apply (deep_clean_keeps_clean_data request_curso 10 0);
    reflexivity || (cbn; lia).
Defined.

(** ** [_safe_combine_data] and [_combine_all_analyses] *)

Lemma safe_field_step_find (k field : string) (base : list (string * value))
    (combined : list (string * value)) :
  dict_find k
    (match dict_find field base with
     | Some field_value =>
         match _create_simple_copy field_value 3 0 with
         | Ok field_data => dict_set field field_data combined
         | Raise _ => combined
         end
     | None => combined
     end)
  = if String.eqb k field then
      match dict_find k base with
      | Some x =>
          match _create_simple_copy x 3 0 with
          | Ok c => Some c
          | Raise _ => dict_find k combined
          end
      | None => dict_find k combined
      end
    else dict_find k combined.
Proof.
  destruct (String.eqb_spec k field) as [->|Hne].
  - destruct (dict_find field base) as [x|]; [|reflexivity].
    destruct (_create_simple_copy x 3 0); [|reflexivity].
    apply dict_find_set_same.
  - apply String.eqb_neq in Hne.
    destruct (dict_find field base) as [x|]; [|reflexivity].
    destruct (_create_simple_copy x 3 0); [|reflexivity].
    now apply dict_find_set_other.
Qed.

(** X5: a lookup in what [_safe_combine_data] returns.  Under one of the
    three safe fields it finds the bounded copy of what the base analysis
    holds there, when the base analysis is a mapping that holds the field
    and the copy went through; in every other case, and under every other
    key, it finds what the request holds: no key of the request is lost and
    nothing else of the base analysis gets in. *)
Theorem safe_combine_lookup (original_data : list (string * value))
    (base_analysis : value) (k : string) :
  dict_find k (_safe_combine_data original_data base_analysis)
  = match base_analysis with
    | VDict base =>
        if in_strs k safe_fields then
          match dict_find k base with
          | Some x =>
              match _create_simple_copy x 3 0 with
              | Ok copied => Some copied
              | Raise _ => dict_find k original_data
              end
          | None => dict_find k original_data
          end
        else dict_find k original_data
    | _ => dict_find k original_data
    end.
Proof.
  unfold _safe_combine_data.
  destruct base_analysis as [| | | | | base | |]; try reflexivity.
  destruct base as [|entry base].
  - cbn [truthy dict_find]; now destruct (in_strs k safe_fields).
  - cbn [truthy]; set (b := entry :: base).
    unfold safe_fields, in_strs; cbn [fold_left existsb].
    rewrite !safe_field_step_find.
    destruct (String.eqb_spec k "pesquisa_web_massiva") as [->|_];
      [reflexivity|].
    destruct (String.eqb_spec k "avatar_ultra_detalhado") as [->|_];
      [reflexivity|].
    destruct (String.eqb_spec k "metadata_gigante") as [->|_];
      reflexivity.
Qed.

Lemma combine_all_frame_step (k field : string) (analysis : value)
    (key : string) (combined : list (string * value))
    (out : list (string * value)) :
  String.eqb k field = false ->
  (if truthy analysis then
     rbind (py_get analysis key (VDict []))
       (fun x => Ok (dict_set field x combined))
   else Ok combined) = Ok out ->
  dict_find k out = dict_find k combined.
Proof.
  intros Hk; destruct (truthy analysis); [|now intros [= <-]].
  intros H; apply rbind_ok_inv in H; destruct H as [x [_ [= <-]]].
  now apply dict_find_set_other.
Qed.

(** X6: [_combine_all_analyses] writes four keys at most: under every key
    other than [mercado], [avatar], [psicologia] and [funil] the mapping it
    returns holds what the request holds, whatever the three analyses
    are. *)
Theorem combine_all_keeps_request (base_analysis enhanced_analysis
    funnel_analysis : value) (original_data : list (string * value))
    (k : string) :
  in_strs k combined_fields = false ->
  dict_find k
    (_combine_all_analyses base_analysis enhanced_analysis funnel_analysis
       original_data)
  = dict_find k original_data.
Proof.
  unfold combined_fields, in_strs; cbn [existsb]; intros Hk.
  apply orb_false_iff in Hk; destruct Hk as [K1 Hk].
  apply orb_false_iff in Hk; destruct Hk as [K2 Hk].
  apply orb_false_iff in Hk; destruct Hk as [K3 Hk].
  apply orb_false_iff in Hk; destruct Hk as [K4 _].
  unfold _combine_all_analyses.
  match goal with
  | |- dict_find k (match ?body with _ => _ end) = _ =>
      destruct body as [combined|] eqn:Hbody; [|reflexivity]
  end.
  apply rbind_ok_inv in Hbody; destruct Hbody as [c1 [H1 Hbody]].
  apply rbind_ok_inv in Hbody; destruct Hbody as [c2 [H2 H3]].
  rewrite (combine_all_frame_step k "funil" _ _ _ _ K4 H3).
  rewrite (combine_all_frame_step k "psicologia" _ _ _ _ K3 H2).
  destruct (truthy base_analysis); [|now injection H1 as <-].
  apply rbind_ok_inv in H1; destruct H1 as [m [_ H1]].
  apply rbind_ok_inv in H1; destruct H1 as [a [_ [= <-]]].
  rewrite dict_find_set_other by exact K2.
  now apply dict_find_set_other.
Qed.

Lemma combine_all_keeps_request_witness :
  in_strs "segmento" combined_fields = false
  /\ dict_find "segmento"
       (_combine_all_analyses base_ok enhanced_ok funnel_ok request_varejo)
     = dict_find "segmento" request_varejo.
Proof.
  split; [reflexivity|].
  apply (combine_all_keeps_request base_ok enhanced_ok funnel_ok
           request_varejo "segmento").
  reflexivity.
Defined.

Lemma py_get_not_dict (v : value) (k : string) (default : value) :
  is_dict v = false -> py_get v k default = Raise (AttributeError v "get").
Proof. destruct v; try reflexivity; discriminate. Qed.

(** X7: [_combine_all_analyses] is all or nothing.  If one of the three
    analyses is true in Python's sense ([bool(x)], which is [False] for
    [None], an empty mapping or an empty tuple) and is no mapping, the
    handler returns the request as it came: the keys written for the
    analyses before it are dropped with it. *)
Theorem combine_all_gives_up_on_a_bad_analysis (base_analysis
    enhanced_analysis funnel_analysis : value)
    (original_data : list (string * value)) :
  truthy base_analysis && negb (is_dict base_analysis)
  || truthy enhanced_analysis && negb (is_dict enhanced_analysis)
  || truthy funnel_analysis && negb (is_dict funnel_analysis) = true ->
  _combine_all_analyses base_analysis enhanced_analysis funnel_analysis
    original_data
  = original_data.
Proof.
  intros Hbad; unfold _combine_all_analyses.
  match goal with
  | |- match ?body with _ => _ end = _ =>
      destruct body as [combined|] eqn:Hbody; [|reflexivity]
  end.
  exfalso.
  apply rbind_ok_inv in Hbody; destruct Hbody as [c1 [H1 Hbody]].
  apply rbind_ok_inv in Hbody; destruct Hbody as [c2 [H2 H3]].
  apply orb_true_iff in Hbad; destruct Hbad as [Hbad|Hbad];
    [apply orb_true_iff in Hbad; destruct Hbad as [Hbad|Hbad]|];
    apply andb_true_iff in Hbad; destruct Hbad as [Ht Hd];
    apply negb_true_iff in Hd.
  - rewrite Ht, (py_get_not_dict _ _ _ Hd) in H1; discriminate.
  - rewrite Ht, (py_get_not_dict _ _ _ Hd) in H2; discriminate.
  - rewrite Ht, (py_get_not_dict _ _ _ Hd) in H3; discriminate.
Qed.

Lemma combine_all_gives_up_on_a_bad_analysis_witness :
  truthy base_ok && negb (is_dict base_ok)
  || truthy enhanced_ok && negb (is_dict enhanced_ok)
  || truthy (VStr "sem funil") && negb (is_dict (VStr "sem funil")) = true
  /\ _combine_all_analyses base_ok enhanced_ok (VStr "sem funil")
       request_varejo
     = request_varejo.
Proof.
  split; [reflexivity|].
  apply (combine_all_gives_up_on_a_bad_analysis base_ok enhanced_ok
           (VStr "sem funil") request_varejo).
  reflexivity.
Defined.

(** An analysis that is false in Python's sense is skipped, mapping or
    not: with an empty tuple for the enhanced analysis the keys of the two
    others are written. *)
Example combine_all_skips_an_empty_tuple :
  _combine_all_analyses base_ok (VOther false (Ok "()")) funnel_ok
    request_varejo
  = request_varejo
    ++ [("mercado", VDict [("total_resultados", VInt 12)]);
        ("avatar", VDict [("perfil", VStr "Lojista")]);
        ("funil", VDict [("estagios", VInt 3)])].
Proof. reflexivity. Qed.

(** ** The fallback analysis *)

Lemma fallback_raises_on (env : collaborators)
    (data : list (string * value)) (v : value) :
  dict_find "segmento" data = Some v -> is_str v = false ->
  _create_fallback_analysis env data = Raise (AttributeError v "lower").
Proof.
  intros Hseg Hstr; unfold _create_fallback_analysis, dict_get.
  rewrite Hseg; destruct v; try reflexivity; discriminate.
Qed.

(** X8: [_create_fallback_analysis] raises exactly when the request binds
    [segmento] to something that is no string (a number, [None], a list):
    [segmento.lower()] is called on it.  With a string, or with no
    [segmento] at all, it returns. *)
Theorem fallback_analysis_needs_a_text_segment (env : collaborators)
    (data : list (string * value)) :
  raises (_create_fallback_analysis env data)
  <-> exists v, dict_find "segmento" data = Some v /\ is_str v = false.
Proof.
  split.
  - intros [e He]; unfold _create_fallback_analysis, dict_get in He.
    destruct (dict_find "segmento" data) as [v|]; [|discriminate].
    exists v; split; [reflexivity|].
    destruct v; try reflexivity; discriminate.
  - intros [v [Hseg Hstr]]; eexists; apply fallback_raises_on; eauto.
Qed.

Lemma run_base_escapes (env : collaborators) (data : list (string * value))
    (sid : string) (cb : option callback) (w : world) (e x : exn) :
  callback_returns cb ->
  generate_gigantic_analysis env data sid cb = Raise e ->
  _create_fallback_analysis env data = Raise x ->
  run_base env data sid cb w
  = (Raise x,
     {| execution_state := execution_state w;
        trace := trace w ++ [EProvider "generate_gigantic_analysis"
                               (Raise e)] |}).
Proof.
  intros Hcb Hprov Hfb; unfold run_base, try_except.
  unfold bind at 1; rewrite (call_progress_returns cb _ _ w Hcb).
  unfold bind at 1, call_provider, bind at 1, log, lift.
  rewrite Hprov; cbv beta iota.
  unfold bind; rewrite Hfb; reflexivity.
Qed.

(** X9: when the base provider raises and the request binds [segmento] to
    something that is no string, the run ends in the outermost handler: the
    fallback analysis raises inside the handler of the base stage, before
    that handler records anything.  The result is the minimal report, its
    [error_handled] the text of the [AttributeError]; the session is left
    [completed_with_errors]; no later stage runs; and the error sink gets
    one record, for the [AttributeError]: the exception of the provider is
    recorded nowhere. *)
Theorem failed_base_with_untyped_segment (env : collaborators)
    (data : list (string * value)) (sid : string) (cb : option callback)
    (w : world) (e : exn) (v : value) :
  error_sink_accepts env ->
  callback_returns cb ->
  generate_gigantic_analysis env data sid cb = Raise e ->
  dict_find "segmento" data = Some v ->
  is_str v = false ->
  exists w',
    execute_synchronized_analysis env data sid cb w
    = (Ok (_generate_minimal_success_report env data sid
             (str_exn (AttributeError v "lower"))), w')
    /\ session_status sid w' = Some (VStr "completed_with_errors")
    /\ trace w'
       = trace w
         ++ [EProvider "generate_gigantic_analysis" (Raise e);
             ESalvarErro "super_orchestrator_critico"
               (AttributeError v "lower") (session_context sid)].
Proof.
  intros Hsink Hcb Hprov Hseg Hstr.
  destruct (execute_unfold env data sid cb w)
    as [w0 [_ [Herr [_ [Htr ->]]]]].
  pose proof (fallback_raises_on env data v Hseg Hstr) as Hfb.
  unfold try_except.
  unfold bind at 1; rewrite (call_progress_returns cb _ _ w0 Hcb).
  unfold run_stages.
  rewrite (bind_raise _ _ _ _ _
             (bind_raise _ _ _ _ _
                (run_base_escapes env data sid cb w0 e _ Hcb Hprov Hfb))).
  match goal with
  | |- context [emergency env data sid ?x ?w1] =>
      destruct (emergency_returns env data sid x w1 Hsink)
        as [w' [Hret [Hst Htrace]]]
  end.
  - apply errors_empty_registered in Herr; exact Herr.
  - exists w'; split; [exact Hret|]; split; [exact Hst|].
    rewrite Htrace; cbn [trace]; rewrite Htr, <- app_assoc; reflexivity.
Qed.

Lemma failed_base_with_untyped_segment_witness :
  error_sink_accepts env_base_fails
  /\ callback_returns None
  /\ generate_gigantic_analysis env_base_fails request_untyped "s1" None
     = Raise timeout_error
  /\ dict_find "segmento" request_untyped = Some (VInt 7)
  /\ is_str (VInt 7) = false
  /\ exists w',
       execute_synchronized_analysis env_base_fails request_untyped "s1"
         None empty_world
       = (Ok (_generate_minimal_success_report env_base_fails
                request_untyped "s1"
                (str_exn (AttributeError (VInt 7) "lower"))), w')
       /\ session_status "s1" w' = Some (VStr "completed_with_errors")
       /\ trace w'
          = trace empty_world
            ++ [EProvider "generate_gigantic_analysis"
                  (Raise timeout_error);
                ESalvarErro "super_orchestrator_critico"
                  (AttributeError (VInt 7) "lower")
                  (session_context "s1")].
Proof.
  split; [intros nome e contexto; reflexivity|].
  split; [intros f Hf; discriminate|].
  split; [reflexivity|].
  split; [reflexivity|].
  split; [reflexivity|].
  apply (failed_base_with_untyped_segment env_base_fails request_untyped
           "s1" None empty_world timeout_error (VInt 7)).
  - intros nome e contexto; reflexivity.
  - intros f Hf; discriminate.
  - reflexivity.
  - reflexivity.
  - reflexivity.
Defined.

(** ** [_safe_save_all_data] *)

(** X10: [_safe_save_all_data] hands the results to the persistence sink
    three times, under [completas], [reports] and [analise_completa] in
    that order, whatever the sink answers: it returns even when every call
    raises, a refusal in one category does not stop the next, and the
    session table is not touched. *)
Theorem final_save_tries_every_category (env : collaborators)
    (results : value) (session_id : string) (w : world) :
  _safe_save_all_data env results session_id w
  = (Ok tt,
     {| execution_state := execution_state w;
        trace :=
          trace w
          ++ [ESalvarEtapa "resultado_final_completas" results "completas";
              ESalvarEtapa "resultado_final_reports" results "reports";
              ESalvarEtapa "resultado_final_analise_completa" results
                "analise_completa"] |}).
Proof.
  unfold _safe_save_all_data, essential_categories; cbn [save_in].
  unfold bind, attempt, call_salvar_etapa, bind, log, lift, ret.
  cbn [execution_state trace].
  repeat match goal with
         | |- context [salvar_etapa env ?n ?p ?c] =>
             destruct (salvar_etapa env n p c) as [[]|?]
         end;
    rewrite <- !app_assoc; reflexivity.
Qed.

(** ** [_extract_safe_data] *)

(** X11: the extraction stops at the first statement that raises.  When
    the data bind [projeto_dados] to something that is no mapping,
    [projeto.get] raises at once and [_extract_safe_data] returns the four
    defaults and nothing more: the research results, the processing time
    and the three presence flags are not looked at, whatever else the data
    hold. *)
Theorem malformed_project_stops_extraction (data : list (string * value))
    (projeto : value) :
  dict_find "projeto_dados" data = Some projeto ->
  is_dict projeto = false ->
  _extract_safe_data (VDict data) = safe_data_defaults.
Proof.
  intros Hproj Hdict.
  unfold _extract_safe_data, extract_body.
  unfold bind at 1, extract_projeto.
  unfold bind at 1, lift, py_contains, dict_has; rewrite Hproj.
  unfold bind at 1, py_subscript; rewrite Hproj.
  unfold bind at 1, read_key; cbn [dict_find String.eqb Ascii.eqb Bool.eqb].
  unfold bind at 1; rewrite (py_get_not_dict _ _ _ Hdict).
  reflexivity.
Qed.

Lemma malformed_project_stops_extraction_witness :
  dict_find "projeto_dados" data_project_as_text
  = Some (VStr "Varejo / Curso X")
  /\ is_dict (VStr "Varejo / Curso X") = false
  /\ _extract_safe_data (VDict data_project_as_text) = safe_data_defaults.
Proof.
  split; [reflexivity|]; split; [reflexivity|].
  apply (malformed_project_stops_extraction data_project_as_text
           (VStr "Varejo / Curso X")); reflexivity.
Defined.

(** ** [generate_clean_report] *)

Section ReportFacts.

Variable env : collaborators.

(** The report, in terms of the extracted data. *)
Lemma generate_clean_report_value (analysis_data session_id : value)
    (w : world) :
  exists report_data report,
    report_data
    = _extract_safe_data (cleaned_value view_value 11 analysis_data)
    /\ report
       = VDict
           [("session_id", session_id);
            ("timestamp", VStr (now_isoformat env "generate_clean_report"));
            ("engine_version", VStr "ARQV30 Enhanced v3.0 - ULTRA ROBUSTO");
            ("relatorio_executivo", relatorio_executivo env report_data);
            ("avatar_cliente_ideal",
             _create_detailed_avatar env report_data);
            ("arsenal_psicologico",
             _create_psychological_arsenal report_data);
            ("analise_mercado_real", _create_market_analysis report_data);
            ("estrategia_implementacao",
             _create_implementation_strategy report_data);
            ("metricas_qualidade", _create_quality_metrics report_data);
            ("analise_funil_vendas", _create_funnel_analysis report_data);
            ("insights_estrategicos_completos",
             _create_strategic_insights report_data);
            ("plano_acao_imediato", _create_action_plan report_data)]
    /\ generate_clean_report env analysis_data session_id w
       = (Ok report,
          {| execution_state := execution_state w;
             trace := trace w ++ [ESalvarEtapa "relatorio_ultra_robusto"
                                    report "completas"] |}).
Proof.
  eexists; eexists; split; [reflexivity|]; split; [reflexivity|].
  unfold generate_clean_report, try_except.
  unfold bind at 1, lift, _deep_clean_data.
  change (depth_gap 10 0) with 11; rewrite clean_at_ok.
  generalize (_extract_safe_data (cleaned_value view_value 11 analysis_data)).
  intros report_data.
  unfold bind, _safe_save_report, try_except, call_salvar_etapa, bind, log,
    lift, ret.
  cbv beta iota zeta.
  match goal with
  | |- context [salvar_etapa env ?n ?p ?c] =>
      destruct (salvar_etapa env n p c) as [[]|x]
  end; reflexivity.
Qed.

End ReportFacts.

(** X12: [generate_clean_report] returns for every input, hands the report
    it returns to the persistence sink once, as [relatorio_ultra_robusto]
    under [completas], and leaves the session table alone; a refusal of the
    sink changes neither the result nor the state. *)
Theorem clean_report_is_saved_once (env : collaborators)
    (analysis_data session_id : value) (w : world) :
  exists report,
    generate_clean_report env analysis_data session_id w
    = (Ok report,
       {| execution_state := execution_state w;
          trace := trace w ++ [ESalvarEtapa "relatorio_ultra_robusto" report
                                 "completas"] |})
    /\ field "session_id" report = Some session_id.
Proof.
  destruct (generate_clean_report_value env analysis_data session_id w)
    as [report_data [report [_ [Hreport Hrun]]]].
  exists report; split; [exact Hrun|].
  rewrite Hreport; reflexivity.
Qed.

(** X13: five sections of the assembled report do not depend on anything:
    [arsenal_psicologico], [estrategia_implementacao],
    [analise_funil_vendas], [insights_estrategicos_completos] and
    [plano_acao_imediato] are the same in any two reports, whatever the
    analysis data, the session, the clock and the sinks of the two
    calls. *)
Theorem clean_report_fixed_sections (env1 env2 : collaborators)
    (data1 data2 session1 session2 : value) (w1 w2 w1' w2' : world)
    (report1 report2 : value) (k : string) :
  In k fixed_sections ->
  generate_clean_report env1 data1 session1 w1 = (Ok report1, w1') ->
  generate_clean_report env2 data2 session2 w2 = (Ok report2, w2') ->
  field k report1 = field k report2 /\ field k report1 <> None.
Proof.
  intros Hk H1 H2.
  destruct (generate_clean_report_value env1 data1 session1 w1)
    as [rd1 [r1 [_ [Hr1 Hrun1]]]].
  destruct (generate_clean_report_value env2 data2 session2 w2)
    as [rd2 [r2 [_ [Hr2 Hrun2]]]].
  rewrite Hrun1 in H1; rewrite Hrun2 in H2.
  injection H1 as <- _; injection H2 as <- _; subst r1 r2.
  unfold fixed_sections in Hk; cbn [In] in Hk.
  repeat (destruct Hk as [<-|Hk]; [split; [reflexivity | discriminate]|]).
  contradiction.
Qed.

Lemma clean_report_fixed_sections_witness :
  In "analise_funil_vendas" fixed_sections
  /\ exists report1 report2 w1' w2',
       generate_clean_report env_all_succeed base_ok (VStr "s1") empty_world
       = (Ok report1, w1')
       /\ generate_clean_report env_all_fail VNone VNone empty_world
          = (Ok report2, w2')
       /\ field "analise_funil_vendas" report1
          = field "analise_funil_vendas" report2
       /\ field "analise_funil_vendas" report1 <> None.
Proof.
  split; [cbn; tauto|].
  do 4 eexists.
  split; [vm_compute; reflexivity|].
  split; [vm_compute; reflexivity|].
  eapply (clean_report_fixed_sections env_all_succeed env_all_fail base_ok
            VNone (VStr "s1") VNone empty_world empty_world).
  - cbn; tauto.
  - vm_compute; reflexivity.
  - vm_compute; reflexivity.
Defined.

(** X14: the quality statements of one report agree with one another.
    Whatever the input, the report has its executive summary, its quality
    metrics and its market analysis, and one fact, whether research
    results were found, decides all of these: the label [PREMIUM] or
    [BÁSICA], the reliability [Alta] or [Média], ten points of the score,
    and the presence of the section [dados_pesquisa].  The score is 85 plus
    those ten points plus five for a psychological analysis: never below
    85, never above 100. *)
Theorem clean_report_quality_is_consistent (env : collaborators)
    (analysis_data session_id : value) (w : world) :
  exists (report : value) (w' : world) (research psychology : bool)
         (summary metrics market : value),
    generate_clean_report env analysis_data session_id w = (Ok report, w')
    /\ field "relatorio_executivo" report = Some summary
    /\ field "metricas_qualidade" report = Some metrics
    /\ field "analise_mercado_real" report = Some market
    /\ field "qualidade_analise" summary
       = Some (VStr (if research then "PREMIUM" else "BÁSICA"))
    /\ field "confiabilidade_dados" metrics
       = Some (VStr (if research then "Alta" else "Média"))
    /\ field "score_qualidade_geral" metrics
       = Some (VInt (85 + (if research then 10 else 0)
                     + (if psychology then 5 else 0)))
    /\ (field "dados_pesquisa" market <> None <-> research = true).
Proof.
  destruct (generate_clean_report_value env analysis_data session_id w)
    as [report_data [report [_ [Hreport Hrun]]]].
  exists report; eexists.
  exists (truthy (dict_get report_data "has_research" VNone)),
         (truthy (dict_get report_data "has_psychological_analysis" VNone)).
  exists (relatorio_executivo env report_data),
         (_create_quality_metrics report_data),
         (_create_market_analysis report_data).
  split; [exact Hrun|].
  rewrite Hreport; clear Hreport Hrun report.
  split; [reflexivity|]; split; [reflexivity|]; split; [reflexivity|].
  unfold relatorio_executivo, _create_quality_metrics, quality_metrics_of,
    _create_market_analysis, market_analysis_base.
  destruct (truthy (dict_get report_data "has_research" VNone));
    destruct (truthy (dict_get report_data "has_psychological_analysis"
                        VNone));
    (split; [reflexivity|]); (split; [reflexivity|]);
    (split; [reflexivity|]); split; intros H; try reflexivity;
    try discriminate; try (exfalso; apply H; reflexivity).
Qed.

(** ** Every stage runs *)

Lemma provider_calls_app (t u : list event) :
  provider_calls (t ++ u) = provider_calls t ++ provider_calls u.
Proof. apply flat_map_app. Qed.

Lemma fallback_returns (env : collaborators) (data : list (string * value)) :
  segment_is_text data ->
  exists fb, _create_fallback_analysis env data = Ok fb.
Proof.
  intros Htext; unfold _create_fallback_analysis, dict_get.
  destruct (dict_find "segmento" data) as [v|] eqn:Hseg.
  - specialize (Htext v Hseg); destruct v; try discriminate.
    eexists; reflexivity.
  - eexists; reflexivity.
Qed.

Section StagesRun.

Variable env : collaborators.
Variable cb : option callback.
Hypothesis sink_ok : error_sink_accepts env.
Hypothesis cb_ok : callback_returns cb.

(** Brings the events of a stage to the calls made to providers. *)
Ltac stage_calls :=
  cbn [execution_state trace]; split; [reflexivity|];
  rewrite ?provider_calls_app; cbn [provider_calls flat_map app];
  rewrite ?app_nil_r; reflexivity.

Lemma run_base_runs (data : list (string * value)) (sid : string)
    (w : world) :
  segment_is_text data ->
  exists b w1,
    run_base env data sid cb w = (Ok b, w1)
    /\ execution_state w1 = execution_state w
    /\ provider_calls (trace w1)
       = provider_calls (trace w) ++ ["generate_gigantic_analysis"].
Proof.
  intros Htext; destruct (fallback_returns env data Htext) as [fb Hfb].
  unfold run_base, try_except.
  unfold bind at 1; rewrite (call_progress_returns cb _ _ w cb_ok).
  unfold call_provider, call_salvar_etapa, call_salvar_erro, bind, log,
    lift, ret.
  rewrite Hfb.
  destruct (generate_gigantic_analysis env data sid cb) as [b|e];
    cbv beta iota.
  - match goal with
    | |- context [salvar_etapa env ?n ?p ?c] =>
        destruct (salvar_etapa env n p c) as [[]|x]
    end; cbv beta iota; rewrite ?sink_ok; eexists; eexists;
      (split; [reflexivity|]); stage_calls.
  - rewrite sink_ok; eexists; eexists; (split; [reflexivity|]); stage_calls.
Qed.

Lemma run_enhanced_runs (data : list (string * value)) (sid : string)
    (base : value) (w : world) :
  exists e w1,
    run_enhanced env data sid cb base w = (Ok e, w1)
    /\ execution_state w1 = execution_state w
    /\ provider_calls (trace w1)
       = provider_calls (trace w) ++ ["execute_ultra_enhanced_analysis"].
Proof.
  unfold run_enhanced, try_except.
  unfold bind at 1; rewrite (call_progress_returns cb _ _ w cb_ok).
  cbv zeta.
  unfold call_provider, call_salvar_etapa, call_salvar_erro, bind, log,
    lift, ret.
  destruct (execute_ultra_enhanced_analysis env
              (_safe_combine_data data base) sid cb) as [e|x];
    cbv beta iota.
  - match goal with
    | |- context [salvar_etapa env ?n ?p ?c] =>
        destruct (salvar_etapa env n p c) as [[]|x]
    end; cbv beta iota; rewrite ?sink_ok; eexists; eexists;
      (split; [reflexivity|]); stage_calls.
  - rewrite sink_ok; eexists; eexists; (split; [reflexivity|]); stage_calls.
Qed.

Lemma run_guarded_runs (step : Z) (message stage : string)
    (outcome : result value) (etapa erro sid : string) (w : world) :
  exists v w1,
    run_guarded env (call_progress cb step message) stage outcome etapa erro
      sid w = (Ok v, w1)
    /\ execution_state w1 = execution_state w
    /\ provider_calls (trace w1) = provider_calls (trace w) ++ [stage].
Proof.
  unfold run_guarded.
  unfold bind at 1, attempt.
  unfold bind at 1; rewrite (call_progress_returns cb _ _ w cb_ok).
  unfold call_provider, call_salvar_etapa, call_salvar_erro, bind, log,
    lift, ret.
  destruct outcome as [v|x]; cbv beta iota.
  - match goal with
    | |- context [salvar_etapa env ?n ?p ?c] =>
        destruct (salvar_etapa env n p c) as [[]|y]
    end; cbv beta iota; rewrite ?sink_ok; eexists; eexists;
      (split; [reflexivity|]); stage_calls.
  - rewrite sink_ok; eexists; eexists; (split; [reflexivity|]); stage_calls.
Qed.

Lemma run_stages_run (data : list (string * value)) (sid : string)
    (w : world) :
  segment_is_text data ->
  exists b e f i w1,
    run_stages env data sid cb w = (Ok (b, e, f, i), w1)
    /\ execution_state w1 = execution_state w
    /\ provider_calls (trace w1) = provider_calls (trace w) ++ stage_order.
Proof.
  intros Htext; unfold run_stages.
  destruct (run_base_runs data sid w Htext) as [b [w1 [H1 [S1 C1]]]].
  destruct (run_enhanced_runs data sid b w1) as [e [w2 [H2 [S2 C2]]]].
  destruct (run_guarded_runs 10 "🔄 Analisando funil de vendas..."
              "analyze_conversion_funnel"
              (analyze_conversion_funnel env (_safe_combine_data data b)
                 (dict_get data "segmento" VNone))
              "analise_funil_vendas" "analise_funil_falhou" sid w2)
    as [f [w3 [H3 [S3 C3]]]].
  destruct (run_guarded_runs 11 "💡 Gerando insights estratégicos..."
              "generate_strategic_insights"
              (generate_strategic_insights env
                 (_combine_all_analyses b e f data))
              "insights_estrategicos" "insights_estrategicos_falhou" sid w3)
    as [i [w4 [H4 [S4 C4]]]].
  exists b, e, f, i, w4.
  rewrite (bind_ok _ _ _ _ _ H1), (bind_ok _ _ _ _ _ H2).
  unfold run_funnel, run_insights.
  rewrite (bind_ok _ _ _ _ _ H3), (bind_ok _ _ _ _ _ H4).
  split; [reflexivity|]; split; [congruence|].
  rewrite C4, C3, C2, C1; unfold stage_order.
  rewrite <- !app_assoc; reflexivity.
Qed.

End StagesRun.

(** ** The session table after a run *)

Lemma dict_set_twice {A : Type} (k : string) (v v' : A)
    (d : list (string * A)) :
  dict_set k v (dict_set k v' d) = dict_set k v d.
Proof.
  induction d as [|[k1 v1] d IH]; simpl.
  - now rewrite String.eqb_refl.
  - destruct (String.eqb k k1) eqn:Hk; simpl.
    + now rewrite String.eqb_refl.
    + now rewrite Hk, IH.
Qed.

Section RunOutcome.

Variable env : collaborators.

Lemma save_all_world (results : value) (sid : string) (w : world) :
  _safe_save_all_data env results sid w
  = (Ok tt,
     {| execution_state := execution_state w;
        trace :=
          trace w
          ++ [ESalvarEtapa "resultado_final_completas" results "completas";
              ESalvarEtapa "resultado_final_reports" results "reports";
              ESalvarEtapa "resultado_final_analise_completa" results
                "analise_completa"] |}).
Proof.
  unfold _safe_save_all_data, essential_categories; cbn [save_in].
  unfold bind, attempt, call_salvar_etapa, bind, log, lift, ret.
  cbn [execution_state trace].
  repeat match goal with
         | |- context [salvar_etapa env ?n ?p ?c] =>
             destruct (salvar_etapa env n p c) as [[]|?]
         end;
    rewrite <- !app_assoc; reflexivity.
Qed.

(** The two writes that close a run, on a registered session. *)
Lemma set_session_fields (sid k1 k2 : string) (v1 v2 : value)
    (entry : list (string * value)) (w : world) {A : Type} (k : M world A) :
  dict_find sid (execution_state w) = Some (VDict entry) ->
  bind (set_session_field sid k1 v1)
    (fun _ => bind (set_session_field sid k2 v2) (fun _ => k)) w
  = k {| execution_state :=
           dict_set sid (VDict (dict_set k2 v2 (dict_set k1 v1 entry)))
             (execution_state w);
         trace := trace w |}.
Proof.
  intros Hentry.
  unfold bind at 1, set_session_field at 1; rewrite Hentry.
  unfold bind at 1, set_session_field; cbn [execution_state trace].
  rewrite dict_find_set_same, dict_set_twice; reflexivity.
Qed.

(** How [finish] ends: it raises before it writes anything, or it returns
    with the session closed. *)
Lemma finish_outcome (data : list (string * value)) (sid : string)
    (cb : option callback) (t0 : Z) (b e f i : value)
    (entry : list (string * value)) (w w' : world) (r : result value) :
  dict_find sid (execution_state w) = Some (VDict entry) ->
  finish env data sid cb t0 (b, e, f, i) w = (r, w') ->
  (exists x,
     r = Raise x
     /\ execution_state w' = execution_state w
     /\ trace w' = trace w)
  \/ (exists report,
        _consolidate_results_robustly env b e f i data sid = Ok report
        /\ r = Ok (VDict
                     [("success", VBool true);
                      ("session_id", VStr sid);
                      ("execution_time", VFloat (time_end env - t0));
                      ("report", report);
                      ("sync_status", VStr "ULTRA_ROBUST_SUCCESS");
                      ("quality_level",
                       VStr (if truthy e then "PREMIUM" else "HIGH"))])
        /\ execution_state w'
           = dict_set sid
               (VDict (dict_set "execution_time"
                         (VFloat (time_end env - t0))
                         (dict_set "status" (VStr "completed") entry)))
               (execution_state w)
        /\ provider_calls (trace w') = provider_calls (trace w)).
Proof.
  intros Hentry; unfold finish.
  unfold bind at 1.
  destruct (call_progress cb 12 "📊 Consolidando resultados finais..." w)
    as [[[]|x] w1] eqn:H1; apply call_progress_world in H1; subst w1;
    [|intros [= <- <-]; left; eauto].
  unfold bind at 1, lift at 1.
  destruct (_consolidate_results_robustly env b e f i data sid)
    as [report|x]; [|intros [= <- <-]; left; eauto].
  unfold bind at 1.
  destruct (call_progress cb 15 "💾 Salvando resultados..." w)
    as [[[]|x] w1] eqn:H2; apply call_progress_world in H2; subst w1;
    [|intros [= <- <-]; left; eauto].
  unfold bind at 1; rewrite save_all_world.
  cbv zeta; rewrite (set_session_fields _ _ _ _ _ entry) by exact Hentry.
  unfold ret; cbn [execution_state trace]; intros [= <- <-].
  right; exists report; repeat split.
  cbn [trace]; rewrite provider_calls_app; cbn; now rewrite app_nil_r.
Qed.

Lemma emergency_outcome (data : list (string * value)) (sid : string)
    (x : exn) (entry : list (string * value)) (w : world) :
  dict_find sid (execution_state w) = Some (VDict entry) ->
  emergency env data sid x w
  = (rbind (salvar_erro env "super_orchestrator_critico" x
              (session_context sid))
       (fun _ =>
          Ok (_generate_minimal_success_report env data sid (str_exn x))),
     {| execution_state :=
          dict_set sid
            (VDict (dict_set "error" (VStr (str_exn x))
                      (dict_set "status" (VStr "completed_with_errors")
                         entry)))
            (execution_state w);
        trace := trace w ++ [ESalvarErro "super_orchestrator_critico" x
                               (session_context sid)] |}).
Proof.
  intros Hentry; unfold emergency.
  rewrite (set_session_fields _ _ _ _ _ entry) by exact Hentry.
  unfold call_salvar_erro, bind, log, lift, ret; cbn [execution_state trace].
  destruct (salvar_erro env "super_orchestrator_critico" x
              (session_context sid)) as [[]|y]; reflexivity.
Qed.

(** The two ways a run ends, with the entry it leaves for its session:
    whatever was there under the same id before is replaced. *)
Lemma execute_outcome (data : list (string * value)) (sid : string)
    (cb : option callback) (w w' : world) (r : result value) :
  execute_synchronized_analysis env data sid cb w = (r, w') ->
  (exists report quality,
     r = Ok (VDict
               [("success", VBool true);
                ("session_id", VStr sid);
                ("execution_time", VFloat (time_end env - time_start env));
                ("report", report);
                ("sync_status", VStr "ULTRA_ROBUST_SUCCESS");
                ("quality_level", VStr quality)])
     /\ execution_state w'
        = dict_set sid
            (session_completed (time_start env)
               (time_end env - time_start env))
            (execution_state w))
  \/ (exists x,
        r = rbind (salvar_erro env "super_orchestrator_critico" x
                     (session_context sid))
              (fun _ =>
                 Ok (_generate_minimal_success_report env data sid
                       (str_exn x)))
        /\ execution_state w'
           = dict_set sid (session_failed (time_start env) (str_exn x))
               (execution_state w)).
Proof.
  unfold execute_synchronized_analysis, try_except; cbv zeta.
  unfold bind at 1, register_session.
  set (w0 := {| execution_state := _; trace := trace w |}).
  assert (Hentry : dict_find sid (execution_state w0)
                   = Some (VDict [("status", VStr "running");
                                  ("start_time", VFloat (time_start env));
                                  ("errors", VList [])]))
    by (cbn [w0 execution_state]; apply dict_find_set_same).
  assert (Hstate : forall w1,
             execution_state w1 = execution_state w0 ->
             forall entry,
               dict_set sid entry (execution_state w1)
               = dict_set sid entry (execution_state w))
    by (intros w1 -> entry; cbn [w0 execution_state]; apply dict_set_twice).
  unfold bind at 1.
  destruct (call_progress cb 1 "🔧 Iniciando análise ultra robusta..." w0)
    as [[[]|x] w1] eqn:H1; apply call_progress_world in H1; subst w1.
  - unfold bind at 1.
    destruct (run_stages env data sid cb w0) as [[[[[b e] f] i]|x] w1]
      eqn:Hstages;
      pose proof (preserves_run_stages env _
                    (trace_blind_same_sessions (execution_state w0))
                    data sid cb w0 _ w1 eq_refl Hstages) as Hsame.
    + destruct (finish env data sid cb (time_start env) (b, e, f, i) w1)
        as [r1 w2] eqn:Hfin.
      rewrite <- Hsame in Hentry.
      destruct (finish_outcome _ _ _ _ _ _ _ _ _ _ _ _ Hentry Hfin)
        as [[x [-> [Hst Htr]]]|[report [_ [-> [Hst _]]]]].
      * rewrite <- Hst in Hentry.
        rewrite (emergency_outcome _ _ _ _ _ Hentry).
        intros [= <- <-]; right; exists x; split; [reflexivity|].
        cbn [execution_state]; rewrite (Hstate w2) by congruence.
        reflexivity.
      * intros [= <- <-]; left; eexists; eexists; split; [reflexivity|].
        rewrite Hst, (Hstate w1) by exact Hsame; reflexivity.
    + rewrite <- Hsame in Hentry.
      rewrite (emergency_outcome _ _ _ _ _ Hentry).
      intros [= <- <-]; right; exists x; split; [reflexivity|].
      cbn [execution_state]; rewrite (Hstate w1) by exact Hsame.
      reflexivity.
  - rewrite (emergency_outcome _ _ _ _ _ Hentry).
    intros [= <- <-]; right; exists x; split; [reflexivity|].
    cbn [execution_state]; rewrite (Hstate w0) by reflexivity.
    reflexivity.
Qed.

End RunOutcome.

Lemma copy_plain_section (env : collaborators) (key : string)
    (analysis : value) (consolidated : list (string * value)) :
  plain analysis = true ->
  exists d, add_section key analysis consolidated = Ok d.
Proof.
  intros Hp; unfold add_section.
  destruct (truthy analysis && is_dict analysis); [|eexists; reflexivity].
  destruct (simple_copy_plain_returns (depth_gap 3 0) analysis Hp) as [c Hc].
  unfold _create_simple_copy; rewrite Hc; eexists; reflexivity.
Qed.

Lemma consolidate_returns (env : collaborators) (b e f i : value)
    (data : list (string * value)) (sid : string) :
  plain b = true -> plain e = true -> plain f = true -> plain i = true ->
  plain (VDict data) = true ->
  exists report, _consolidate_results_robustly env b e f i data sid = Ok report.
Proof.
  intros Hb He Hf Hi Hd; unfold _consolidate_results_robustly.
  match goal with
  | |- context [add_section "analise_base" b ?c] =>
      destruct (copy_plain_section env "analise_base" b c Hb) as [c1 ->]
  end; cbn [rbind].
  destruct (copy_plain_section env "analise_aprimorada" e c1 He) as [c2 ->];
    cbn [rbind].
  destruct (copy_plain_section env "analise_funil" f c2 Hf) as [c3 ->];
    cbn [rbind].
  destruct (copy_plain_section env "insights_estrategicos" i c3 Hi)
    as [c4 ->]; cbn [rbind].
  destruct (simple_copy_plain_returns (depth_gap 3 0) (VDict data) Hd)
    as [c Hc].
  unfold _create_simple_copy; rewrite Hc; eexists; reflexivity.
Qed.

Lemma fallback_plain (env : collaborators) (data : list (string * value))
    (fb : value) :
  plain (VDict data) = true ->
  _create_fallback_analysis env data = Ok fb -> plain fb = true.
Proof.
  intros Hd; unfold _create_fallback_analysis.
  assert (Hget : forall k default,
             plain default = true -> plain (dict_get data k default) = true).
  { intros k default Hdef; unfold dict_get.
    destruct (dict_find k data) as [v|] eqn:Hk; [|exact Hdef].
    cbn [plain] in Hd; rewrite forallb_forall in Hd.
    clear Hdef; induction data as [|[k1 v1] d IH]; [discriminate|].
    cbn [dict_find] in Hk; destruct (String.eqb k k1).
    - injection Hk as <-; apply (Hd (k1, v1)); now left.
    - apply IH; [|exact Hk]; intros x Hx; apply Hd; now right. }
  intros H; apply rbind_ok_inv in H; destruct H as [s [_ [= <-]]].
  pose proof Hd as Hitems; cbn [plain] in Hitems.
  cbn [plain forallb snd]; rewrite Hitems, !Hget by reflexivity; reflexivity.
Qed.

(** X15: a failure does not stop the stages that follow.  When the error
    sink takes every record, the callback returns and the request's
    [segmento] is a string (or is missing), the run calls each of the four
    providers once, in the order base, enhanced, funnel, insights,
    whichever of them raise and whatever the persistence sink answers. *)
Theorem every_stage_runs (env : collaborators) (data : list (string * value))
    (sid : string) (cb : option callback) (w : world) :
  error_sink_accepts env ->
  callback_returns cb ->
  segment_is_text data ->
  exists v w',
    execute_synchronized_analysis env data sid cb w = (Ok v, w')
    /\ provider_calls (trace w') = provider_calls (trace w) ++ stage_order.
Proof.
  intros Hsink Hcb Htext.
  destruct (execute_unfold env data sid cb w)
    as [w0 [_ [Herr [_ [Htr ->]]]]].
  destruct Herr as [entry [Hentry _]].
  unfold try_except.
  unfold bind at 1; rewrite (call_progress_returns cb _ _ w0 Hcb).
  destruct (run_stages_run env cb Hsink Hcb data sid w0 Htext)
    as [b [e [f [i [w1 [Hstages [Hsame Hcalls]]]]]]].
  rewrite (bind_ok _ _ _ _ _ Hstages).
  rewrite <- Hsame in Hentry; rewrite Htr in Hcalls.
  destruct (finish env data sid cb (time_start env) (b, e, f, i) w1)
    as [r w2] eqn:Hfin.
  destruct (finish_outcome _ _ _ _ _ _ _ _ _ _ _ _ _ Hentry Hfin)
    as [[x [-> [Hst Ht]]]|[report [_ [-> [_ Hc]]]]].
  - rewrite <- Hst in Hentry.
    rewrite (emergency_outcome _ _ _ _ _ _ Hentry), Hsink; cbn [rbind].
    eexists; eexists; split; [reflexivity|].
    cbn [trace]; rewrite provider_calls_app, Ht, Hcalls; cbn.
    now rewrite app_nil_r.
  - eexists; eexists; split; [reflexivity|]; congruence.
Qed.

Lemma every_stage_runs_witness :
  error_sink_accepts env_all_fail
  /\ callback_returns (Some quiet_callback)
  /\ segment_is_text request_varejo
  /\ exists v w',
       execute_synchronized_analysis env_all_fail request_varejo "s1"
         (Some quiet_callback) empty_world = (Ok v, w')
       /\ provider_calls (trace w')
          = provider_calls (trace empty_world) ++ stage_order.
Proof.
  assert (H1 : error_sink_accepts env_all_fail)
    by (intros nome e contexto; reflexivity).
  assert (H2 : callback_returns (Some quiet_callback))
    by (intros f [= <-] step message; reflexivity).
  assert (H3 : segment_is_text request_varejo)
    by (intros v Hv; cbn in Hv; injection Hv as <-; reflexivity).
  split; [exact H1|]; split; [exact H2|]; split; [exact H3|].
  exact (every_stage_runs env_all_fail request_varejo "s1"
           (Some quiet_callback) empty_world H1 H2 H3).
Defined.

Lemma finish_returns (env : collaborators) (data : list (string * value))
    (sid : string) (cb : option callback) (t0 : Z) (b e f i report : value)
    (entry : list (string * value)) (w : world) :
  callback_returns cb ->
  dict_find sid (execution_state w) = Some (VDict entry) ->
  _consolidate_results_robustly env b e f i data sid = Ok report ->
  exists w',
    finish env data sid cb t0 (b, e, f, i) w
    = (Ok (VDict
             [("success", VBool true);
              ("session_id", VStr sid);
              ("execution_time", VFloat (time_end env - t0));
              ("report", report);
              ("sync_status", VStr "ULTRA_ROBUST_SUCCESS");
              ("quality_level",
               VStr (if truthy e then "PREMIUM" else "HIGH"))]), w')
    /\ session_status sid w' = Some (VStr "completed").
Proof.
  intros Hcb Hentry Hreport; unfold finish.
  unfold bind at 1; rewrite (call_progress_returns cb _ _ w Hcb).
  unfold bind at 1, lift at 1; rewrite Hreport.
  unfold bind at 1; rewrite (call_progress_returns cb _ _ w Hcb).
  unfold bind at 1; rewrite save_all_world.
  cbv zeta; rewrite (set_session_fields _ _ _ _ _ entry) by exact Hentry.
  unfold ret; eexists; split; [reflexivity|].
  unfold session_status; cbn [execution_state].
  rewrite dict_find_set_same; cbn [field].
  rewrite dict_find_set_other by reflexivity.
  apply dict_find_set_same.
Qed.

(** X16: when nothing in the data is of a foreign type, the run returns
    normally.  If the error sink takes every record, the callback returns,
    the request is made of scalars, mappings and sequences with a string
    (or nothing) for [segmento], and so is whatever the providers return,
    then the outermost handler is not entered: the result is the one of the
    normal return, with [sync_status] [ULTRA_ROBUST_SUCCESS], and the
    session is left [completed], whichever providers raise and whatever the
    persistence sink answers. *)
Theorem plain_data_returns_normally (env : collaborators)
    (data : list (string * value)) (sid : string) (cb : option callback)
    (w : world) :
  error_sink_accepts env ->
  callback_returns cb ->
  providers_return_plain env ->
  plain (VDict data) = true ->
  segment_is_text data ->
  exists report quality w',
    execute_synchronized_analysis env data sid cb w
    = (Ok (VDict
             [("success", VBool true);
              ("session_id", VStr sid);
              ("execution_time", VFloat (time_end env - time_start env));
              ("report", report);
              ("sync_status", VStr "ULTRA_ROBUST_SUCCESS");
              ("quality_level", VStr quality)]), w')
    /\ session_status sid w' = Some (VStr "completed").
Proof.
  intros Hsink Hcb [Pb [Pe [Pf Pi]]] Hdata Htext.
  destruct (execute_unfold env data sid cb w)
    as [w0 [_ [Herr [_ [_ ->]]]]].
  destruct Herr as [entry [Hentry _]].
  unfold try_except.
  unfold bind at 1; rewrite (call_progress_returns cb _ _ w0 Hcb).
  destruct (run_stages_run env cb Hsink Hcb data sid w0 Htext)
    as [b [e [f [i [w1 [Hstages [Hsame _]]]]]]].
  rewrite (bind_ok _ _ _ _ _ Hstages).
  destruct (run_stages_values _ _ _ _ _ _ _ _ _ _ Hstages)
    as [Hb [He [Hf Hi]]].
  assert (Hpb : plain b = true).
  { destruct Hb as [Hb|Hb]; [eapply Pb; exact Hb|].
    eapply fallback_plain; eauto. }
  assert (Hpe : plain e = true)
    by (destruct He as [->|He]; [reflexivity | eapply Pe; exact He]).
  assert (Hpf : plain f = true)
    by (destruct Hf as [->|Hf]; [reflexivity | eapply Pf; exact Hf]).
  assert (Hpi : plain i = true)
    by (destruct Hi as [->|Hi]; [reflexivity | eapply Pi; exact Hi]).
  destruct (consolidate_returns env b e f i data sid Hpb Hpe Hpf Hpi Hdata)
    as [report Hreport].
  rewrite <- Hsame in Hentry.
  destruct (finish_returns env data sid cb (time_start env) b e f i report
              entry w1 Hcb Hentry Hreport) as [w' [-> Hst]].
  exists report, (if truthy e then "PREMIUM" else "HIGH"), w'; auto.
Qed.

Lemma plain_data_returns_normally_witness :
  error_sink_accepts env_all_succeed
  /\ callback_returns None
  /\ providers_return_plain env_all_succeed
  /\ plain (VDict request_varejo) = true
  /\ segment_is_text request_varejo
  /\ exists report quality w',
       execute_synchronized_analysis env_all_succeed request_varejo "s1"
         None empty_world
       = (Ok (VDict
                [("success", VBool true);
                 ("session_id", VStr "s1");
                 ("execution_time",
                  VFloat (time_end env_all_succeed
                          - time_start env_all_succeed));
                 ("report", report);
                 ("sync_status", VStr "ULTRA_ROBUST_SUCCESS");
                 ("quality_level", VStr quality)]), w')
       /\ session_status "s1" w' = Some (VStr "completed").
Proof.
  assert (H1 : error_sink_accepts env_all_succeed)
    by (intros nome e contexto; reflexivity).
  assert (H2 : callback_returns None) by (intros f Hf; discriminate).
  assert (H3 : providers_return_plain env_all_succeed)
    by (repeat split; intros; match goal with
                              | H : _ = Ok _ |- _ =>
                                  injection H as <-; reflexivity
                              end).
  assert (H4 : plain (VDict request_varejo) = true) by reflexivity.
  assert (H5 : segment_is_text request_varejo)
    by (intros v Hv; cbn in Hv; injection Hv as <-; reflexivity).
  split; [exact H1|]; split; [exact H2|]; split; [exact H3|].
  split; [exact H4|]; split; [exact H5|].
  exact (plain_data_returns_normally env_all_succeed request_varejo "s1"
           None empty_world H1 H2 H3 H4 H5).
Defined.

(** ** [get_session_progress] and [get_analysis_status] *)

(** X17: once [execute_synchronized_analysis] is over,
    [get_session_progress] reports its session as completed, at 100 per
    cent: after the normal return, after the outermost handler, and even
    when the error sink made the run itself raise.  It holds for every
    session id, the empty string included. *)
Theorem progress_after_a_run (env : collaborators)
    (data : list (string * value)) (sid : string) (cb : option callback)
    (w : world) :
  get_session_progress sid
    (snd (execute_synchronized_analysis env data sid cb w))
  = progress_completed.
Proof.
  destruct (execute_synchronized_analysis env data sid cb w) as [r w']
    eqn:Hrun.
  apply execute_outcome in Hrun; cbn [snd].
  unfold get_session_progress, dict_has, py_subscript.
  destruct Hrun as [[report [quality [_ ->]]]|[x [_ ->]]];
    rewrite dict_find_set_same; reflexivity.
Qed.

(** X18: what [get_analysis_status] says of a session whose run is over,
    when the id is not the empty string and the error sink takes every
    record.  After the normal return the status is [completed] and the
    error is [None]; after the outermost handler the status is
    [completed_with_errors] and the error is the text the result carries
    as [error_handled].  [started_at] is the clock reading at the start of
    the run.  Nothing an earlier run left under the same id shows
    through. *)
Theorem status_after_a_run (env : collaborators)
    (data : list (string * value)) (sid : string) (cb : option callback)
    (w : world) :
  sid <> EmptyString ->
  error_sink_accepts env ->
  exists v w',
    execute_synchronized_analysis env data sid cb w = (Ok v, w')
    /\ ((field "sync_status" v = Some (VStr "ULTRA_ROBUST_SUCCESS")
         /\ get_analysis_status (Some sid) w'
            = VDict [("session_id", VStr sid);
                     ("status", VStr "completed");
                     ("started_at", VFloat (time_start env));
                     ("error", VNone)])
        \/ (exists message,
              field "error_handled" v = Some (VStr message)
              /\ get_analysis_status (Some sid) w'
                 = VDict [("session_id", VStr sid);
                          ("status", VStr "completed_with_errors");
                          ("started_at", VFloat (time_start env));
                          ("error", VStr message)])).
Proof.
  intros Hsid Hsink.
  destruct (execute_synchronized_analysis env data sid cb w) as [r w']
    eqn:Hrun.
  apply execute_outcome in Hrun.
  assert (Hne : negb (String.eqb sid EmptyString) = true)
    by (apply negb_true_iff, String.eqb_neq; exact Hsid).
  destruct Hrun as [[report [quality [-> Hst]]]|[x [-> Hst]]].
  - eexists; eexists; split; [reflexivity|]; left; split; [reflexivity|].
    unfold get_analysis_status, dict_has, py_subscript.
    rewrite Hne, Hst, dict_find_set_same; reflexivity.
  - rewrite Hsink; cbn [rbind].
    eexists; eexists; split; [reflexivity|]; right; exists (str_exn x).
    split; [reflexivity|].
    unfold get_analysis_status, dict_has, py_subscript.
    rewrite Hne, Hst, dict_find_set_same; reflexivity.
Qed.

Lemma status_after_a_run_witness :
  "s1" <> EmptyString
  /\ error_sink_accepts env_all_succeed
  /\ exists v w',
       execute_synchronized_analysis env_all_succeed request_varejo "s1" None
         empty_world = (Ok v, w')
       /\ ((field "sync_status" v = Some (VStr "ULTRA_ROBUST_SUCCESS")
            /\ get_analysis_status (Some "s1") w'
               = VDict [("session_id", VStr "s1");
                        ("status", VStr "completed");
                        ("started_at", VFloat (time_start env_all_succeed));
                        ("error", VNone)])
           \/ (exists message,
                 field "error_handled" v = Some (VStr message)
                 /\ get_analysis_status (Some "s1") w'
                    = VDict [("session_id", VStr "s1");
                             ("status", VStr "completed_with_errors");
                             ("started_at",
                              VFloat (time_start env_all_succeed));
                             ("error", VStr message)])).
Proof.
  assert (H1 : "s1" <> EmptyString) by discriminate.
  assert (H2 : error_sink_accepts env_all_succeed)
    by (intros nome e contexto; reflexivity).
  split; [exact H1|]; split; [exact H2|].
  exact (status_after_a_run env_all_succeed request_varejo "s1" None
           empty_world H1 H2).
Defined.

(** X19: [get_analysis_status] answers [not_found] in three cases and no
    other: no id was given, the id is the empty string, or the table has
    no entry under the id.  A session registered under the empty string is
    therefore never found, though [get_session_progress] reports it. *)
Theorem status_not_found_iff (session_id : option string) (w : world) :
  get_analysis_status session_id w = status_not_found
  <-> (session_id = None
       \/ session_id = Some EmptyString
       \/ exists sid,
            session_id = Some sid
            /\ dict_find sid (execution_state w) = None).
Proof.
  unfold get_analysis_status, dict_has, py_subscript.
  destruct session_id as [sid|]; [|split; auto].
  destruct (String.eqb_spec sid EmptyString) as [->|Hne]; cbn [negb andb].
  - split; auto.
  - destruct (dict_find sid (execution_state w)) as [analysis|] eqn:Hfind.
    + split.
      * destruct analysis; cbn; discriminate.
      * intros [H|[H|[s [H1 H2]]]]; try discriminate.
        -- injection H as ->; contradiction.
        -- injection H1 as <-; congruence.
    + split; [|reflexivity].
      intros _; right; right; exists sid; auto.
Qed.

(** X20: a run writes the entry of its own session and no other: under
    every other id the session table holds after the run what it held
    before, however the run ended. *)
Theorem run_touches_its_session_only (env : collaborators)
    (data : list (string * value)) (sid other : string)
    (cb : option callback) (w : world) :
  String.eqb other sid = false ->
  dict_find other
    (execution_state (snd (execute_synchronized_analysis env data sid cb w)))
  = dict_find other (execution_state w).
Proof.
  intros Hother.
  destruct (execute_synchronized_analysis env data sid cb w) as [r w']
    eqn:Hrun.
  apply execute_outcome in Hrun; cbn [snd].
  destruct Hrun as [[report [quality [_ ->]]]|[x [_ ->]]];
    now apply dict_find_set_other.
Qed.

Lemma run_touches_its_session_only_witness :
  String.eqb "s2" "s1" = false
  /\ dict_find "s2"
       (execution_state
          (snd (execute_synchronized_analysis env_all_fail request_varejo
                  "s1" None
                  {| execution_state := [("s2", session_completed 10 5)];
                     trace := [] |})))
     = dict_find "s2"
         (execution_state
            {| execution_state := [("s2", session_completed 10 5)];
               trace := [] |}).
Proof.
  split; [reflexivity|].
  apply (run_touches_its_session_only env_all_fail request_varejo "s1" "s2"
           None
           {| execution_state := [("s2", session_completed 10 5)];
              trace := [] |}).
  reflexivity.
Defined.

(** ** The strategic insights generator *)

Lemma insights_of_mapping (now : string -> string)
    (analysis_data : list (string * value)) :
  StrategicInsightsGenerator.generate_strategic_insights now
    (VDict analysis_data)
  = StrategicInsightsGenerator.generate_strategic_insights now (VDict []).
Proof. reflexivity. Qed.

(** X21: [generate_strategic_insights] does not read the analysis it is
    given.  It returns for every input, and what it returns is one of two
    values fixed up to the clock: for a mapping, whatever it holds, the
    insights it gives for the empty mapping; for anything else ([None], a
    list, a text) the fallback insights. *)
Theorem insights_do_not_read_the_analysis (now : string -> string)
    (analysis_data : value) :
  StrategicInsightsGenerator.generate_strategic_insights now analysis_data
  = if is_dict analysis_data then
      StrategicInsightsGenerator.generate_strategic_insights now (VDict [])
    else StrategicInsightsGenerator._create_fallback_insights now.
Proof.
  unfold StrategicInsightsGenerator.generate_strategic_insights,
    StrategicInsightsGenerator._analyze_market_trends.
  destruct analysis_data; reflexivity.
Qed.

Lemma run_stages_insights (env : collaborators)
    (data : list (string * value)) (sid : string) (cb : option callback)
    (w w' : world) (b e f i a : value) :
  callback_returns cb ->
  run_stages env data sid cb w = (Ok (b, e, f, i), w') ->
  generate_strategic_insights env (_combine_all_analyses b e f data) = Ok a ->
  i = a.
Proof.
  intros Hcb H Ha; unfold run_stages in H.
  apply bind_ok_inv in H; destruct H as [b0 [w1 [_ H]]].
  apply bind_ok_inv in H; destruct H as [e0 [w2 [_ H]]].
  apply bind_ok_inv in H; destruct H as [f0 [w3 [_ H]]].
  apply bind_ok_inv in H; destruct H as [i0 [w4 [Hi H]]].
  injection H as <- <- <- <- <-.
  unfold run_insights in Hi; rewrite Ha in Hi.
  eapply run_guarded_keeps; eauto.
Qed.

Lemma insights_copy (now : string -> string) :
  exists copied recs,
    _create_simple_copy
      (StrategicInsightsGenerator.generate_strategic_insights now (VDict []))
      3 0 = Ok copied
    /\ lookup_path ["insights_estrategicos"; "recomendacoes_estrategicas"]
         copied = Some (VList recs)
    /\ List.length recs = 4
    /\ forallb all_marked recs = true.
Proof.
  eexists; eexists; split; [vm_compute; reflexivity|].
  split; [vm_compute; reflexivity|]; split; reflexivity.
Qed.

(** X22: the consolidated report keeps the strategic recommendations in
    name only.  In a run that returns normally, with a callback that
    returns and the repository's insights generator as the fourth
    provider, the section [insights_estrategicos] of the report holds four
    recommendations, each a mapping whose every key holds the string
    ["[Max depth reached]"]: the recommendations lie at the fourth level
    of what the generator returns, one below the [max_depth] of 3 the
    orchestrator copies with. *)
Theorem consolidated_recommendations_are_emptied (env : collaborators)
    (data : list (string * value)) (sid : string) (cb : option callback)
    (w w' : world) (v : value) :
  callback_returns cb ->
  insights_from_repository env ->
  execute_synchronized_analysis env data sid cb w = (Ok v, w') ->
  field "sync_status" v = Some (VStr "ULTRA_ROBUST_SUCCESS") ->
  exists recs,
    lookup_path
      ["report"; "insights_estrategicos"; "insights_estrategicos";
       "recomendacoes_estrategicas"] v
    = Some (VList recs)
    /\ List.length recs = 4
    /\ forallb all_marked recs = true.
Proof.
  intros Hcb Hrepo Hrun Hsync.
  destruct (normal_return_inv env data sid cb w w' v Hrun Hsync)
    as [w0 [b [e [f [i [w1 [_ [_ [Hstages Hfin]]]]]]]]].
  pose proof (run_stages_insights _ _ _ _ _ _ _ _ _ _ _ Hcb Hstages
                (Hrepo _)) as Hi.
  rewrite insights_of_mapping in Hi.
  apply finish_ok_inv in Hfin; destruct Hfin as [report [Hcons [-> _]]].
  apply consolidated_sections in Hcons.
  destruct Hcons as [d [-> [_ [_ [_ [Hsec _]]]]]].
  destruct (insights_copy (now_isoformat env))
    as [copied [recs [Hcopy [Hpath [Hlen Hmarked]]]]].
  unfold section_holds in Hsec; rewrite Hi in Hsec.
  change (truthy
            (StrategicInsightsGenerator.generate_strategic_insights
               (now_isoformat env) (VDict []))
          && is_dict
               (StrategicInsightsGenerator.generate_strategic_insights
                  (now_isoformat env) (VDict []))) with true in Hsec.
  cbv iota in Hsec; destruct Hsec as [c [Hc Hfind]].
  rewrite Hcopy in Hc; injection Hc as <-.
  exists recs; split; [|split; assumption].
  change (lookup_path
            ["report"; "insights_estrategicos"; "insights_estrategicos";
             "recomendacoes_estrategicas"]
            (VDict
               [("success", VBool true); ("session_id", VStr sid);
                ("execution_time",
                 VFloat (time_end env - time_start env));
                ("report", VDict d);
                ("sync_status", VStr "ULTRA_ROBUST_SUCCESS");
                ("quality_level",
                 VStr (if truthy e then "PREMIUM" else "HIGH"))]))
    with (match dict_find "insights_estrategicos" d with
          | Some x =>
              lookup_path
                ["insights_estrategicos"; "recomendacoes_estrategicas"] x
          | None => None
          end).
  rewrite Hfind; exact Hpath.
Qed.

Lemma consolidated_recommendations_are_emptied_witness :
  callback_returns None
  /\ insights_from_repository env_repository_insights
  /\ exists v w',
       execute_synchronized_analysis env_repository_insights request_varejo
         "s1" None empty_world = (Ok v, w')
       /\ field "sync_status" v = Some (VStr "ULTRA_ROBUST_SUCCESS")
       /\ exists recs,
            lookup_path
              ["report"; "insights_estrategicos"; "insights_estrategicos";
               "recomendacoes_estrategicas"] v
            = Some (VList recs)
            /\ List.length recs = 4
            /\ forallb all_marked recs = true.
Proof.
  assert (H1 : callback_returns None) by (intros f Hf; discriminate).
  assert (H2 : insights_from_repository env_repository_insights)
    by (intros analysis_data; reflexivity).
  split; [exact H1|]; split; [exact H2|].
  do 2 eexists.
  split; [vm_compute; reflexivity|].
  split; [reflexivity|].
  eapply (consolidated_recommendations_are_emptied env_repository_insights
            request_varejo "s1" None empty_world).
  - exact H1.
  - exact H2.
  - vm_compute; reflexivity.
  - reflexivity.
Defined.
